(** * Pascal plagiarism detector: scorer, verdict and batch analysis

    A shallow embedding of
    [backend/src/services/plagiarism/pascalPlagiarismDetector.ts]
    (classes [PascalPlagiarismDetector] and [FragmentMapper]).

    Conventions of the embedding.
    - A JavaScript [number] that holds a count or an index is a [Z]; one that
      holds a score is a rational [Q] (IEEE rounding is not modelled).  The
      only irrational operation of the file, [Math.sqrt] in the batch
      threshold, is taken in [R].
    - [a > b] is [Num.gtb a b] and [a >= b] is [Num.geb a b].
    - A value that may be [undefined] is an [option]; [x || d] on numbers is
      [Num.falsy_or].
    - An exception is the [Err] case of [Result]; [await] is sequencing.
    - [console.log] and the [initialized] flag have no effect on a returned
      value and are left out, as is [processingTime] (wall clock). *)

From Stdlib Require Import Reals Qreals Lra.
From Stdlib Require Import ZArith QArith Qminmax List String Ascii Bool.
From Stdlib Require Import Lia Permutation DecimalString ListSet Sorted.
From Stdlib Require Lqa.
Import ListNotations.

Local Open Scope Z_scope.

(** ** Numbers *)

Module Num.

(** [a > b] *)
Definition gtb (a b : Q) : bool := negb (Qle_bool a b).

(** [a >= b] *)
Definition geb (a b : Q) : bool := Qle_bool b a.

(** [xs.length] *)
Definition len {A : Type} (xs : list A) : Z := Z.of_nat (List.length xs).

(** [x || d] for a numeric [x] that may be [undefined]: [undefined] and [0]
    are both falsy. *)
Definition falsy_or (x : option Z) (d : Z) : Z :=
  match x with
  | Some v => if v =? 0 then d else v
  | None => d
  end.

(** [x ?? d] *)
Definition nullish_or {A : Type} (x : option A) (d : A) : A :=
  match x with
  | Some v => v
  | None => d
  end.

End Num.

(** ** Data model *)

(** Modelled from the spec: the source region of a token, with start and end
    row and column (section 3); [util/region.ts] is not part of the sources.
    The detector reads [startRow] only, and allows for its absence. *)
Record Region := mkRegion {
  startRow : option Z;
  startCol : Z;
  endRow : Z;
  endCol : Z
}.

(** Modelled from the spec: a tokenized file is the sequence of token values
    and the parallel position map (section 3); [file/tokenizedFile.ts] is not
    part of the sources.  An entry of [mapping] may be absent, which is what
    [?.] guards. *)
Record TokenizedFile := mkTokenizedFile {
  tokens : list string;
  mapping : list (option Region)
}.

(** One side of a paired occurrence, as the detector reads it: the token
    positions [start] and [stop]. *)
Record Side := mkSide {
  start : Z;
  stop : Z
}.

Record PairedOccurrence := mkPaired {
  left : Side;
  right : Side
}.

(** A k-gram range.  The class is not part of the sources; [length] is the
    value of its [length] property as the detector reads it. *)
Module Range.
Record t := mk {
  from : Z;
  to : Z;
  length : Z
}.
End Range.

Record Fragment := mkFragment {
  pairs : list PairedOccurrence;
  leftkgrams : Range.t;
  rightkgrams : Range.t
}.

(** [algorithm/pair.ts] is not part of the sources: a pair is what the
    detector reads of it. *)
Module Pair.
Record t := mk {
  similarity : Q;
  overlap : Z;
  longest : Z;
  leftCovered : Z;
  rightCovered : Z;
  leftTotal : Z;
  rightTotal : Z;
  buildFragments : Z -> list Fragment
}.
End Pair.

Record FileInput := mkFileInput {
  name : string;
  content : string
}.

Inductive FragmentType := EXACT | SIMILAR | STRUCTURAL.

Inductive Confidence := LOW | MEDIUM | HIGH | VERY_HIGH.

Record LineRange := mkLines {
  line_start : Z;
  line_end : Z;
  line_count : Z
}.

Record TokenRange := mkTokenRange {
  tok_start : Z;
  tok_end : Z;
  tok_tokens : Z
}.

Module MappedFragment.
Record t := mk {
  fragmentId : Z;
  confidence : Q;
  fragmentType : FragmentType;
  file1Lines : LineRange;
  file2Lines : LineRange;
  file1TokenRange : TokenRange;
  file2TokenRange : TokenRange;
  sharedTokens : list string;
  tokenPattern : string;
  file1CodeSnippet : string;
  file2CodeSnippet : string;
  file1CodeWithLineNumbers : string;
  file2CodeWithLineNumbers : string;
  (** [None] is [NaN], which arises as [0 / 0] when [kgramSize] is 0. *)
  localSimilarity : option Q;
  sharedFingerprints : Z
}.
End MappedFragment.

(** The value returned by [performSyntacticAnalysis]. *)
Module Syntactic.
Record t := mk {
  similarity : Q;
  sharedFingerprints : Z;
  longestFragment : Z;
  coverage1 : Q;
  coverage2 : Q;
  pair : Pair.t
}.
End Syntactic.

(** The value returned by [mapFragments]. *)
Module Mapping.
Record t := mk {
  mappedFragments : list MappedFragment.t;
  totalMappedFragments : Z;
  significantMappedFragments : Z;
  totalSharedLines : Z;
  totalSharedTokens : Z
}.
End Mapping.

Module PlagiarismResult.
Record t := mk {
  syntacticSimilarity : Q;
  overallSimilarity : Q;
  sharedFragments : Z;
  longestFragment : Z;
  coverage1 : Q;
  coverage2 : Q;
  mappedFragments : list MappedFragment.t;
  totalMappedFragments : Z;
  significantMappedFragments : Z;
  totalSharedLines : Z;
  totalSharedTokens : Z;
  isPlagiarism : bool;
  confidence : Confidence;
  file1 : string;
  file2 : string
}.
End PlagiarismResult.

(** The constructor arguments of [PascalPlagiarismDetector]. *)
Record Detector := mkDetector {
  kgramSize : Z;
  windowSize : Z;
  syntacticWeight : Q
}.

(** [new PascalPlagiarismDetector()] *)
Definition defaultDetector : Detector := mkDetector 8 15 1.

(** ** Arrays and strings *)

(** The clamping of a [slice] bound: a negative bound counts from the end. *)
Definition slice_bound (n i : Z) : Z :=
  if i <? 0 then Z.max (n + i) 0 else Z.min i n.

(** [xs.slice(s, e)] *)
Definition slice {A : Type} (xs : list A) (s e : Z) : list A :=
  let n := Num.len xs in
  let k := slice_bound n s in
  let final := slice_bound n e in
  firstn (Z.to_nat (final - k)) (skipn (Z.to_nat k) xs).

(** [xs.slice(s)] *)
Definition slice_from {A : Type} (xs : list A) (s : Z) : list A :=
  slice xs s (Num.len xs).

(** [xs.map((x, index) => f x index)], the index starting at [i]. *)
Fixpoint mapi_from {A B : Type} (f : A -> Z -> B) (i : Z) (xs : list A) : list B :=
  match xs with
  | [] => []
  | x :: rest => f x i :: mapi_from f (i + 1) rest
  end.

Definition mapi {A B : Type} (f : A -> Z -> B) (xs : list A) : list B :=
  mapi_from f 0 xs.

(** The line feed character. *)
Definition LF : ascii := ascii_of_nat 10.

(** [s.split('\n')]: never empty, the pieces hold no line feed. *)
Fixpoint split_lines (s : string) : list string :=
  match s with
  | EmptyString => [EmptyString]
  | String c rest =>
      if Ascii.eqb c LF then EmptyString :: split_lines rest
      else match split_lines rest with
           | l :: ls => String c l :: ls
           | [] => [String c EmptyString]
           end
  end.

(** [xs.join(sep)] *)
Fixpoint join (sep : string) (xs : list string) : string :=
  match xs with
  | [] => EmptyString
  | [x] => x
  | x :: rest => (x ++ sep ++ join sep rest)%string
  end.

Fixpoint spaces (n : nat) : string :=
  match n with
  | O => EmptyString
  | S k => String " " (spaces k)
  end.

(** [s.padStart(n)]: blanks are added in front, up to a length of [n]. *)
Definition padStart (n : nat) (s : string) : string :=
  (spaces (n - String.length s) ++ s)%string.

(** [s.padEnd(n)]: blanks are added behind. *)
Definition padEnd (n : nat) (s : string) : string :=
  (s ++ spaces (n - String.length s))%string.

(** [n.toString()] for an integer [n]. *)
Definition toString (n : Z) : string :=
  DecimalString.NilZero.string_of_int (Z.to_int n).

(** [xs[i]] *)
Definition at_index {A : Type} (xs : list A) (i : Z) : option A :=
  if i <? 0 then None else nth_error xs (Z.to_nat i).

(** [xs.sort(cmp)], a stable sort; [before x y] says that [cmp(x, y) <= 0]. *)
Fixpoint sort_insert {A : Type} (before : A -> A -> bool) (x : A) (ys : list A) : list A :=
  match ys with
  | [] => [x]
  | y :: rest =>
      if before x y then x :: y :: rest
      else y :: sort_insert before x rest
  end.

Definition sort_by {A : Type} (before : A -> A -> bool) (xs : list A) : list A :=
  fold_right (sort_insert before) [] xs.

(** ** Failure *)

(** The outcome of a call that may throw a value of type [E]. *)
Inductive Result (E A : Type) : Type :=
| Ok (a : A)
| Err (e : E).

Arguments Ok {E A} a.
Arguments Err {E A} e.

Definition bind {E A B : Type} (m : Result E A) (k : A -> Result E B) : Result E B :=
  match m with
  | Ok a => k a
  | Err e => Err e
  end.

Notation "x <- m ;; k" := (bind m (fun x => k))
  (at level 61, m at next level, right associativity).

Module BatchResult.
Record t := mk {
  results : list PlagiarismResult.t;
  threshold : R;
  totalComparisons : Z;
  suspiciousPairs : Z
}.
End BatchResult.

(** ** [class PascalPlagiarismDetector] *)

Module PascalPlagiarismDetector.

Definition getLineNumber (tokenIndex : Z) (tokenizedFile : TokenizedFile) : Z :=
  if (tokenIndex <? 0) || (tokenIndex >=? Num.len (mapping tokenizedFile)) then 1
  else
    let entry := at_index (mapping tokenizedFile) tokenIndex in
    Num.falsy_or (match entry with
                  | Some (Some region) => startRow region
                  | _ => None
                  end) 1.

Definition extractCodeSnippet (lines : list string) (startLine endLine : Z) : string :=
  let start := Z.max 0 (startLine - 1) in
  let end_ := Z.min (Num.len lines) endLine in
  join (String LF EmptyString) (slice lines start end_).

Definition addLineNumbers (code : string) (startLine : Z) : string :=
  let lines := split_lines code in
  join (String LF EmptyString)
    (mapi (fun line index =>
             let lineNumber := startLine + index in
             (padStart 3 (toString lineNumber) ++ ": " ++ line)%string)
          lines).

Definition calculateFragmentConfidence (fragment : Fragment) (tokenCount : Z) : Q :=
  let confidence := 0%Q in
  let confidence := (confidence + Qmin (4 # 10) (inject_Z tokenCount / 50))%Q in
  let confidence :=
    (confidence + Qmin (3 # 10) (inject_Z (Num.len (pairs fragment)) * (1 # 10)))%Q in
  let kgramRange := Range.length (leftkgrams fragment) in
  let expectedPairs := Z.max 1 kgramRange in
  let coherence := (inject_Z (Num.len (pairs fragment)) / inject_Z expectedPairs)%Q in
  let confidence := (confidence + Qmin (3 # 10) (coherence * (3 # 10)))%Q in
  Qmin 1 confidence.

Definition determineFragmentType (confidence : Q) : FragmentType :=
  if Num.geb confidence (8 # 10) then EXACT
  else if Num.geb confidence (6 # 10) then SIMILAR
  else STRUCTURAL.

Definition createTokenPattern (tokens : list string) : string :=
  if Num.len tokens =? 0 then EmptyString
  else if Num.len tokens >? 20 then
    let start := join " " (slice tokens 0 10) in
    let end_ := join " " (slice_from tokens (-10)) in
    (start ++ " ... " ++ end_)%string
  else join " " tokens.

Definition calculateAdaptiveThreshold (syntactic : Q) (fragmentCount : Z) : Q :=
  let threshold := (3 # 10)%Q in
  if Num.gtb syntactic (8 # 10) && (fragmentCount >? 5) then (7 # 10)%Q
  else if Num.gtb syntactic (6 # 10) && (fragmentCount >? 3) then (5 # 10)%Q
  else if Num.gtb syntactic (4 # 10) && (fragmentCount >? 1) then (35 # 100)%Q
  else threshold.

Definition determineConfidence (overallSimilarity : Q) (syntactic : Syntactic.t)
    (mapping : Mapping.t) : Confidence :=
  let confidenceScore := 0 in
  let confidenceScore :=
    if Num.gtb overallSimilarity (8 # 10) then confidenceScore + 4
    else if Num.gtb overallSimilarity (6 # 10) then confidenceScore + 3
    else if Num.gtb overallSimilarity (4 # 10) then confidenceScore + 2
    else confidenceScore + 1 in
  let confidenceScore :=
    if Num.gtb (Syntactic.similarity syntactic) (7 # 10)
    then confidenceScore + 2 else confidenceScore in
  let confidenceScore :=
    if Syntactic.longestFragment syntactic >? 10
    then confidenceScore + 1 else confidenceScore in
  let confidenceScore :=
    if Num.gtb (Syntactic.coverage1 syntactic) (5 # 10)
       || Num.gtb (Syntactic.coverage2 syntactic) (5 # 10)
    then confidenceScore + 1 else confidenceScore in
  let confidenceScore :=
    if Mapping.significantMappedFragments mapping >? 5
    then confidenceScore + 2 else confidenceScore in
  let confidenceScore :=
    if Mapping.totalSharedLines mapping >? 20
    then confidenceScore + 1 else confidenceScore in
  if confidenceScore >=? 8 then VERY_HIGH
  else if confidenceScore >=? 6 then HIGH
  else if confidenceScore >=? 4 then MEDIUM
  else LOW.

(** [Math.min(1.0, pairs.length / Math.max(1, tokenCount / kgramSize))].
    Division by a [kgramSize] of 0 leaves the rationals: [0 / 0] is [NaN] and
    stays so, [n / 0] for a positive [n] is [Infinity], which [Math.max] keeps
    and by which the pair count divides to 0. *)
Definition boundedLocalSimilarity (pairCount tokenCount kgramSize : Z) : option Q :=
  if kgramSize =? 0 then
    if tokenCount =? 0 then None else Some 0%Q
  else
    let localSimilarity :=
      (inject_Z pairCount / Qmax 1 (inject_Z tokenCount / inject_Z kgramSize))%Q in
    Some (Qmin 1 localSimilarity).

Definition createMappedFragment (d : Detector) (fragment : Fragment) (fragmentId : Z)
    (tokenizedFile1 tokenizedFile2 : TokenizedFile) (file1Code file2Code : string)
    : MappedFragment.t :=
  let first := at_index (pairs fragment) 0 in
  let last := at_index (pairs fragment) (Num.len (pairs fragment) - 1) in
  let file1TokenStart :=
    Num.falsy_or (option_map (fun p => start (left p)) first)
                 (Range.from (leftkgrams fragment)) in
  let file1TokenEnd :=
    Num.falsy_or (option_map (fun p => stop (left p)) last)
                 (Range.to (leftkgrams fragment) - 1) in
  let file2TokenStart :=
    Num.falsy_or (option_map (fun p => start (right p)) first)
                 (Range.from (rightkgrams fragment)) in
  let file2TokenEnd :=
    Num.falsy_or (option_map (fun p => stop (right p)) last)
                 (Range.to (rightkgrams fragment) - 1) in
  let sharedTokens := slice (tokens tokenizedFile1) file1TokenStart (file1TokenEnd + 1) in
  let file1LineStart := getLineNumber file1TokenStart tokenizedFile1 in
  let file1LineEnd := getLineNumber file1TokenEnd tokenizedFile1 in
  let file2LineStart := getLineNumber file2TokenStart tokenizedFile2 in
  let file2LineEnd := getLineNumber file2TokenEnd tokenizedFile2 in
  let file1Lines := split_lines file1Code in
  let file2Lines := split_lines file2Code in
  let file1Snippet := extractCodeSnippet file1Lines file1LineStart file1LineEnd in
  let file2Snippet := extractCodeSnippet file2Lines file2LineStart file2LineEnd in
  let file1WithNumbers := addLineNumbers file1Snippet file1LineStart in
  let file2WithNumbers := addLineNumbers file2Snippet file2LineStart in
  let confidence := calculateFragmentConfidence fragment (Num.len sharedTokens) in
  let fragmentType := determineFragmentType confidence in
  MappedFragment.mk
    fragmentId confidence fragmentType
    (mkLines file1LineStart file1LineEnd (file1LineEnd - file1LineStart + 1))
    (mkLines file2LineStart file2LineEnd (file2LineEnd - file2LineStart + 1))
    (mkTokenRange file1TokenStart file1TokenEnd (file1TokenEnd - file1TokenStart + 1))
    (mkTokenRange file2TokenStart file2TokenEnd (file2TokenEnd - file2TokenStart + 1))
    sharedTokens
    (createTokenPattern sharedTokens)
    file1Snippet file2Snippet file1WithNumbers file2WithNumbers
    (boundedLocalSimilarity (Num.len (pairs fragment)) (Num.len sharedTokens) (kgramSize d))
    (Num.len (pairs fragment)).

Definition mapFragments (d : Detector) (pair : Pair.t)
    (tokenizedFile1 tokenizedFile2 : TokenizedFile) (file1Code file2Code : string)
    : Mapping.t :=
  let fragments := Pair.buildFragments pair 1 in
  let mappedFragments :=
    mapi (fun fragment index =>
            createMappedFragment d fragment (index + 1)
              tokenizedFile1 tokenizedFile2 file1Code file2Code)
         fragments in
  let significantFragments :=
    filter (fun f =>
              Num.geb (MappedFragment.confidence f) (3 # 10)
              && (Num.len (MappedFragment.sharedTokens f) >=? kgramSize d))
           mappedFragments in
  let totalSharedLines :=
    fold_left (fun sum f => sum + line_count (MappedFragment.file1Lines f))
              significantFragments 0 in
  let totalSharedTokens :=
    fold_left (fun sum f => sum + Num.len (MappedFragment.sharedTokens f))
              significantFragments 0 in
  Mapping.mk significantFragments (Num.len mappedFragments)
             (Num.len significantFragments) totalSharedLines totalSharedTokens.

(** [calculateBatchThreshold]: mean and variance are rational, the standard
    deviation is their real square root. *)
Definition calculateBatchThreshold (results : list PlagiarismResult.t) : R :=
  if Num.len results =? 0 then (3 / 10)%R
  else
    let similarities :=
      sort_by (fun a b => Qle_bool (b - a) 0)
              (map PlagiarismResult.overallSimilarity results) in
    let n := inject_Z (Num.len similarities) in
    let mean := (fold_left (fun sum sim => sum + sim) similarities 0 / n)%Q in
    let variance :=
      (fold_left (fun sum sim => sum + (sim - mean) ^ 2) similarities 0 / n)%Q in
    let stdDev := sqrt (Q2R variance) in
    let threshold := Rmax (25 / 100) (Q2R mean + (15 / 10) * stdDev) in
    Rmin threshold (8 / 10).

(** The collaborators that are not part of the sources: the tokenizer, which
    may throw a value of type [exn], and the fingerprint index
    ([new FingerprintIndex(k, w, true)], [addFiles], [getPair]). *)
Section Detection.

Variable exn : Type.
Variable tokenizeFile : string -> string -> Result exn TokenizedFile.
Variable getPair : Z -> Z -> TokenizedFile -> TokenizedFile -> Pair.t.

Definition performSyntacticAnalysis (d : Detector) (file1 file2 : TokenizedFile)
    : Syntactic.t :=
  let pair := getPair (kgramSize d) (windowSize d) file1 file2 in
  Syntactic.mk
    (Pair.similarity pair)
    (Pair.overlap pair)
    (Pair.longest pair)
    (inject_Z (Pair.leftCovered pair) / inject_Z (Z.max 1 (Pair.leftTotal pair)))%Q
    (inject_Z (Pair.rightCovered pair) / inject_Z (Z.max 1 (Pair.rightTotal pair)))%Q
    pair.

Definition detectPlagiarism (d : Detector) (file1 file2 : FileInput)
    (customThreshold : option Q) : Result exn PlagiarismResult.t :=
  tokenizedFile1 <- tokenizeFile (name file1) (content file1) ;;
  tokenizedFile2 <- tokenizeFile (name file2) (content file2) ;;
  let syntacticResult := performSyntacticAnalysis d tokenizedFile1 tokenizedFile2 in
  let mappingResult :=
    mapFragments d (Syntactic.pair syntacticResult) tokenizedFile1 tokenizedFile2
                 (content file1) (content file2) in
  let overallSimilarity :=
    (Syntactic.similarity syntacticResult * syntacticWeight d)%Q in
  let threshold :=
    Num.nullish_or customThreshold
      (calculateAdaptiveThreshold (Syntactic.similarity syntacticResult)
         (Num.len (Mapping.mappedFragments mappingResult))) in
  let isPlagiarism := Num.geb overallSimilarity threshold in
  let confidence := determineConfidence overallSimilarity syntacticResult mappingResult in
  Ok (PlagiarismResult.mk
        (Syntactic.similarity syntacticResult)
        overallSimilarity
        (Syntactic.sharedFingerprints syntacticResult)
        (Syntactic.longestFragment syntacticResult)
        (Syntactic.coverage1 syntacticResult)
        (Syntactic.coverage2 syntacticResult)
        (Mapping.mappedFragments mappingResult)
        (Mapping.totalMappedFragments mappingResult)
        (Mapping.significantMappedFragments mappingResult)
        (Mapping.totalSharedLines mappingResult)
        (Mapping.totalSharedTokens mappingResult)
        isPlagiarism
        confidence
        (name file1)
        (name file2)).

(** The variables of the comparison loop. *)
Record BatchState := mkBatchState {
  st_results : list PlagiarismResult.t;
  st_totalComparisons : Z;
  st_suspiciousPairs : Z
}.

(** The body of the inner loop, for [files[i]] and [files[j]]. *)
Definition compareStep (d : Detector) (customThreshold : option Q)
    (fi fj : FileInput) (st : BatchState) : Result exn BatchState :=
  let totalComparisons := st_totalComparisons st + 1 in
  result <- detectPlagiarism d fi fj customThreshold ;;
  let results := st_results st ++ [result] in
  let suspiciousPairs :=
    if PlagiarismResult.isPlagiarism result
    then st_suspiciousPairs st + 1 else st_suspiciousPairs st in
  Ok (mkBatchState results totalComparisons suspiciousPairs).

(** [for (let j = i + 1; j < files.length; j++)]: [later] is [files[i+1..]]. *)
Fixpoint innerLoop (d : Detector) (customThreshold : option Q)
    (fi : FileInput) (later : list FileInput) (st : BatchState)
    : Result exn BatchState :=
  match later with
  | [] => Ok st
  | fj :: rest =>
      st' <- compareStep d customThreshold fi fj st ;;
      innerLoop d customThreshold fi rest st'
  end.

(** [for (let i = 0; i < files.length; i++)] *)
Fixpoint outerLoop (d : Detector) (customThreshold : option Q)
    (files : list FileInput) (st : BatchState) : Result exn BatchState :=
  match files with
  | [] => Ok st
  | fi :: rest =>
      st' <- innerLoop d customThreshold fi rest st ;;
      outerLoop d customThreshold rest st'
  end.

Definition detectBatchPlagiarism (d : Detector) (files : list FileInput)
    (customThreshold : option Q) : Result exn BatchResult.t :=
  st <- outerLoop d customThreshold files (mkBatchState [] 0 0) ;;
  let results := st_results st in
  let threshold :=
    match customThreshold with
    | Some t => Q2R t
    | None => calculateBatchThreshold results
    end in
  Ok (BatchResult.mk
        (sort_by (fun a b =>
                    Qle_bool (PlagiarismResult.overallSimilarity b
                              - PlagiarismResult.overallSimilarity a) 0)
                 results)
        threshold
        (st_totalComparisons st)
        (st_suspiciousPairs st)).

End Detection.

Arguments detectPlagiarism {exn} tokenizeFile getPair d file1 file2 customThreshold.
Arguments compareStep {exn} tokenizeFile getPair d customThreshold fi fj st.
Arguments innerLoop {exn} tokenizeFile getPair d customThreshold fi later st.
Arguments outerLoop {exn} tokenizeFile getPair d customThreshold files st.
Arguments detectBatchPlagiarism {exn} tokenizeFile getPair d files customThreshold.

End PascalPlagiarismDetector.

(** ** [class FragmentMapper] *)

Module FragmentMapper.

(** The object built by [enhanceFragments].  A coverage is [None] when the
    file has no token, the quotient then being no finite number. *)
Record DetailedFragment := mkDetailed {
  fragmentId : Z;
  confidence : Q;
  fragmentType : FragmentType;
  file1Range : TokenRange;
  file2Range : TokenRange;
  file1Lines : LineRange;
  file2Lines : LineRange;
  sharedTokens : list string;
  tokenPattern : string;
  sharedFingerprints : Z;
  file1Code : string;
  file2Code : string;
  file1CodeWithHighlight : string;
  file2CodeWithHighlight : string;
  localSimilarity : Q;
  tokenCoverage1 : option Q;
  tokenCoverage2 : option Q
}.

Definition getLineNumber (tokenIndex : Z) (tokenizedFile : TokenizedFile) : Z :=
  if (tokenIndex <? 0) || (tokenIndex >=? Num.len (mapping tokenizedFile)) then 1
  else
    let entry := at_index (mapping tokenizedFile) tokenIndex in
    Num.falsy_or (match entry with
                  | Some (Some region) => startRow region
                  | _ => None
                  end) 1.

Definition extractCodeSnippet (lines : list string) (startLine endLine : Z) : string :=
  let start := Z.max 0 (startLine - 1) in
  let end_ := Z.min (Num.len lines) endLine in
  join (String LF EmptyString) (slice lines start end_).

Definition highlightCode (code : string) (startLine : Z) : string :=
  let lines := split_lines code in
  join (String LF EmptyString)
    (mapi (fun line index =>
             let lineNumber := startLine + index in
             (padStart 3 (toString lineNumber) ++ ": " ++ line)%string)
          lines).

Definition calculateFragmentConfidence (fragment : Fragment) (tokenCount : Z) : Q :=
  let confidence := 0%Q in
  let confidence := (confidence + Qmin (4 # 10) (inject_Z tokenCount / 50))%Q in
  let confidence :=
    (confidence + Qmin (3 # 10) (inject_Z (Num.len (pairs fragment)) * (1 # 10)))%Q in
  let kgramRange := Range.length (leftkgrams fragment) in
  let expectedPairs := Z.max 1 kgramRange in
  let coherence := (inject_Z (Num.len (pairs fragment)) / inject_Z expectedPairs)%Q in
  let confidence := (confidence + Qmin (3 # 10) (coherence * (3 # 10)))%Q in
  Qmin 1 confidence.

Definition determineFragmentType (confidence : Q) (sharedTokens : list string)
    : FragmentType :=
  if Num.geb confidence (8 # 10) then EXACT
  else if Num.geb confidence (6 # 10) then SIMILAR
  else STRUCTURAL.

Definition calculateLocalSimilarity (fragment : Fragment) (tokenCount : Z) : Q :=
  let pairCount := Num.len (pairs fragment) in
  let maxPossiblePairs := Z.max 1 tokenCount in
  Qmin 1 (inject_Z pairCount / inject_Z maxPossiblePairs).

Definition createTokenPattern (tokens : list string) : string :=
  if Num.len tokens =? 0 then EmptyString
  else if Num.len tokens >? 20 then
    let start := join " " (slice tokens 0 10) in
    let end_ := join " " (slice_from tokens (-10)) in
    (start ++ " ... " ++ end_)%string
  else join " " tokens.

(** [covered / tokens.length] *)
Definition tokenCoverage (covered total : Z) : option Q :=
  if total =? 0 then None else Some (inject_Z covered / inject_Z total)%Q.

(** The function mapped over the fragments by [enhanceFragments]. *)
Definition enhanceFragment (tokenizedFile1 tokenizedFile2 : TokenizedFile)
    (file1Lines file2Lines : list string) (fragment : Fragment) (index : Z)
    : DetailedFragment :=
  let file1Start := Range.from (leftkgrams fragment) in
  let file1End := Range.to (leftkgrams fragment) in
  let file2Start := Range.from (rightkgrams fragment) in
  let file2End := Range.to (rightkgrams fragment) in
  let first := at_index (pairs fragment) 0 in
  let last := at_index (pairs fragment) (Num.len (pairs fragment) - 1) in
  let file1TokenStart :=
    Num.falsy_or (option_map (fun p => start (left p)) first) file1Start in
  let file1TokenEnd :=
    Num.falsy_or (option_map (fun p => stop (left p)) last) file1End in
  let file2TokenStart :=
    Num.falsy_or (option_map (fun p => start (right p)) first) file2Start in
  let file2TokenEnd :=
    Num.falsy_or (option_map (fun p => stop (right p)) last) file2End in
  let sharedTokens := slice (tokens tokenizedFile1) file1TokenStart (file1TokenEnd + 1) in
  let file1LineStart := getLineNumber file1TokenStart tokenizedFile1 in
  let file1LineEnd := getLineNumber file1TokenEnd tokenizedFile1 in
  let file2LineStart := getLineNumber file2TokenStart tokenizedFile2 in
  let file2LineEnd := getLineNumber file2TokenEnd tokenizedFile2 in
  let file1Code_snippet := extractCodeSnippet file1Lines file1LineStart file1LineEnd in
  let file2Code_snippet := extractCodeSnippet file2Lines file2LineStart file2LineEnd in
  let file1Highlighted := highlightCode file1Code_snippet file1LineStart in
  let file2Highlighted := highlightCode file2Code_snippet file2LineStart in
  let confidence := calculateFragmentConfidence fragment (Num.len sharedTokens) in
  let fragmentType := determineFragmentType confidence sharedTokens in
  let localSimilarity := calculateLocalSimilarity fragment (Num.len sharedTokens) in
  mkDetailed
    (index + 1) confidence fragmentType
    (mkTokenRange file1TokenStart file1TokenEnd (file1TokenEnd - file1TokenStart + 1))
    (mkTokenRange file2TokenStart file2TokenEnd (file2TokenEnd - file2TokenStart + 1))
    (mkLines file1LineStart file1LineEnd (file1LineEnd - file1LineStart + 1))
    (mkLines file2LineStart file2LineEnd (file2LineEnd - file2LineStart + 1))
    sharedTokens
    (createTokenPattern sharedTokens)
    (Num.len (pairs fragment))
    file1Code_snippet file2Code_snippet file1Highlighted file2Highlighted
    localSimilarity
    (tokenCoverage (file1TokenEnd - file1TokenStart + 1) (Num.len (tokens tokenizedFile1)))
    (tokenCoverage (file2TokenEnd - file2TokenStart + 1) (Num.len (tokens tokenizedFile2))).

Definition enhanceFragments (fragments : list Fragment)
    (tokenizedFile1 tokenizedFile2 : TokenizedFile) (file1Code file2Code : string)
    : list DetailedFragment :=
  let file1Lines := split_lines file1Code in
  let file2Lines := split_lines file2Code in
  mapi (enhanceFragment tokenizedFile1 tokenizedFile2 file1Lines file2Lines) fragments.

Definition determineOverallConfidence (similarity : Q) (fragmentCount : Z) : Confidence :=
  let score := 0 in
  let score :=
    if Num.geb similarity (8 # 10) then score + 4
    else if Num.geb similarity (6 # 10) then score + 3
    else if Num.geb similarity (4 # 10) then score + 2
    else score + 1 in
  let score :=
    if fragmentCount >=? 10 then score + 3
    else if fragmentCount >=? 5 then score + 2
    else if fragmentCount >=? 2 then score + 1
    else score in
  if score >=? 6 then VERY_HIGH
  else if score >=? 4 then HIGH
  else if score >=? 2 then MEDIUM
  else LOW.

(** A [Set<number>] is a list without repetition; [add] is [set_add]. *)
Definition IndexSet : Type := list Z.

(** [for (let i = start; i <= end; i++) covered.add(i)], [n] being the number
    of iterations left. *)
Fixpoint addIndices (i : Z) (n : nat) (covered : IndexSet) : IndexSet :=
  match n with
  | O => covered
  | S k => addIndices (i + 1) k (set_add Z.eq_dec i covered)
  end.

Definition addRange (range : TokenRange) (covered : IndexSet) : IndexSet :=
  addIndices (tok_start range) (Z.to_nat (tok_end range - tok_start range + 1)) covered.

(** The two sets after the [forEach] over the significant fragments. *)
Definition coveredTokens (significantFragments : list DetailedFragment)
    : IndexSet * IndexSet :=
  fold_left (fun sets fragment =>
               (addRange (file1Range fragment) (fst sets),
                addRange (file2Range fragment) (snd sets)))
            significantFragments ([], []).

Record FragmentMappingResult := mkMappingResult {
  overallSimilarity : Q;
  isPlagiarism : bool;
  totalFragments : Z;
  significantFragments : Z;
  fragments : list DetailedFragment;
  file1Coverage : option Q;
  file2Coverage : option Q;
  totalSharedLines : Z;
  totalSharedTokens : Z;
  file1Name : string;
  file2Name : string;
  file1TotalLines : Z;
  file2TotalLines : Z;
  file1TotalTokens : Z;
  file2TotalTokens : Z;
  kgramSize : Z;
  windowSize : Z;
  threshold : Q
}.

(** [result.fragments.sort((a, b) => b.confidence - a.confidence)], in place
    on the array the result holds. *)
Definition sortFragments (result : FragmentMappingResult) : FragmentMappingResult :=
  mkMappingResult
    (overallSimilarity result) (isPlagiarism result)
    (totalFragments result) (significantFragments result)
    (sort_by (fun a b => Qle_bool (confidence b - confidence a) 0)
             (fragments result))
    (file1Coverage result) (file2Coverage result)
    (totalSharedLines result) (totalSharedTokens result)
    (file1Name result) (file2Name result)
    (file1TotalLines result) (file2TotalLines result)
    (file1TotalTokens result) (file2TotalTokens result)
    (kgramSize result) (windowSize result) (threshold result).

(** The collaborators that are not part of the sources: the tokenizer, the
    fingerprint index and the path of the file behind a tokenized file
    ([tokenizedFile.file.path]). *)
Section SharedFragments.

Variable exn : Type.
Variable tokenizeFile : string -> string -> Result exn TokenizedFile.
Variable getPair : Z -> Z -> TokenizedFile -> TokenizedFile -> Pair.t.
Variable filePath : TokenizedFile -> string.

Definition calculateDetailedMetrics (pair : Pair.t)
    (allFragments significantFragments : list DetailedFragment)
    (tokenizedFile1 tokenizedFile2 : TokenizedFile) (file1Code file2Code : string)
    (kgramSize windowSize : Z) (threshold : Q) : FragmentMappingResult :=
  let sets := coveredTokens significantFragments in
  let file1CoveredTokens := fst sets in
  let file2CoveredTokens := snd sets in
  let file1Coverage :=
    tokenCoverage (Num.len file1CoveredTokens) (Num.len (tokens tokenizedFile1)) in
  let file2Coverage :=
    tokenCoverage (Num.len file2CoveredTokens) (Num.len (tokens tokenizedFile2)) in
  let totalSharedLines :=
    fold_left (fun sum f => sum + line_count (file1Lines f)) significantFragments 0 in
  let totalSharedTokens :=
    fold_left (fun sum f => sum + Num.len (sharedTokens f)) significantFragments 0 in
  let overallSimilarity := Pair.similarity pair in
  let isPlagiarism := Num.geb overallSimilarity threshold in
  let confidenceLevel :=
    determineOverallConfidence overallSimilarity (Num.len significantFragments) in
  mkMappingResult
    overallSimilarity isPlagiarism
    (Num.len allFragments) (Num.len significantFragments) significantFragments
    file1Coverage file2Coverage totalSharedLines totalSharedTokens
    (filePath tokenizedFile1) (filePath tokenizedFile2)
    (Num.len (split_lines file1Code)) (Num.len (split_lines file2Code))
    (Num.len (tokens tokenizedFile1)) (Num.len (tokens tokenizedFile2))
    kgramSize windowSize threshold.

(** [mapSharedFragments]; an argument left out takes its default, 8, 15 and
    0.3. *)
Definition mapSharedFragments (file1Name file1Code file2Name file2Code : string)
    (kgramSizeArg windowSizeArg : option Z) (thresholdArg : option Q)
    : Result exn FragmentMappingResult :=
  let kgramSize := Num.nullish_or kgramSizeArg 8 in
  let windowSize := Num.nullish_or windowSizeArg 15 in
  let threshold := Num.nullish_or thresholdArg (3 # 10)%Q in
  tokenizedFile1 <- tokenizeFile file1Name file1Code ;;
  tokenizedFile2 <- tokenizeFile file2Name file2Code ;;
  let pair := getPair kgramSize windowSize tokenizedFile1 tokenizedFile2 in
  let fragments := Pair.buildFragments pair 1 in
  let detailedFragments :=
    enhanceFragments fragments tokenizedFile1 tokenizedFile2 file1Code file2Code in
  let significantFragments :=
    filter (fun f => Num.geb (confidence f) (3 # 10)
                     && (Num.len (sharedTokens f) >=? kgramSize))
           detailedFragments in
  let result :=
    calculateDetailedMetrics pair detailedFragments significantFragments
      tokenizedFile1 tokenizedFile2 file1Code file2Code
      kgramSize windowSize threshold in
  Ok (sortFragments result).

End SharedFragments.

Arguments mapSharedFragments {exn} tokenizeFile getPair filePath
  file1Name file1Code file2Name file2Code kgramSizeArg windowSizeArg thresholdArg.

End FragmentMapper.

(** ** The HTTP endpoints [/api/detect] and [/api/detect-batch] *)

Module Server.

(** A file object of a request body; a property may be missing. *)
Record JsonFile := mkJsonFile {
  json_name : option string;
  json_content : option string
}.

(** What a handler sends: [res.json({ success: true, ... })], or
    [res.status(status).json({ success: false, error })]. *)
Inductive Response (A : Type) : Type :=
| Success (payload : A)
| Failure (status : Z) (error : string).

Arguments Success {A} payload.
Arguments Failure {A} status error.

(** A string property is truthy when it is there and not empty. *)
Definition truthy (x : option string) : bool :=
  match x with
  | Some s => negb (String.eqb s EmptyString)
  | None => false
  end.

(** [file as FileInput]; a missing property is read only after the check. *)
Definition asFileInput (file : JsonFile) : FileInput :=
  mkFileInput
    (Num.nullish_or (json_name file) EmptyString)
    (Num.nullish_or (json_content file) EmptyString).

(** [!file.name || !file.content] *)
Definition incomplete (file : JsonFile) : bool :=
  negb (truthy (json_name file)) || negb (truthy (json_content file)).

(** The detector of the module is [new PascalPlagiarismDetector()].  The
    tokenizer and the index are not part of the sources; [errorMessage] gives
    the message of a thrown value that is an [Error]. *)
Section Handlers.

Variable exn : Type.
Variable tokenizeFile : string -> string -> Result exn TokenizedFile.
Variable getPair : Z -> Z -> TokenizedFile -> TokenizedFile -> Pair.t.
Variable errorMessage : exn -> option string.

(** [error instanceof Error ? error.message : 'Unknown error'] *)
Definition errorText (error : exn) : string :=
  match errorMessage error with
  | Some message => message
  | None => "Unknown error"%string
  end.

(** [app.post('/api/detect', ...)] on the body [{ file1, file2, threshold }]. *)
Definition postDetect (file1 file2 : option JsonFile) (threshold : option Q)
    : Response PlagiarismResult.t :=
  match file1, file2 with
  | Some f1, Some f2 =>
      if negb (truthy (json_name f1)) || negb (truthy (json_content f1))
         || negb (truthy (json_name f2)) || negb (truthy (json_content f2))
      then Failure 400 "Files must have name and content properties"%string
      else
        match PascalPlagiarismDetector.detectPlagiarism tokenizeFile getPair
                defaultDetector (asFileInput f1) (asFileInput f2) threshold with
        | Ok result => Success result
        | Err error => Failure 500 (errorText error)
        end
  | _, _ => Failure 400 "Both file1 and file2 are required"%string
  end.

(** [app.post('/api/detect-batch', ...)] on the body [{ files, threshold }];
    [files] is [None] when the property is missing or no array. *)
Definition postDetectBatch (files : option (list JsonFile)) (threshold : option Q)
    : Response BatchResult.t :=
  match files with
  | None => Failure 400 "Files array is required"%string
  | Some files =>
      if Num.len files <? 2
      then Failure 400 "At least 2 files are required for batch analysis"%string
      else if existsb incomplete files
      then Failure 400 "All files must have name and content properties"%string
      else
        match PascalPlagiarismDetector.detectBatchPlagiarism tokenizeFile getPair
                defaultDetector (map asFileInput files) threshold with
        | Ok result => Success result
        | Err error => Failure 500 (errorText error)
        end
  end.

End Handlers.

Arguments errorText {exn} errorMessage error.
Arguments postDetect {exn} tokenizeFile getPair errorMessage file1 file2 threshold.
Arguments postDetectBatch {exn} tokenizeFile getPair errorMessage files threshold.

End Server.

(** ** The statements of the specification, in its own words *)

Module Spec.

(** Section 4.7: [min(1, 0.4 min(1, T/50) + 0.3 min(1, 0.1 P)
    + 0.3 min(1, (P / max(1, R)) 1))]. *)
Definition confidence (T P R : Z) : Q :=
  Qmin 1 ((4 # 10) * Qmin 1 (inject_Z T / 50)
          + (3 # 10) * Qmin 1 ((1 # 10) * inject_Z P)
          + (3 # 10) * Qmin 1 ((inject_Z P / inject_Z (Z.max 1 R)) * 1)).

(** The label of an additive score: at least 8, 6, 4, else LOW. *)
Definition label (score : Z) : Confidence :=
  if 8 <=? score then VERY_HIGH
  else if 6 <=? score then HIGH
  else if 4 <=? score then MEDIUM
  else LOW.

(** Section 4.7, the contributions to the score besides the bucket of the
    overall similarity, the syntactic similarity counting from 0.7 on. *)
Definition factors (syntactic : Syntactic.t) (mapping : Mapping.t) : Z :=
  (if Qle_bool (7 # 10) (Syntactic.similarity syntactic) then 2 else 0)
  + (if 10 <? Syntactic.longestFragment syntactic then 1 else 0)
  + (if Num.gtb (Syntactic.coverage1 syntactic) (5 # 10)
        || Num.gtb (Syntactic.coverage2 syntactic) (5 # 10) then 1 else 0)
  + (if 5 <? Mapping.significantMappedFragments mapping then 2 else 0)
  + (if 20 <? Mapping.totalSharedLines mapping then 1 else 0).

(** Section 6: the line number padded on the right to three characters. *)
Definition numberedLine (lineNumber : Z) (line : string) : string :=
  (padEnd 3 (toString lineNumber) ++ ": " ++ line)%string.

End Spec.

(** ** Auxiliary definitions for the statements *)

Import PascalPlagiarismDetector.

(** The pairs [(files[i], files[j])], [i < j], in the order of the two loops. *)
Fixpoint allPairs (files : list FileInput) : list (FileInput * FileInput) :=
  match files with
  | [] => []
  | fi :: rest => map (fun fj => (fi, fj)) rest ++ allPairs rest
  end.

(** Running a fallible function over a list, stopping at the first failure. *)
Fixpoint traverse {E A B : Type} (f : A -> Result E B) (xs : list A)
    : Result E (list B) :=
  match xs with
  | [] => Ok []
  | x :: rest =>
      y <- f x ;;
      ys <- traverse f rest ;;
      Ok (y :: ys)
  end.

(** The number of results flagged as plagiarism. *)
Definition flagged (rs : list PlagiarismResult.t) : Z :=
  Num.len (filter PlagiarismResult.isPlagiarism rs).

(** The score of the overall similarity: 4, 3, 2 or 1. *)
Definition overallBucket (overallSimilarity : Q) : Z :=
  if Num.gtb overallSimilarity (8 # 10) then 4
  else if Num.gtb overallSimilarity (6 # 10) then 3
  else if Num.gtb overallSimilarity (4 # 10) then 2
  else 1.

(** The sum of a list of reals. *)
Definition Rsum (xs : list R) : R := fold_right Rplus 0%R xs.

(** Mean and population standard deviation of a list of reals. *)
Definition Rmean (xs : list R) : R :=
  (Rsum xs / INR (List.length xs))%R.

Definition Rstddev (xs : list R) : R :=
  sqrt (Rsum (map (fun x => Rsqr (x - Rmean xs)) xs) / INR (List.length xs))%R.

(** The confidence of a fragment with [T] shared tokens, [P] paired
    occurrences and a left k-gram range of length [R]: each summand is capped
    by its own weight. *)
Definition cappedConfidence (T P R : Z) : Q :=
  Qmin 1 (Qmin (4 # 10) (inject_Z T / 50)
          + Qmin (3 # 10) ((1 # 10) * inject_Z P)
          + Qmin (3 # 10) ((3 # 10) * (inject_Z P / inject_Z (Z.max 1 R)))).

(** The contributions to the score besides the bucket, the syntactic
    similarity counting only above 0.7. *)
Definition strictFactors (syntactic : Syntactic.t) (mapping : Mapping.t) : Z :=
  (if Num.gtb (Syntactic.similarity syntactic) (7 # 10) then 2 else 0)
  + (if 10 <? Syntactic.longestFragment syntactic then 1 else 0)
  + (if Num.gtb (Syntactic.coverage1 syntactic) (5 # 10)
        || Num.gtb (Syntactic.coverage2 syntactic) (5 # 10) then 1 else 0)
  + (if 5 <? Mapping.significantMappedFragments mapping then 2 else 0)
  + (if 20 <? Mapping.totalSharedLines mapping then 1 else 0).

(** The position-map entry of a token carries no [startRow]. *)
Definition startRowMissing (tokenizedFile : TokenizedFile) (tokenIndex : Z) : Prop :=
  match at_index (mapping tokenizedFile) tokenIndex with
  | Some (Some region) => startRow region = None
  | _ => True
  end.

(** [clamp(x, lo, hi)] *)
Definition clamp (x lo hi : R) : R := Rmin (Rmax lo x) hi.

(** *** Sample collaborators

    A tokenizer and an index small enough to run: one token per character,
    all on row 1, a quote being a lexical error; two files are similar when
    their token streams are equal, and then share one fragment. *)

Definition sampleTokenize (name content : string) : Result string TokenizedFile :=
  let chars := list_ascii_of_string content in
  if existsb (Ascii.eqb "'") chars then Err "LexError"%string
  else
    Ok (mkTokenizedFile
          (map (fun c => String c EmptyString) chars)
          (map (fun _ => Some (mkRegion (Some 1) 1 1 1)) chars)).

Definition sampleFragment (n : Z) : Fragment :=
  mkFragment [mkPaired (mkSide 1 (n - 1)) (mkSide 1 (n - 1))]
             (Range.mk 0 1 1) (Range.mk 0 1 1).

Definition sampleGetPair (k w : Z) (a b : TokenizedFile) : Pair.t :=
  if list_eq_dec string_dec (tokens a) (tokens b) then
    Pair.mk 1 1 (Num.len (tokens a)) 1 1 1 1
            (fun _ => [sampleFragment (Num.len (tokens a))])
  else Pair.mk 0 0 0 0 0 1 1 (fun _ => []).

Definition sampleA : FileInput := mkFileInput "a.pas" "begin x := 1 end.".

Definition sampleB : FileInput := mkFileInput "b.pas" "begin x := 1 end.".

Definition sampleC : FileInput := mkFileInput "c.pas" "begin writeln(1) end.".

Definition sampleBad : FileInput := mkFileInput "bad.pas" "begin s := 'oops end.".

Definition sampleCode : string := "begin
  x := 1
end.".

Definition sampleFile : TokenizedFile :=
  mkTokenizedFile ["begin"; "IDENT"; ":="; "NUM"; "end"; "."]%string
    [Some (mkRegion (Some 1) 1 1 6); Some (mkRegion (Some 2) 3 2 4);
     Some (mkRegion (Some 2) 5 2 7); Some (mkRegion None 8 2 9);
     None; Some (mkRegion (Some 0) 1 3 2)].

(** A string holds a line feed. *)
Fixpoint has_lf (s : string) : bool :=
  match s with
  | EmptyString => false
  | String c rest => Ascii.eqb c LF || has_lf rest
  end.

(** The prefix of a numbered line: the number, blanks in front up to a width
    of three, a colon and a blank. *)
Definition numberPrefix (lineNumber : Z) : string :=
  (padStart 3 (toString lineNumber) ++ ": ")%string.

(** The loop variables after the results [rs] have been added. *)
Definition extend (st : BatchState) (rs : list PlagiarismResult.t) : BatchState :=
  mkBatchState (st_results st ++ rs)
    (st_totalComparisons st + Num.len rs)
    (st_suspiciousPairs st + flagged rs).

(** One comparison: the pair's two files, and the caller's threshold. *)
Definition compare {exn : Type}
    (tokenizeFile : string -> string -> Result exn TokenizedFile)
    (getPair : Z -> Z -> TokenizedFile -> TokenizedFile -> Pair.t)
    (d : Detector) (customThreshold : option Q) (p : FileInput * FileInput)
    : Result exn PlagiarismResult.t :=
  detectPlagiarism tokenizeFile getPair d (fst p) (snd p) customThreshold.

(** Two analyses of overall similarity 0.9 with nothing else in their favour,
    the syntactic similarity being 0.7 in the first and 0.8 in the second. *)
Definition atSeventy : Syntactic.t :=
  Syntactic.mk (7 # 10) 0 0 0 0 (Pair.mk (7 # 10) 0 0 0 0 0 0 (fun _ => [])).

Definition atEighty : Syntactic.t :=
  Syntactic.mk (8 # 10) 0 0 0 0 (Pair.mk (8 # 10) 0 0 0 0 0 0 (fun _ => [])).

Definition noMapping : Mapping.t := Mapping.mk [] 0 0 0 0.

(** A fragment whose only paired occurrence spans tokens 0 to 0 on both
    sides, inside k-gram ranges that start at 2 and end at 5. *)
Definition zeroFragment : Fragment :=
  mkFragment [mkPaired (mkSide 0 0) (mkSide 0 0)] (Range.mk 2 5 3) (Range.mk 2 5 3).

(** An index that grades a pair by the length of its first file, in tenths,
    and three files of 3, 9 and 1 tokens. *)
Definition gradedGetPair (k w : Z) (a b : TokenizedFile) : Pair.t :=
  Pair.mk (Num.len (tokens a) # 10) 0 0 0 0 1 1 (fun _ => []).

Definition gradedFiles : list FileInput :=
  [mkFileInput "x.pas" "abc"; mkFileInput "y.pas" "abcdefghi"; mkFileInput "z.pas" "z"].

(** *** Orders and samples for the further properties *)

(** The four labels in order. *)
Definition rank (label : Confidence) : Z :=
  match label with
  | LOW => 0
  | MEDIUM => 1
  | HIGH => 2
  | VERY_HIGH => 3
  end.

(** A list in non-increasing order of a rational key. *)
Definition descending {A : Type} (key : A -> Q) (xs : list A) : Prop :=
  StronglySorted (fun a b => (key b <= key a)%Q) xs.

(** Every token of the file has a position with a positive row, and the rows
    do not decrease along the file. *)
Definition rowOf (tokenizedFile : TokenizedFile) (tokenIndex : Z) : option Z :=
  match at_index (mapping tokenizedFile) tokenIndex with
  | Some (Some region) => startRow region
  | _ => None
  end.

Definition rowsAscend (tokenizedFile : TokenizedFile) : Prop :=
  (forall i, 0 <= i < Num.len (mapping tokenizedFile) ->
             exists row, rowOf tokenizedFile i = Some row /\ 0 < row)
  /\ (forall i j ri rj,
        i <= j -> rowOf tokenizedFile i = Some ri -> rowOf tokenizedFile j = Some rj ->
        ri <= rj).

(** A stream of 25 tokens on five rows of five. *)
Definition longFile : TokenizedFile :=
  mkTokenizedFile
    (repeat "IDENT"%string 25)
    (map (fun i => Some (mkRegion (Some (1 + Z.of_nat i / 5)) 1 1 1)) (seq 0 25)).

Definition longCode : string := "program p;
var x: integer;
begin
  x := 1
end.".

(** A fragment of one paired occurrence over the tokens 1 to [n - 1], as
    [sampleFragment], and one of three occurrences over a k-gram range of 3. *)
Definition denseFragment : Fragment :=
  mkFragment [mkPaired (mkSide 2 9) (mkSide 3 10);
              mkPaired (mkSide 3 10) (mkSide 4 11);
              mkPaired (mkSide 4 21) (mkSide 5 22)]
             (Range.mk 2 5 3) (Range.mk 3 6 3).

(** An index that always reports the two sample fragments. *)
Definition fixedGetPair (k w : Z) (a b : TokenizedFile) : Pair.t :=
  Pair.mk (6 # 10) 4 20 3 3 4 4 (fun _ => [denseFragment; sampleFragment 25; zeroFragment]).

(** A tokenizer that ignores its input. *)
Definition longTokenize (name content : string) : Result string TokenizedFile :=
  Ok longFile.

(** A set of token indices all inside a file of [n] tokens. *)
Definition insideFile (n : Z) (covered : FragmentMapper.IndexSet) : Prop :=
  NoDup covered /\ forall x, In x covered -> 0 <= x < n.

(** Request files for the endpoints: two good ones and one with an
    unterminated string. *)
Definition jsonA : Server.JsonFile :=
  Server.mkJsonFile (Some "a.pas"%string) (Some "begin x := 1 end."%string).

Definition jsonB : Server.JsonFile :=
  Server.mkJsonFile (Some "b.pas"%string) (Some "begin x := 1 end."%string).

Definition jsonBad : Server.JsonFile :=
  Server.mkJsonFile (Some "bad.pas"%string) (Some "begin s := 'oops end."%string).

(** The sample tokenizer throws strings, which are no [Error] objects. *)
Definition noMessage (error : string) : option string := None.

(** Modelled from the spec: the fingerprint index ([algorithm/fingerprintIndex.ts]
    and [algorithm/pair.ts]) is not part of the sources.  A stream of fewer
    than K tokens has no k-gram (section 4.2), so no fingerprint is selected
    from it (4.3) and it shares none with any file (4.4): the similarity of
    such a pair is 0 (4.5) and no fragment is built from it (4.6).  The index
    does not fail on tokenized files (section 7 lets it fail at construction
    only), which is what the total type of [getPair] stands for. *)
Definition indexContract
    (getPair : Z -> Z -> TokenizedFile -> TokenizedFile -> Pair.t) : Prop :=
  forall (k w : Z) (a b : TokenizedFile),
    Num.len (tokens a) < k \/ Num.len (tokens b) < k ->
    (Pair.similarity (getPair k w a b) == 0)%Q
    /\ forall minimumOccurrences,
         Pair.buildFragments (getPair k w a b) minimumOccurrences = [].

(** The sample index, made to share nothing with a file that is too short. *)
Definition contractGetPair (k w : Z) (a b : TokenizedFile) : Pair.t :=
  if (Num.len (tokens a) <? k) || (Num.len (tokens b) <? k)
  then Pair.mk 0 0 0 0 0 0 0 (fun _ => [])
  else sampleGetPair k w a b.

(** A file without any token. *)
Definition sampleEmpty : FileInput := mkFileInput "empty.pas" EmptyString.

(** * Properties *)

(** ** Comparisons *)

Lemma gtb_lt (a b : Q) : Num.gtb a b = true <-> (b < a)%Q.
Proof.
  unfold Num.gtb. rewrite negb_true_iff.
  destruct (Qle_bool a b) eqn:E.
  - apply Qle_bool_iff in E. split; [discriminate | intro H].
    exfalso. apply (Qlt_irrefl b). eapply Qlt_le_trans; eauto.
  - split; [intros _ | reflexivity].
    apply Qnot_le_lt. intro H. apply Qle_bool_iff in H. congruence.
Qed.

Lemma gtb_false_le (a b : Q) : Num.gtb a b = false <-> (a <= b)%Q.
Proof. unfold Num.gtb. rewrite negb_false_iff. apply Qle_bool_iff. Qed.

Lemma geb_le (a b : Q) : Num.geb a b = true <-> (b <= a)%Q.
Proof. unfold Num.geb. apply Qle_bool_iff. Qed.

(** ** Fragment confidence *)

Lemma confidence_sum (a b c : Q) : Qmin 1 (0 + a + b + c) == Qmin 1 (a + b + c).
Proof. apply Q.min_compat; [reflexivity | ring]. Qed.

Lemma detector_confidence_capped (fragment : Fragment) (T : Z) :
  PascalPlagiarismDetector.calculateFragmentConfidence fragment T
  == cappedConfidence T (Num.len (pairs fragment)) (Range.length (leftkgrams fragment)).
Proof.
  unfold PascalPlagiarismDetector.calculateFragmentConfidence, cappedConfidence.
  cbv zeta. rewrite confidence_sum.
  apply Q.min_compat; [reflexivity |].
  repeat apply Qplus_comp; try reflexivity;
    apply Q.min_compat; try reflexivity; ring.
Qed.

Lemma mapper_confidence_capped (fragment : Fragment) (T : Z) :
  FragmentMapper.calculateFragmentConfidence fragment T
  == cappedConfidence T (Num.len (pairs fragment)) (Range.length (leftkgrams fragment)).
Proof.
  unfold FragmentMapper.calculateFragmentConfidence, cappedConfidence.
  cbv zeta. rewrite confidence_sum.
  apply Q.min_compat; [reflexivity |].
  repeat apply Qplus_comp; try reflexivity;
    apply Q.min_compat; try reflexivity; ring.
Qed.

(** C1, as the code has it: the confidence of a mapped fragment is
    [min(1, min(0.4, T/50) + min(0.3, 0.1 P) + min(0.3, 0.3 (P / max(1, R))))]
    for [T] shared tokens, [P] shared fingerprints and a left k-gram range of
    length [R], in the detector and in the fragment mapper alike: the weights
    0.4, 0.3 and 0.3 cap the summands, they do not scale them. *)
Theorem fragment_confidence_capped
    (d : Detector) (fragment : Fragment) (id : Z)
    (tf1 tf2 : TokenizedFile) (code1 code2 : string) (lines1 lines2 : list string) :
  MappedFragment.confidence
    (createMappedFragment d fragment id tf1 tf2 code1 code2)
  == cappedConfidence
       (Num.len (MappedFragment.sharedTokens
                   (createMappedFragment d fragment id tf1 tf2 code1 code2)))
       (MappedFragment.sharedFingerprints
          (createMappedFragment d fragment id tf1 tf2 code1 code2))
       (Range.length (leftkgrams fragment))
  /\
  FragmentMapper.confidence
    (FragmentMapper.enhanceFragment tf1 tf2 lines1 lines2 fragment id)
  == cappedConfidence
       (Num.len (FragmentMapper.sharedTokens
                   (FragmentMapper.enhanceFragment tf1 tf2 lines1 lines2 fragment id)))
       (FragmentMapper.sharedFingerprints
          (FragmentMapper.enhanceFragment tf1 tf2 lines1 lines2 fragment id))
       (Range.length (leftkgrams fragment)).
Proof.
  split; cbn -[cappedConfidence Num.len slice].
  - apply detector_confidence_capped.
  - apply mapper_confidence_capped.
Qed.

(** C1, as the specification words it, fails: a fragment of one paired
    occurrence over five tokens has confidence 0.5, not 0.37. *)
Lemma fragment_confidence_not_scaled :
  ~ (MappedFragment.confidence
       (createMappedFragment defaultDetector (sampleFragment 6) 1
          sampleFile sampleFile sampleCode sampleCode)
     == Spec.confidence
          (Num.len (MappedFragment.sharedTokens
                      (createMappedFragment defaultDetector (sampleFragment 6) 1
                         sampleFile sampleFile sampleCode sampleCode)))
          (MappedFragment.sharedFingerprints
             (createMappedFragment defaultDetector (sampleFragment 6) 1
                sampleFile sampleFile sampleCode sampleCode))
          (Range.length (leftkgrams (sampleFragment 6)))).
Proof. vm_compute. discriminate. Qed.

Example fragment_confidence_sample :
  MappedFragment.confidence
    (createMappedFragment defaultDetector (sampleFragment 6) 1
       sampleFile sampleFile sampleCode sampleCode) == 1 # 2
  /\ Spec.confidence 5 1 1 == 37 # 100.
Proof. split; vm_compute; reflexivity. Qed.

(** ** The verdict of a comparison *)

(** What a successful [detectPlagiarism] has computed. *)
Lemma detectPlagiarism_ok {exn : Type}
    (tokenizeFile : string -> string -> Result exn TokenizedFile)
    (getPair : Z -> Z -> TokenizedFile -> TokenizedFile -> Pair.t)
    (d : Detector) (file1 file2 : FileInput) (customThreshold : option Q)
    (r : PlagiarismResult.t) :
  detectPlagiarism tokenizeFile getPair d file1 file2 customThreshold = Ok r ->
  exists tf1 tf2,
    tokenizeFile (name file1) (content file1) = Ok tf1
    /\ tokenizeFile (name file2) (content file2) = Ok tf2
    /\ PlagiarismResult.syntacticSimilarity r
       = Pair.similarity (getPair (kgramSize d) (windowSize d) tf1 tf2)
    /\ PlagiarismResult.overallSimilarity r
       = (PlagiarismResult.syntacticSimilarity r * syntacticWeight d)%Q
    /\ PlagiarismResult.mappedFragments r
       = Mapping.mappedFragments
           (mapFragments d (getPair (kgramSize d) (windowSize d) tf1 tf2)
              tf1 tf2 (content file1) (content file2))
    /\ PlagiarismResult.isPlagiarism r
       = Num.geb (PlagiarismResult.overallSimilarity r)
           (Num.nullish_or customThreshold
              (calculateAdaptiveThreshold (PlagiarismResult.syntacticSimilarity r)
                 (Num.len (PlagiarismResult.mappedFragments r)))).
Proof.
  unfold detectPlagiarism. intro H.
  destruct (tokenizeFile (name file1) (content file1)) as [tf1 | e1]; [| discriminate].
  destruct (tokenizeFile (name file2) (content file2)) as [tf2 | e2]; [| discriminate].
  exists tf1, tf2. cbn [bind] in H. injection H as <-.
  repeat split; reflexivity.
Qed.

(** A comparison succeeds exactly when both files tokenize. *)
Lemma detectPlagiarism_succeeds {exn : Type}
    (tokenizeFile : string -> string -> Result exn TokenizedFile)
    (getPair : Z -> Z -> TokenizedFile -> TokenizedFile -> Pair.t)
    (d : Detector) (file1 file2 : FileInput) (customThreshold : option Q)
    (tf1 tf2 : TokenizedFile) :
  tokenizeFile (name file1) (content file1) = Ok tf1 ->
  tokenizeFile (name file2) (content file2) = Ok tf2 ->
  exists r, detectPlagiarism tokenizeFile getPair d file1 file2 customThreshold = Ok r.
Proof.
  intros H1 H2. unfold detectPlagiarism. rewrite H1, H2. cbn [bind].
  eexists. reflexivity.
Qed.

Lemma adaptive_threshold_table (s : Q) (F : Z) :
  ((8 # 10 < s)%Q /\ 5 < F -> calculateAdaptiveThreshold s F = 7 # 10)
  /\ (~ ((8 # 10 < s)%Q /\ 5 < F) -> (6 # 10 < s)%Q /\ 3 < F ->
      calculateAdaptiveThreshold s F = 5 # 10)
  /\ (~ ((8 # 10 < s)%Q /\ 5 < F) -> ~ ((6 # 10 < s)%Q /\ 3 < F) ->
      (4 # 10 < s)%Q /\ 1 < F ->
      calculateAdaptiveThreshold s F = 35 # 100)
  /\ (~ ((8 # 10 < s)%Q /\ 5 < F) -> ~ ((6 # 10 < s)%Q /\ 3 < F) ->
      ~ ((4 # 10 < s)%Q /\ 1 < F) ->
      calculateAdaptiveThreshold s F = 3 # 10).
Proof.
  assert (G : forall c n, Num.gtb s c && (F >? n) = true <-> (c < s)%Q /\ n < F).
  { intros c n. rewrite andb_true_iff, gtb_lt, Z.gtb_lt. tauto. }
  unfold calculateAdaptiveThreshold.
  destruct (Num.gtb s (8 # 10) && (F >? 5)) eqn:E1;
    [apply G in E1 | assert (N1 : ~ ((8 # 10 < s)%Q /\ 5 < F))
                       by (intro X; apply G in X; congruence)].
  { repeat split; intros; tauto. }
  destruct (Num.gtb s (6 # 10) && (F >? 3)) eqn:E2;
    [apply G in E2 | assert (N2 : ~ ((6 # 10 < s)%Q /\ 3 < F))
                       by (intro X; apply G in X; congruence)].
  { repeat split; intros; tauto. }
  destruct (Num.gtb s (4 # 10) && (F >? 1)) eqn:E3;
    [apply G in E3 | assert (N3 : ~ ((4 # 10 < s)%Q /\ 1 < F))
                       by (intro X; apply G in X; congruence)].
  { repeat split; intros; tauto. }
  repeat split; intros; tauto.
Qed.

(** C2: without a caller threshold, [detectPlagiarism] decides with the
    adaptive threshold [tau] read off the syntactic similarity [s] and the
    number [F] of surviving fragments: 0.7 if [s > 0.8] and [F > 5]; else 0.5
    if [s > 0.6] and [F > 3]; else 0.35 if [s > 0.4] and [F > 1]; else 0.3;
    and [isPlagiarism] holds exactly when [overallSimilarity >= tau]. *)
Theorem adaptive_verdict {exn : Type}
    (tokenizeFile : string -> string -> Result exn TokenizedFile)
    (getPair : Z -> Z -> TokenizedFile -> TokenizedFile -> Pair.t)
    (d : Detector) (file1 file2 : FileInput) (r : PlagiarismResult.t)
    (Hrun : detectPlagiarism tokenizeFile getPair d file1 file2 None = Ok r) :
  exists tau : Q,
    (PlagiarismResult.isPlagiarism r = true
     <-> (tau <= PlagiarismResult.overallSimilarity r)%Q)
    /\ ((8 # 10 < PlagiarismResult.syntacticSimilarity r)%Q
         /\ 5 < Num.len (PlagiarismResult.mappedFragments r) -> tau = 7 # 10)
    /\ (~ ((8 # 10 < PlagiarismResult.syntacticSimilarity r)%Q
           /\ 5 < Num.len (PlagiarismResult.mappedFragments r)) ->
        (6 # 10 < PlagiarismResult.syntacticSimilarity r)%Q
         /\ 3 < Num.len (PlagiarismResult.mappedFragments r) -> tau = 5 # 10)
    /\ (~ ((8 # 10 < PlagiarismResult.syntacticSimilarity r)%Q
           /\ 5 < Num.len (PlagiarismResult.mappedFragments r)) ->
        ~ ((6 # 10 < PlagiarismResult.syntacticSimilarity r)%Q
           /\ 3 < Num.len (PlagiarismResult.mappedFragments r)) ->
        (4 # 10 < PlagiarismResult.syntacticSimilarity r)%Q
         /\ 1 < Num.len (PlagiarismResult.mappedFragments r) -> tau = 35 # 100)
    /\ (~ ((8 # 10 < PlagiarismResult.syntacticSimilarity r)%Q
           /\ 5 < Num.len (PlagiarismResult.mappedFragments r)) ->
        ~ ((6 # 10 < PlagiarismResult.syntacticSimilarity r)%Q
           /\ 3 < Num.len (PlagiarismResult.mappedFragments r)) ->
        ~ ((4 # 10 < PlagiarismResult.syntacticSimilarity r)%Q
           /\ 1 < Num.len (PlagiarismResult.mappedFragments r)) -> tau = 3 # 10).
Proof.
  destruct (detectPlagiarism_ok _ _ _ _ _ _ _ Hrun)
    as (tf1 & tf2 & _ & _ & _ & _ & _ & Hverdict).
  exists (calculateAdaptiveThreshold (PlagiarismResult.syntacticSimilarity r)
            (Num.len (PlagiarismResult.mappedFragments r))).
  split.
  - rewrite Hverdict. cbn [Num.nullish_or]. apply geb_le.
  - apply adaptive_threshold_table.
Qed.

Lemma adaptive_verdict_witness :
  exists r,
    detectPlagiarism sampleTokenize sampleGetPair defaultDetector
      sampleA sampleB None = Ok r
    /\ exists tau : Q,
         (PlagiarismResult.isPlagiarism r = true
          <-> (tau <= PlagiarismResult.overallSimilarity r)%Q)
         /\ tau = 3 # 10.
Proof.
  eexists. split; [vm_compute; reflexivity |].
  edestruct (adaptive_verdict sampleTokenize sampleGetPair defaultDetector
               sampleA sampleB) as (tau & Hv & _ & _ & _ & Hlow).
  { vm_compute. reflexivity. }
  exists tau. split; [exact Hv |].
  apply Hlow; cbn; intros [_ H]; discriminate H.
Defined.

(** ** The confidence label *)

(** C3, as the code has it: the label is that of the score made of the bucket
    of the overall similarity (4 above 0.8, 3 above 0.6, 2 above 0.4, else 1),
    +2 when the syntactic similarity is above 0.7 (0.7 itself does not
    count), +1 when the longest fragment exceeds 10, +1 when either coverage
    exceeds 0.5, +2 when more than 5 fragments are significant, +1 when more
    than 20 lines are shared; VERY_HIGH from 8, HIGH from 6, MEDIUM from 4,
    else LOW. *)
Theorem confidence_label_additive
    (overallSimilarity : Q) (syntactic : Syntactic.t) (mapping : Mapping.t) :
  determineConfidence overallSimilarity syntactic mapping
  = Spec.label (overallBucket overallSimilarity + strictFactors syntactic mapping).
Proof.
  unfold determineConfidence, Spec.label, overallBucket, strictFactors.
  rewrite !Z.gtb_ltb.
  destruct (Num.gtb overallSimilarity (8 # 10));
  [| destruct (Num.gtb overallSimilarity (6 # 10));
     [| destruct (Num.gtb overallSimilarity (4 # 10))]];
  destruct (Num.gtb (Syntactic.similarity syntactic) (7 # 10));
  destruct (10 <? Syntactic.longestFragment syntactic);
  destruct (Num.gtb (Syntactic.coverage1 syntactic) (5 # 10)
            || Num.gtb (Syntactic.coverage2 syntactic) (5 # 10));
  destruct (5 <? Mapping.significantMappedFragments mapping);
  destruct (20 <? Mapping.totalSharedLines mapping);
  reflexivity.
Qed.

(** The label of a detect result is the one of [determineConfidence] on the
    quantities the result reports. *)
Lemma detect_confidence_label {exn : Type}
    (tokenizeFile : string -> string -> Result exn TokenizedFile)
    (getPair : Z -> Z -> TokenizedFile -> TokenizedFile -> Pair.t)
    (d : Detector) (file1 file2 : FileInput) (customThreshold : option Q)
    (r : PlagiarismResult.t) :
  detectPlagiarism tokenizeFile getPair d file1 file2 customThreshold = Ok r ->
  exists pair,
    PlagiarismResult.confidence r
    = determineConfidence (PlagiarismResult.overallSimilarity r)
        (Syntactic.mk (PlagiarismResult.syntacticSimilarity r)
           (PlagiarismResult.sharedFragments r)
           (PlagiarismResult.longestFragment r)
           (PlagiarismResult.coverage1 r)
           (PlagiarismResult.coverage2 r) pair)
        (Mapping.mk (PlagiarismResult.mappedFragments r)
           (PlagiarismResult.totalMappedFragments r)
           (PlagiarismResult.significantMappedFragments r)
           (PlagiarismResult.totalSharedLines r)
           (PlagiarismResult.totalSharedTokens r)).
Proof.
  unfold detectPlagiarism. intro H.
  destruct (tokenizeFile (name file1) (content file1)) as [tf1 | e1]; [| discriminate].
  destruct (tokenizeFile (name file2) (content file2)) as [tf2 | e2]; [| discriminate].
  cbn [bind] in H. injection H as <-.
  exists (getPair (kgramSize d) (windowSize d) tf1 tf2). reflexivity.
Qed.

(** C3, as the specification words it, fails whatever the buckets are: with
    "+2 when syntactic similarity >= 0.7" the similarities 0.7 and 0.8 would
    score alike, yet the code labels the first MEDIUM and the second HIGH. *)
Lemma confidence_label_not_from_seventy :
  ~ exists bucket : Q -> Z,
      forall (overallSimilarity : Q) (syntactic : Syntactic.t) (mapping : Mapping.t),
        determineConfidence overallSimilarity syntactic mapping
        = Spec.label (bucket overallSimilarity + Spec.factors syntactic mapping).
Proof.
  intros [bucket H].
  pose proof (H (9 # 10)%Q atSeventy noMapping) as H70.
  pose proof (H (9 # 10)%Q atEighty noMapping) as H80.
  assert (E70 : determineConfidence (9 # 10) atSeventy noMapping = MEDIUM)
    by (vm_compute; reflexivity).
  assert (E80 : determineConfidence (9 # 10) atEighty noMapping = HIGH)
    by (vm_compute; reflexivity).
  assert (F70 : Spec.factors atSeventy noMapping = 2) by (vm_compute; reflexivity).
  assert (F80 : Spec.factors atEighty noMapping = 2) by (vm_compute; reflexivity).
  rewrite E70, F70 in H70. rewrite E80, F80 in H80. congruence.
Qed.

Example confidence_label_at_seventy :
  determineConfidence (7 # 10) atSeventy noMapping = LOW
  /\ Spec.label (overallBucket (7 # 10) + Spec.factors atSeventy noMapping) = MEDIUM.
Proof. split; vm_compute; reflexivity. Qed.

(** ** Threshold monotonicity *)

(** C5: for fixed files and caller thresholds [t1 <= t2], a verdict of
    plagiarism under [t2] is a verdict of plagiarism under [t1]. *)
Theorem threshold_monotone {exn : Type}
    (tokenizeFile : string -> string -> Result exn TokenizedFile)
    (getPair : Z -> Z -> TokenizedFile -> TokenizedFile -> Pair.t)
    (d : Detector) (file1 file2 : FileInput) (t1 t2 : Q)
    (r2 : PlagiarismResult.t)
    (Hle : (t1 <= t2)%Q)
    (Hrun : detectPlagiarism tokenizeFile getPair d file1 file2 (Some t2) = Ok r2)
    (Hflag : PlagiarismResult.isPlagiarism r2 = true) :
  exists r1,
    detectPlagiarism tokenizeFile getPair d file1 file2 (Some t1) = Ok r1
    /\ PlagiarismResult.isPlagiarism r1 = true.
Proof.
  destruct (detectPlagiarism_ok _ _ _ _ _ _ _ Hrun)
    as (tf1 & tf2 & H1 & H2 & Hs2 & Ho2 & _ & Hv2).
  destruct (detectPlagiarism_succeeds tokenizeFile getPair d file1 file2
              (Some t1) tf1 tf2 H1 H2) as [r1 Hr1].
  exists r1. split; [exact Hr1 |].
  destruct (detectPlagiarism_ok _ _ _ _ _ _ _ Hr1)
    as (tf1' & tf2' & H1' & H2' & Hs1 & Ho1 & _ & Hv1).
  assert (tf1' = tf1) by congruence. assert (tf2' = tf2) by congruence. subst.
  rewrite Hv1. cbn [Num.nullish_or]. apply geb_le.
  rewrite Hv2 in Hflag. cbn [Num.nullish_or] in Hflag. apply geb_le in Hflag.
  rewrite Ho1, Hs1, <- Hs2, <- Ho2.
  eapply Qle_trans; eassumption.
Qed.

Lemma threshold_monotone_witness :
  exists r1,
    detectPlagiarism sampleTokenize sampleGetPair defaultDetector
      sampleA sampleB (Some (2 # 10)) = Ok r1
    /\ PlagiarismResult.isPlagiarism r1 = true.
Proof.
  eapply (threshold_monotone sampleTokenize sampleGetPair defaultDetector
            sampleA sampleB (2 # 10) (9 # 10)).
  - vm_compute. discriminate.
  - vm_compute. reflexivity.
  - vm_compute. reflexivity.
Defined.

(** ** Token positions *)

Lemma falsy_or_none (d : Z) : Num.falsy_or None d = d.
Proof. reflexivity. Qed.

Lemma falsy_or_zero (d : Z) : Num.falsy_or (Some 0) d = d.
Proof. reflexivity. Qed.

Lemma falsy_or_value (v d : Z) : v <> 0 -> Num.falsy_or (Some v) d = v.
Proof.
  intro H. unfold Num.falsy_or.
  destruct (Z.eqb_spec v 0); [contradiction | reflexivity].
Qed.

(** C6: the token-to-line lookup answers 1 for a negative index, for an index
    at or past the end of the position map, and for an entry without
    [startRow]; being a total function it answers for every index and file.
    Both copies of [getLineNumber] behave so. *)
Theorem getLineNumber_degrades_to_one
    (tokenIndex : Z) (tokenizedFile : TokenizedFile)
    (Hout : tokenIndex < 0
            \/ Num.len (mapping tokenizedFile) <= tokenIndex
            \/ startRowMissing tokenizedFile tokenIndex) :
  PascalPlagiarismDetector.getLineNumber tokenIndex tokenizedFile = 1
  /\ FragmentMapper.getLineNumber tokenIndex tokenizedFile = 1.
Proof.
  unfold PascalPlagiarismDetector.getLineNumber, FragmentMapper.getLineNumber.
  destruct (Z.ltb_spec tokenIndex 0) as [Hneg | Hnonneg]; cbn [orb];
    [split; reflexivity |].
  destruct (Z.geb_spec tokenIndex (Num.len (mapping tokenizedFile))) as [Hpast | Hin];
    [split; reflexivity |].
  destruct Hout as [H | [H | H]]; [lia | lia |].
  unfold startRowMissing in H.
  destruct (at_index (mapping tokenizedFile) tokenIndex) as [[region |] |];
    [rewrite H |  |]; split; reflexivity.
Qed.

Lemma getLineNumber_degrades_to_one_witness :
  (PascalPlagiarismDetector.getLineNumber (-1) sampleFile = 1
   /\ FragmentMapper.getLineNumber (-1) sampleFile = 1)
  /\ (PascalPlagiarismDetector.getLineNumber 6 sampleFile = 1
      /\ FragmentMapper.getLineNumber 6 sampleFile = 1)
  /\ (PascalPlagiarismDetector.getLineNumber 3 sampleFile = 1
      /\ FragmentMapper.getLineNumber 3 sampleFile = 1)
  /\ (PascalPlagiarismDetector.getLineNumber 4 sampleFile = 1
      /\ FragmentMapper.getLineNumber 4 sampleFile = 1).
Proof.
  repeat apply conj.
  all: try (apply (getLineNumber_degrades_to_one (-1) sampleFile); left; lia).
  all: try (apply (getLineNumber_degrades_to_one 6 sampleFile);
            right; left; vm_compute; discriminate).
  all: try (apply (getLineNumber_degrades_to_one 3 sampleFile);
            right; right; reflexivity).
  all: apply (getLineNumber_degrades_to_one 4 sampleFile);
       right; right; exact I.
Defined.

(** Inside the map, a present and non-zero [startRow] is the answer. *)
Lemma getLineNumber_in_range
    (tokenIndex row : Z) (tokenizedFile : TokenizedFile) (region : Region) :
  at_index (mapping tokenizedFile) tokenIndex = Some (Some region) ->
  startRow region = Some row -> row <> 0 ->
  PascalPlagiarismDetector.getLineNumber tokenIndex tokenizedFile = row
  /\ FragmentMapper.getLineNumber tokenIndex tokenizedFile = row.
Proof.
  intros Hentry Hrow Hnz.
  unfold PascalPlagiarismDetector.getLineNumber, FragmentMapper.getLineNumber.
  assert (Hin : (tokenIndex <? 0) || (tokenIndex >=? Num.len (mapping tokenizedFile))
                = false).
  { pose proof Hentry as Hnth. unfold at_index in Hnth.
    destruct (Z.ltb_spec tokenIndex 0) as [|Hge]; [discriminate |]. cbn [orb].
    rewrite Z.geb_leb. apply Z.leb_gt.
    assert (Hlt : (Z.to_nat tokenIndex < List.length (mapping tokenizedFile))%nat)
      by (apply nth_error_Some; congruence).
    unfold Num.len. lia. }
  rewrite Hin, Hentry, Hrow. split; apply falsy_or_value; assumption.
Qed.

Lemma at_index_first {A : Type} (x : A) (xs : list A) : at_index (x :: xs) 0 = Some x.
Proof. reflexivity. Qed.

Lemma at_index_last {A : Type} (x : A) (xs : list A) :
  at_index (x :: xs) (Num.len (x :: xs) - 1) = Some (List.last (x :: xs) x).
Proof.
  unfold at_index, Num.len.
  destruct (Z.ltb_spec (Z.of_nat (List.length (x :: xs)) - 1) 0) as [H | H];
    [cbn [List.length] in H; lia |].
  replace (Z.to_nat (Z.of_nat (List.length (x :: xs)) - 1)) with (List.length xs)
    by (cbn [List.length]; lia).
  clear H. generalize x at 3. revert x.
  induction xs as [| y ys IH]; intros x dflt; [reflexivity |].
  cbn [List.length nth_error]. rewrite (IH y dflt). reflexivity.
Qed.

(** C9: when the first paired occurrence of a fragment starts at token 0,
    [createMappedFragment] reports the start of the k-gram range instead, and
    when the last one stops at token 0 it reports the end of the k-gram range
    less one, on the left and on the right side alike: [||] takes 0 for a
    missing value. *)
Theorem token_range_falls_back_on_zero
    (d : Detector) (fragment : Fragment) (id : Z)
    (tf1 tf2 : TokenizedFile) (code1 code2 : string)
    (p : PairedOccurrence) (ps : list PairedOccurrence)
    (Hpairs : pairs fragment = p :: ps) :
  (start (left p) = 0 ->
   tok_start (MappedFragment.file1TokenRange
                (createMappedFragment d fragment id tf1 tf2 code1 code2))
   = Range.from (leftkgrams fragment))
  /\ (stop (left (List.last (p :: ps) p)) = 0 ->
      tok_end (MappedFragment.file1TokenRange
                 (createMappedFragment d fragment id tf1 tf2 code1 code2))
      = Range.to (leftkgrams fragment) - 1)
  /\ (start (right p) = 0 ->
      tok_start (MappedFragment.file2TokenRange
                   (createMappedFragment d fragment id tf1 tf2 code1 code2))
      = Range.from (rightkgrams fragment))
  /\ (stop (right (List.last (p :: ps) p)) = 0 ->
      tok_end (MappedFragment.file2TokenRange
                 (createMappedFragment d fragment id tf1 tf2 code1 code2))
      = Range.to (rightkgrams fragment) - 1).
Proof.
  unfold createMappedFragment.
  cbn [MappedFragment.file1TokenRange MappedFragment.file2TokenRange tok_start tok_end].
  rewrite Hpairs, at_index_first, at_index_last. cbn [option_map].
  repeat split; intros ->; apply falsy_or_zero.
Qed.

Lemma token_range_falls_back_on_zero_witness :
  tok_start (MappedFragment.file1TokenRange
               (createMappedFragment defaultDetector zeroFragment 1
                  sampleFile sampleFile sampleCode sampleCode)) = 2
  /\ tok_end (MappedFragment.file1TokenRange
                (createMappedFragment defaultDetector zeroFragment 1
                   sampleFile sampleFile sampleCode sampleCode)) = 4
  /\ tok_start (MappedFragment.file2TokenRange
                  (createMappedFragment defaultDetector zeroFragment 1
                     sampleFile sampleFile sampleCode sampleCode)) = 2
  /\ tok_end (MappedFragment.file2TokenRange
                (createMappedFragment defaultDetector zeroFragment 1
                   sampleFile sampleFile sampleCode sampleCode)) = 4.
Proof.
  destruct (token_range_falls_back_on_zero defaultDetector zeroFragment 1
              sampleFile sampleFile sampleCode sampleCode (mkPaired (mkSide 0 0) (mkSide 0 0)) []
              eq_refl) as (H1 & H2 & H3 & H4).
  split; [apply H1; reflexivity |].
  split; [apply H2; reflexivity |].
  split; [apply H3 | apply H4]; reflexivity.
Defined.

(** The fragment mapper falls back in the same way, its end bound being the
    end of the k-gram range itself. *)
Lemma mapper_token_range_falls_back_on_zero
    (fragment : Fragment) (index : Z)
    (tf1 tf2 : TokenizedFile) (lines1 lines2 : list string)
    (p : PairedOccurrence) (ps : list PairedOccurrence) :
  pairs fragment = p :: ps ->
  (start (left p) = 0 ->
   tok_start (FragmentMapper.file1Range
                (FragmentMapper.enhanceFragment tf1 tf2 lines1 lines2 fragment index))
   = Range.from (leftkgrams fragment))
  /\ (stop (left (List.last (p :: ps) p)) = 0 ->
      tok_end (FragmentMapper.file1Range
                 (FragmentMapper.enhanceFragment tf1 tf2 lines1 lines2 fragment index))
      = Range.to (leftkgrams fragment))
  /\ (start (right p) = 0 ->
      tok_start (FragmentMapper.file2Range
                   (FragmentMapper.enhanceFragment tf1 tf2 lines1 lines2 fragment index))
      = Range.from (rightkgrams fragment))
  /\ (stop (right (List.last (p :: ps) p)) = 0 ->
      tok_end (FragmentMapper.file2Range
                 (FragmentMapper.enhanceFragment tf1 tf2 lines1 lines2 fragment index))
      = Range.to (rightkgrams fragment)).
Proof.
  intro Hpairs. unfold FragmentMapper.enhanceFragment.
  cbn [FragmentMapper.file1Range FragmentMapper.file2Range tok_start tok_end].
  rewrite Hpairs, at_index_first, at_index_last. cbn [option_map].
  repeat split; intros ->; apply falsy_or_zero.
Qed.

(** ** Line-numbered rendering *)

Lemma string_app_assoc (a b c : string) : ((a ++ b) ++ c = a ++ (b ++ c))%string.
Proof.
  induction a as [| x a IH]; [reflexivity |].
  cbn [append]. now rewrite IH.
Qed.

Lemma has_lf_app (a b : string) : has_lf (a ++ b) = has_lf a || has_lf b.
Proof.
  induction a as [| c a IH]; [reflexivity |].
  cbn [append has_lf]. rewrite IH. apply orb_assoc.
Qed.

Lemma has_lf_spaces (n : nat) : has_lf (spaces n) = false.
Proof. induction n as [| n IH]; [reflexivity | exact IH]. Qed.

Lemma has_lf_digits (d : Decimal.uint) : has_lf (NilEmpty.string_of_uint d) = false.
Proof. induction d; cbn; auto. Qed.

Lemma has_lf_toString (n : Z) : has_lf (toString n) = false.
Proof.
  unfold toString, NilZero.string_of_int, NilZero.string_of_uint.
  destruct (Z.to_int n) as [d | d]; destruct d; cbn -[NilEmpty.string_of_uint];
    try reflexivity; apply has_lf_digits.
Qed.

Lemma has_lf_numberPrefix (n : Z) : has_lf (numberPrefix n) = false.
Proof.
  unfold numberPrefix, padStart.
  rewrite !has_lf_app, has_lf_spaces, has_lf_toString. reflexivity.
Qed.

Lemma split_lines_nonempty (s : string) : split_lines s <> [].
Proof.
  induction s as [| c s IH]; cbn [split_lines]; [discriminate |].
  destruct (Ascii.eqb c LF); [discriminate |].
  destruct (split_lines s); [contradiction | discriminate].
Qed.

Lemma split_lines_pieces (s : string) :
  Forall (fun l => has_lf l = false) (split_lines s).
Proof.
  induction s as [| c s IH]; cbn [split_lines].
  - repeat constructor.
  - destruct (Ascii.eqb c LF) eqn:E.
    + constructor; [reflexivity | exact IH].
    + assert (Hc : forall l, has_lf l = false -> has_lf (String c l) = false).
      { intros l Hl. cbn [has_lf]. rewrite E, Hl. reflexivity. }
      destruct (split_lines s) as [| l ls].
      * constructor; [apply Hc; reflexivity | constructor].
      * inversion IH as [| ? ? Hl Hls]; subst.
        constructor; [apply Hc, Hl | exact Hls].
Qed.

Lemma split_lines_single (l : string) : has_lf l = false -> split_lines l = [l].
Proof.
  induction l as [| c l IH]; [reflexivity |].
  cbn [has_lf split_lines]. intro H. apply orb_false_iff in H as [Hc Hl].
  rewrite Hc, (IH Hl). reflexivity.
Qed.

Lemma split_lines_cons (l rest : string) :
  has_lf l = false ->
  split_lines (l ++ String LF rest) = l :: split_lines rest.
Proof.
  induction l as [| c l IH]; intro H.
  - cbn [append split_lines]. rewrite Ascii.eqb_refl. reflexivity.
  - cbn [has_lf] in H. apply orb_false_iff in H as [Hc Hl].
    cbn [append split_lines]. rewrite Hc, (IH Hl). reflexivity.
Qed.

(** Splitting undoes joining, for lines without line feed. *)
Lemma split_lines_join (ls : list string) :
  ls <> [] -> Forall (fun l => has_lf l = false) ls ->
  split_lines (join (String LF EmptyString) ls) = ls.
Proof.
  induction ls as [| l ls IH]; [congruence |].
  intros _ Hall. inversion Hall as [| ? ? Hl Hls]; subst.
  destruct ls as [| l' ls'].
  - cbn [join]. apply split_lines_single, Hl.
  - change (join (String LF EmptyString) (l :: l' :: ls'))
      with (l ++ String LF (join (String LF EmptyString) (l' :: ls')))%string.
    rewrite (split_lines_cons _ _ Hl), IH; [reflexivity | discriminate | exact Hls].
Qed.

Lemma mapi_from_pieces (f : string -> Z -> string) (i : Z) (ls : list string) :
  (forall l k, has_lf l = false -> has_lf (f l k) = false) ->
  Forall (fun l => has_lf l = false) ls ->
  Forall (fun l => has_lf l = false) (mapi_from f i ls).
Proof.
  intros Hf Hall. revert i.
  induction Hall as [| l ls Hl Hls IH]; intro i; cbn [mapi_from]; constructor; auto.
Qed.

Lemma mapi_from_nonempty {A B : Type} (f : A -> Z -> B) (i : Z) (xs : list A) :
  xs <> [] -> mapi_from f i xs <> [].
Proof. destruct xs; [congruence | discriminate]. Qed.

(** C7, as the code has it: the lines of the numbered snippet are the lines of
    the snippet, in order, each behind its number, a colon and a blank; line
    [i] carries the number [startLine + i], written in decimal with blanks in
    front of it up to a width of three (longer numbers are kept whole). *)
Theorem numbered_lines_prefixed (code : string) (startLine : Z) :
  split_lines (addLineNumbers code startLine)
  = mapi (fun line i => (numberPrefix (startLine + i) ++ line)%string)
         (split_lines code).
Proof.
  unfold addLineNumbers, mapi. cbv zeta.
  rewrite split_lines_join.
  - generalize 0. induction (split_lines code) as [| l ls IH]; intro i;
      [reflexivity |].
    cbn [mapi_from]. rewrite IH. f_equal.
    unfold numberPrefix. now rewrite string_app_assoc.
  - apply mapi_from_nonempty, split_lines_nonempty.
  - apply mapi_from_pieces; [| apply split_lines_pieces].
    intros l k Hl.
    change (has_lf (padStart 3 (toString (startLine + k)) ++ (": " ++ l)) = false)%string.
    rewrite <- string_app_assoc. fold (numberPrefix (startLine + k)).
    rewrite has_lf_app, has_lf_numberPrefix, Hl. reflexivity.
Qed.

(** C7, as the specification words it, fails: line 5 is rendered with the
    blanks in front of the number, not behind it. *)
Lemma numbered_line_not_right_padded :
  addLineNumbers "begin" 5 = "  5: begin"%string
  /\ Spec.numberedLine 5 "begin" = "5  : begin"%string
  /\ nth_error (split_lines (addLineNumbers "begin" 5)) 0
     <> Some (Spec.numberedLine 5 "begin").
Proof. repeat split; vm_compute; discriminate. Qed.

(** ** The batch loop *)

Lemma extend_nil (st : BatchState) : extend st [] = st.
Proof.
  destruct st as [rs n k]. unfold extend, flagged, Num.len. cbn.
  rewrite app_nil_r, !Z.add_0_r. reflexivity.
Qed.

Lemma flagged_cons (r : PlagiarismResult.t) (rs : list PlagiarismResult.t) :
  flagged (r :: rs)
  = (if PlagiarismResult.isPlagiarism r then 1 else 0) + flagged rs.
Proof.
  unfold flagged, Num.len. cbn [filter].
  destruct (PlagiarismResult.isPlagiarism r); cbn [List.length]; lia.
Qed.

Lemma extend_cons (st : BatchState) (r : PlagiarismResult.t)
    (rs : list PlagiarismResult.t) :
  extend (mkBatchState (st_results st ++ [r]) (st_totalComparisons st + 1)
            (if PlagiarismResult.isPlagiarism r
             then st_suspiciousPairs st + 1 else st_suspiciousPairs st)) rs
  = extend st (r :: rs).
Proof.
  unfold extend. cbn [st_results st_totalComparisons st_suspiciousPairs].
  rewrite <- app_assoc, flagged_cons. cbn [app]. f_equal.
  - unfold Num.len. cbn [List.length]. lia.
  - destruct (PlagiarismResult.isPlagiarism r); lia.
Qed.

Lemma extend_app (st : BatchState) (rs rs' : list PlagiarismResult.t) :
  extend (extend st rs) rs' = extend st (rs ++ rs').
Proof.
  unfold extend, flagged, Num.len.
  cbn [st_results st_totalComparisons st_suspiciousPairs].
  rewrite <- app_assoc, filter_app, !length_app. f_equal; lia.
Qed.

Lemma traverse_app {E A B : Type} (f : A -> Result E B) (xs ys : list A) :
  traverse f (xs ++ ys)
  = (a <- traverse f xs ;; b <- traverse f ys ;; Ok (a ++ b)).
Proof.
  induction xs as [| x xs IH]; cbn [app traverse bind].
  - destruct (traverse f ys); reflexivity.
  - destruct (f x) as [y | e]; cbn [bind]; [| reflexivity].
    rewrite IH. destruct (traverse f xs) as [a | e]; cbn [bind]; [| reflexivity].
    destruct (traverse f ys); reflexivity.
Qed.

Lemma traverse_fails {E A B : Type} (f : A -> Result E B) (xs : list A) (x : A) (e : E) :
  In x xs -> f x = Err e -> exists e', traverse f xs = Err e'.
Proof.
  intros Hin Hx. induction xs as [| y ys IH]; [contradiction |].
  cbn [traverse]. destruct Hin as [-> | Hin].
  - rewrite Hx. eexists. reflexivity.
  - destruct (f y) as [b | e1]; cbn [bind]; [| eexists; reflexivity].
    destruct (IH Hin) as [e' ->]. eexists. reflexivity.
Qed.

Lemma traverse_succeeds {E A B : Type} (f : A -> Result E B) (xs : list A) :
  (forall x, In x xs -> exists y, f x = Ok y) ->
  exists ys, traverse f xs = Ok ys.
Proof.
  induction xs as [| x xs IH]; intro H; cbn [traverse].
  - eexists. reflexivity.
  - destruct (H x (or_introl eq_refl)) as [y ->].
    destruct IH as [ys ->]; [intros; apply H; now right |].
    eexists. reflexivity.
Qed.

Lemma traverse_each {E A B : Type} (f : A -> Result E B) (xs : list A) (ys : list B) :
  traverse f xs = Ok ys -> Forall2 (fun x y => f x = Ok y) xs ys.
Proof.
  revert ys. induction xs as [| x xs IH]; intros ys H; cbn [traverse] in H.
  - injection H as <-. constructor.
  - destruct (f x) as [y | e] eqn:Hx; cbn [bind] in H; [| discriminate].
    destruct (traverse f xs) as [zs | e]; cbn [bind] in H; [| discriminate].
    injection H as <-. constructor; [exact Hx | now apply IH].
Qed.

Section BatchLoop.

Context {exn : Type}.
Variable tokenizeFile : string -> string -> Result exn TokenizedFile.
Variable getPair : Z -> Z -> TokenizedFile -> TokenizedFile -> Pair.t.
Variable d : Detector.
Variable customThreshold : option Q.

Lemma innerLoop_traverse (fi : FileInput) (later : list FileInput) (st : BatchState) :
  innerLoop tokenizeFile getPair d customThreshold fi later st
  = (rs <- traverse (compare tokenizeFile getPair d customThreshold) (map (fun fj => (fi, fj)) later) ;; Ok (extend st rs)).
Proof.
  revert st. induction later as [| fj rest IH]; intro st.
  - cbn. now rewrite extend_nil.
  - cbn [innerLoop map traverse]. unfold compareStep.
    unfold compare at 1. cbn [fst snd].
    destruct (detectPlagiarism tokenizeFile getPair d fi fj customThreshold)
      as [r | e]; cbn [bind]; [| reflexivity].
    rewrite IH.
    destruct (traverse (compare tokenizeFile getPair d customThreshold) (map (fun fj0 => (fi, fj0)) rest)) as [rs | e];
      cbn [bind]; [| reflexivity].
    now rewrite extend_cons.
Qed.

Lemma outerLoop_traverse (files : list FileInput) (st : BatchState) :
  outerLoop tokenizeFile getPair d customThreshold files st
  = (rs <- traverse (compare tokenizeFile getPair d customThreshold) (allPairs files) ;; Ok (extend st rs)).
Proof.
  revert st. induction files as [| fi rest IH]; intro st.
  - cbn. now rewrite extend_nil.
  - cbn [outerLoop allPairs]. rewrite innerLoop_traverse, traverse_app.
    destruct (traverse (compare tokenizeFile getPair d customThreshold) (map (fun fj => (fi, fj)) rest)) as [rs | e];
      cbn [bind]; [| reflexivity].
    rewrite IH.
    destruct (traverse (compare tokenizeFile getPair d customThreshold) (allPairs rest)) as [rs' | e]; cbn [bind]; [| reflexivity].
    now rewrite extend_app.
Qed.

(** The batch is the comparison of all pairs in loop order; it fails with the
    first comparison that fails. *)
Lemma detectBatchPlagiarism_traverse (files : list FileInput) :
  detectBatchPlagiarism tokenizeFile getPair d files customThreshold
  = (rs <- traverse (compare tokenizeFile getPair d customThreshold) (allPairs files) ;;
     Ok (BatchResult.mk
           (sort_by (fun a b =>
                       Qle_bool (PlagiarismResult.overallSimilarity b
                                 - PlagiarismResult.overallSimilarity a) 0) rs)
           (match customThreshold with
            | Some t => Q2R t
            | None => calculateBatchThreshold rs
            end)
           (Num.len rs)
           (flagged rs))).
Proof.
  unfold detectBatchPlagiarism. rewrite outerLoop_traverse.
  destruct (traverse (compare tokenizeFile getPair d customThreshold) (allPairs files)) as [rs | e]; cbn [bind]; reflexivity.
Qed.

End BatchLoop.

(** ** Sorting *)

Lemma sort_insert_perm {A : Type} (before : A -> A -> bool) (x : A) (ys : list A) :
  Permutation (x :: ys) (sort_insert before x ys).
Proof.
  induction ys as [| y ys IH]; cbn [sort_insert]; [reflexivity |].
  destruct (before x y); [reflexivity |].
  rewrite perm_swap. now apply perm_skip.
Qed.

Lemma sort_by_perm {A : Type} (before : A -> A -> bool) (xs : list A) :
  Permutation xs (sort_by before xs).
Proof.
  induction xs as [| x xs IH]; cbn; [constructor |].
  rewrite <- sort_insert_perm. now apply perm_skip.
Qed.

Lemma flagged_perm (rs rs' : list PlagiarismResult.t) :
  Permutation rs rs' -> flagged rs = flagged rs'.
Proof.
  induction 1 as [| r rs rs' _ IH | r r' rs | rs rs' rs'' _ IH1 _ IH2].
  - reflexivity.
  - rewrite !flagged_cons. lia.
  - rewrite !flagged_cons. lia.
  - congruence.
Qed.

(** ** Failure of a batch *)

Lemma allPairs_mem (f : FileInput) (files : list FileInput) :
  In f files -> (2 <= List.length files)%nat ->
  exists p, In p (allPairs files) /\ (fst p = f \/ snd p = f).
Proof.
  induction files as [| a rest IH]; [contradiction |].
  intros [-> | Hin] Hlen; cbn [allPairs].
  - destruct rest as [| b rest']; [cbn in Hlen; lia |].
    exists (f, b). split; [| now left]. apply in_or_app. left. now left.
  - exists (a, f). split; [| now right].
    apply in_or_app. left. apply in_map_iff. exists f. now split.
Qed.

Lemma allPairs_members (files : list FileInput) (p : FileInput * FileInput) :
  In p (allPairs files) -> In (fst p) files /\ In (snd p) files.
Proof.
  induction files as [| a rest IH]; [contradiction |].
  cbn [allPairs]. intro H. apply in_app_or in H as [H | H].
  - apply in_map_iff in H as (fj & <- & Hfj). cbn. tauto.
  - destruct (IH H). cbn. tauto.
Qed.

Lemma allPairs_count (files : list FileInput) :
  2 * Num.len (allPairs files) = Num.len files * (Num.len files - 1).
Proof.
  unfold Num.len. induction files as [| a rest IH]; [reflexivity |].
  cbn [allPairs]. rewrite length_app, length_map. cbn [List.length]. nia.
Qed.

Lemma mapi_from_mem {A B : Type} (f : A -> Z -> B) (i : Z) (xs : list A) (y : B) :
  In y (mapi_from f i xs) -> exists x k, y = f x k.
Proof.
  revert i. induction xs as [| x xs IH]; intros i H; [contradiction |].
  destruct H as [<- | H]; [now exists x, i | eauto].
Qed.

Lemma filter_none {A : Type} (p : A -> bool) (xs : list A) :
  (forall x, In x xs -> p x = false) -> filter p xs = [].
Proof.
  induction xs as [| x xs IH]; intro H; [reflexivity |].
  cbn [filter]. rewrite (H x (or_introl eq_refl)). apply IH.
  intros; apply H; now right.
Qed.

Lemma slice_nil {A : Type} (s e : Z) : slice (@nil A) s e = [].
Proof. unfold slice. now rewrite skipn_nil, firstn_nil. Qed.

(** A first file without tokens leaves no significant fragment. *)
Lemma mapFragments_no_tokens (d : Detector) (pair : Pair.t)
    (tf1 tf2 : TokenizedFile) (code1 code2 : string) :
  tokens tf1 = [] -> 0 < kgramSize d ->
  Mapping.mappedFragments (mapFragments d pair tf1 tf2 code1 code2) = [].
Proof.
  intros Hempty Hk. unfold mapFragments. cbn [Mapping.mappedFragments].
  apply filter_none. intros mf Hin.
  apply mapi_from_mem in Hin as (fragment & k & ->).
  unfold createMappedFragment. cbn [MappedFragment.sharedTokens].
  rewrite Hempty, slice_nil. apply andb_false_iff. right.
  rewrite Z.geb_leb. apply Z.leb_gt. exact Hk.
Qed.

Lemma mapFragments_no_fragments (d : Detector) (pair : Pair.t)
    (tf1 tf2 : TokenizedFile) (code1 code2 : string) :
  Pair.buildFragments pair 1 = [] ->
  Mapping.mappedFragments (mapFragments d pair tf1 tf2 code1 code2) = [].
Proof.
  intro H. unfold mapFragments. cbn [Mapping.mappedFragments]. rewrite H. reflexivity.
Qed.

Lemma contractGetPair_obeys : indexContract contractGetPair.
Proof.
  intros k w a b H. unfold contractGetPair.
  assert (E : (Num.len (tokens a) <? k) || (Num.len (tokens b) <? k) = true).
  { apply orb_true_iff. rewrite !Z.ltb_lt. exact H. }
  rewrite E. split; reflexivity.
Qed.

(** A pair with a file without tokens, under the contract of the index. *)
Lemma detect_without_tokens {exn : Type}
    (tokenizeFile : string -> string -> Result exn TokenizedFile)
    (getPair : Z -> Z -> TokenizedFile -> TokenizedFile -> Pair.t)
    (d : Detector) (file1 file2 : FileInput) (customThreshold : option Q)
    (r : PlagiarismResult.t) (tf1 tf2 : TokenizedFile) :
  indexContract getPair -> 0 < kgramSize d ->
  detectPlagiarism tokenizeFile getPair d file1 file2 customThreshold = Ok r ->
  tokenizeFile (name file1) (content file1) = Ok tf1 ->
  tokenizeFile (name file2) (content file2) = Ok tf2 ->
  tokens tf1 = [] \/ tokens tf2 = [] ->
  (PlagiarismResult.syntacticSimilarity r == 0)%Q
  /\ (PlagiarismResult.overallSimilarity r == 0)%Q
  /\ PlagiarismResult.mappedFragments r = [].
Proof.
  intros Hindex Hk Hrun H1 H2 Hempty.
  destruct (detectPlagiarism_ok _ _ _ _ _ _ _ Hrun)
    as (tf1' & tf2' & H1' & H2' & Hs & Ho & Hm & _).
  assert (tf1' = tf1) by congruence. assert (tf2' = tf2) by congruence. subst.
  destruct (Hindex (kgramSize d) (windowSize d) tf1 tf2) as [Hsim Hfrag].
  { destruct Hempty as [-> | ->]; [left | right]; exact Hk. }
  rewrite Ho, Hs, Hm. split; [exact Hsim |]. split.
  - rewrite Hsim. apply Qmult_0_l.
  - apply mapFragments_no_fragments, Hfrag.
Qed.

(** C4, as the code has it.  A failure of the tokenizer is not recovered per
    pair: in a batch of at least two files, a file whose tokenizing fails
    makes [detectBatchPlagiarism] fail as a whole, without any [BatchResult].
    A file without tokens does not fail the batch: when every file tokenizes,
    the batch returns the results of all pairs [i < j], sorted, and, the index
    obeying its contract, each pair with a file without tokens is among them
    with similarity 0 and [mappedFragments = []].  Whatever the index does,
    a pair whose first file has no token has [mappedFragments = []]. *)
Theorem batch_fails_as_a_whole {exn : Type}
    (tokenizeFile : string -> string -> Result exn TokenizedFile)
    (getPair : Z -> Z -> TokenizedFile -> TokenizedFile -> Pair.t)
    (d : Detector) (files : list FileInput) (customThreshold : option Q) :
  (forall f e,
     In f files -> (2 <= List.length files)%nat ->
     tokenizeFile (name f) (content f) = Err e ->
     exists e', detectBatchPlagiarism tokenizeFile getPair d files customThreshold
                = Err e')
  /\ (indexContract getPair -> 0 < kgramSize d ->
      (forall f, In f files -> exists tf, tokenizeFile (name f) (content f) = Ok tf) ->
      exists br rs,
        detectBatchPlagiarism tokenizeFile getPair d files customThreshold = Ok br
        /\ Forall2 (fun p r =>
                      detectPlagiarism tokenizeFile getPair d (fst p) (snd p)
                        customThreshold = Ok r
                      /\ PlagiarismResult.file1 r = name (fst p)
                      /\ PlagiarismResult.file2 r = name (snd p)
                      /\ (forall tf1 tf2,
                            tokenizeFile (name (fst p)) (content (fst p)) = Ok tf1 ->
                            tokenizeFile (name (snd p)) (content (snd p)) = Ok tf2 ->
                            tokens tf1 = [] \/ tokens tf2 = [] ->
                            (PlagiarismResult.syntacticSimilarity r == 0)%Q
                            /\ (PlagiarismResult.overallSimilarity r == 0)%Q
                            /\ PlagiarismResult.mappedFragments r = []))
                   (allPairs files) rs
        /\ Permutation rs (BatchResult.results br)
        /\ BatchResult.totalComparisons br = Num.len (allPairs files))
  /\ (forall f1 f2 tf1 r,
        detectPlagiarism tokenizeFile getPair d f1 f2 customThreshold = Ok r ->
        tokenizeFile (name f1) (content f1) = Ok tf1 ->
        tokens tf1 = [] -> 0 < kgramSize d ->
        PlagiarismResult.mappedFragments r = []).
Proof.
  split; [| split].
  - intros f e Hin Hlen Hfail.
    rewrite detectBatchPlagiarism_traverse.
    destruct (allPairs_mem f files Hin Hlen) as (p & Hp & Hside).
    assert (Hcmp : exists e1, compare tokenizeFile getPair d customThreshold p = Err e1).
    { unfold compare, detectPlagiarism.
      destruct Hside as [-> | ->].
      - rewrite Hfail. eexists. reflexivity.
      - destruct (tokenizeFile (name (fst p)) (content (fst p)));
          cbn [bind]; [rewrite Hfail |]; eexists; reflexivity. }
    destruct Hcmp as [e1 Hcmp].
    destruct (traverse_fails _ _ _ _ Hp Hcmp) as [e' ->].
    exists e'. reflexivity.
  - intros Hindex Hk Hall.
    rewrite detectBatchPlagiarism_traverse.
    destruct (traverse_succeeds (compare tokenizeFile getPair d customThreshold)
                (allPairs files)) as [rs Hrs].
    { intros p Hp. apply allPairs_members in Hp as [H1 H2].
      destruct (Hall _ H1) as [tf1 Htf1]. destruct (Hall _ H2) as [tf2 Htf2].
      unfold compare. eapply detectPlagiarism_succeeds; eassumption. }
    rewrite Hrs. cbn [bind]. eexists. exists rs. split; [reflexivity |].
    cbn [BatchResult.results BatchResult.totalComparisons].
    pose proof (traverse_each _ _ _ Hrs) as Heach.
    split.
    { clear Hrs. induction Heach as [| p r ps rs' Hp _ IH]; [constructor |].
      constructor; [| exact IH].
      unfold compare in Hp. split; [exact Hp |].
      assert (Hnames : PlagiarismResult.file1 r = name (fst p)
                       /\ PlagiarismResult.file2 r = name (snd p)).
      { revert Hp. unfold detectPlagiarism.
        destruct (tokenizeFile (name (fst p)) (content (fst p))); [| discriminate].
        destruct (tokenizeFile (name (snd p)) (content (snd p))); [| discriminate].
        cbn [bind]. intro H. injection H as <-. split; reflexivity. }
      destruct Hnames as [Hn1 Hn2]. split; [exact Hn1 |]. split; [exact Hn2 |].
      intros tf1 tf2 H1 H2 Hempty.
      exact (detect_without_tokens tokenizeFile getPair d (fst p) (snd p)
               customThreshold r tf1 tf2 Hindex Hk Hp H1 H2 Hempty). }
    split; [apply sort_by_perm |].
    pose proof (Forall2_length Heach) as Hlen.
    unfold Num.len. now rewrite Hlen.
  - intros f1 f2 tf1 r Hrun Htf1 Hempty Hk.
    destruct (detectPlagiarism_ok _ _ _ _ _ _ _ Hrun)
      as (tf1' & tf2 & H1 & _ & _ & _ & Hmapped & _).
    assert (tf1' = tf1) by congruence. subst tf1'.
    rewrite Hmapped. now apply mapFragments_no_tokens.
Qed.

(** C4, as the specification words it, fails: one file with an unterminated
    string makes the whole batch fail, although the pair of the other two
    files could be compared. *)
Lemma batch_not_recovered :
  detectBatchPlagiarism sampleTokenize sampleGetPair defaultDetector
    [sampleA; sampleB; sampleBad] None = Err "LexError"%string
  /\ ~ exists br,
         detectBatchPlagiarism sampleTokenize sampleGetPair defaultDetector
           [sampleA; sampleB; sampleBad] None = Ok br.
Proof.
  assert (H : detectBatchPlagiarism sampleTokenize sampleGetPair defaultDetector
                [sampleA; sampleB; sampleBad] None = Err "LexError"%string).
  { rewrite detectBatchPlagiarism_traverse. vm_compute. reflexivity. }
  split; [exact H |]. intros [br Hbr]. rewrite H in Hbr. discriminate.
Qed.

Lemma batch_fails_as_a_whole_witness :
  (exists e',
     detectBatchPlagiarism sampleTokenize contractGetPair defaultDetector
       [sampleA; sampleBad] None = Err e')
  /\ (exists br rs,
        detectBatchPlagiarism sampleTokenize contractGetPair defaultDetector
          [sampleA; sampleEmpty; sampleB] None = Ok br
        /\ Permutation rs (BatchResult.results br)
        /\ BatchResult.totalComparisons br = 3
        /\ Forall (fun r =>
                     PlagiarismResult.file1 r = "empty.pas"%string
                     \/ PlagiarismResult.file2 r = "empty.pas"%string ->
                     (PlagiarismResult.overallSimilarity r == 0)%Q
                     /\ PlagiarismResult.mappedFragments r = []) rs).
Proof.
  split.
  - destruct (batch_fails_as_a_whole sampleTokenize contractGetPair defaultDetector
                [sampleA; sampleBad] None) as [Hfail _].
    apply (Hfail sampleBad "LexError"%string).
    + right. left. reflexivity.
    + cbn. lia.
    + vm_compute. reflexivity.
  - destruct (batch_fails_as_a_whole sampleTokenize contractGetPair defaultDetector
                [sampleA; sampleEmpty; sampleB] None) as (_ & Hok & _).
    destruct Hok as (br & rs & Hbr & Heach & Hperm & Hcount).
    + exact contractGetPair_obeys.
    + reflexivity.
    + intros f [<- | [<- | [<- | []]]]; eexists; vm_compute; reflexivity.
    + exists br, rs. split; [exact Hbr |]. split; [exact Hperm |].
      split; [exact Hcount |].
      cbn [allPairs map app] in Heach.
      inversion Heach as [| p1 r1 ps1 rs1 (_ & _ & _ & E1) Heach1]; subst.
      inversion Heach1 as [| p2 r2 ps2 rs2 (_ & N21 & N22 & _) Heach2]; subst.
      inversion Heach2 as [| p3 r3 ps3 rs3 (_ & _ & _ & E3) Heach3]; subst.
      inversion Heach3; subst.
      cbn [fst snd] in *.
      assert (Hempty : sampleTokenize (name sampleEmpty) (content sampleEmpty)
                       = Ok (mkTokenizedFile [] [])) by reflexivity.
      constructor; [| constructor; [| constructor; [| constructor]]].
      * intros _. destruct (E1 _ _ eq_refl Hempty (or_intror eq_refl)) as (_ & Ho & Hm).
        split; assumption.
      * rewrite N21, N22. intros [H | H]; discriminate H.
      * intros _. destruct (E3 _ _ Hempty eq_refl (or_introl eq_refl)) as (_ & Ho & Hm).
        split; assumption.
Defined.

(** ** Verdicts inside a batch *)

(** C10: without a caller threshold, every result of a batch carries the
    verdict of its own adaptive threshold, [overallSimilarity >= tau] with
    [tau] read off that pair's syntactic similarity and surviving fragments,
    and [suspiciousPairs] counts the results so flagged; the batch threshold,
    computed afterwards from the results, enters neither. *)
Theorem batch_verdicts_per_pair {exn : Type}
    (tokenizeFile : string -> string -> Result exn TokenizedFile)
    (getPair : Z -> Z -> TokenizedFile -> TokenizedFile -> Pair.t)
    (d : Detector) (files : list FileInput) (br : BatchResult.t)
    (Hrun : detectBatchPlagiarism tokenizeFile getPair d files None = Ok br) :
  Forall (fun r =>
            PlagiarismResult.isPlagiarism r
            = Num.geb (PlagiarismResult.overallSimilarity r)
                (calculateAdaptiveThreshold
                   (PlagiarismResult.syntacticSimilarity r)
                   (Num.len (PlagiarismResult.mappedFragments r))))
         (BatchResult.results br)
  /\ BatchResult.suspiciousPairs br = flagged (BatchResult.results br)
  /\ exists rs,
       Forall2 (fun p r => detectPlagiarism tokenizeFile getPair d (fst p) (snd p)
                             None = Ok r)
               (allPairs files) rs
       /\ Permutation rs (BatchResult.results br).
Proof.
  rewrite detectBatchPlagiarism_traverse in Hrun.
  destruct (traverse (compare tokenizeFile getPair d None) (allPairs files))
    as [rs | e] eqn:Hrs; cbn [bind] in Hrun; [| discriminate].
  injection Hrun as <-.
  cbn [BatchResult.results BatchResult.suspiciousPairs].
  pose proof (traverse_each _ _ _ Hrs) as Heach.
  split; [| split].
  - eapply Permutation_Forall; [apply sort_by_perm |].
    clear Hrs. induction Heach as [| p r ps rs' Hp _ IH]; constructor; [| exact IH].
    unfold compare in Hp.
    destruct (detectPlagiarism_ok _ _ _ _ _ _ _ Hp)
      as (tf1 & tf2 & _ & _ & _ & _ & _ & Hverdict).
    exact Hverdict.
  - apply flagged_perm, sort_by_perm.
  - exists rs. split; [exact Heach | apply sort_by_perm].
Qed.

Lemma batch_verdicts_per_pair_witness :
  exists br,
    detectBatchPlagiarism sampleTokenize sampleGetPair defaultDetector
      [sampleA; sampleB; sampleC] None = Ok br
    /\ BatchResult.suspiciousPairs br = flagged (BatchResult.results br)
    /\ flagged (BatchResult.results br) = 1.
Proof.
  destruct (detectBatchPlagiarism sampleTokenize sampleGetPair defaultDetector
              [sampleA; sampleB; sampleC] None) as [br | e] eqn:Hrun;
    [| exfalso; revert Hrun; rewrite detectBatchPlagiarism_traverse;
       vm_compute; discriminate].
  exists br. split; [reflexivity |].
  destruct (batch_verdicts_per_pair sampleTokenize sampleGetPair defaultDetector
              [sampleA; sampleB; sampleC] br Hrun) as (_ & Hcount & _).
  split; [exact Hcount |].
  rewrite <- Hcount. revert Hrun. rewrite detectBatchPlagiarism_traverse.
  cbn [allPairs map app traverse].
  vm_compute. intro H. injection H as <-. reflexivity.
Defined.

(** ** The batch threshold *)

Lemma Rsum_perm (xs ys : list R) : Permutation xs ys -> Rsum xs = Rsum ys.
Proof.
  unfold Rsum.
  induction 1 as [| x xs ys _ IH | x y xs | xs ys zs _ IH1 _ IH2];
    cbn [fold_right].
  - reflexivity.
  - now rewrite IH.
  - lra.
  - congruence.
Qed.

Lemma Rmean_perm (xs ys : list R) : Permutation xs ys -> Rmean xs = Rmean ys.
Proof.
  intro H. unfold Rmean.
  now rewrite (Rsum_perm _ _ H), (Permutation_length H).
Qed.

Lemma Rstddev_perm (xs ys : list R) : Permutation xs ys -> Rstddev xs = Rstddev ys.
Proof.
  intro H. unfold Rstddev.
  rewrite (Rmean_perm _ _ H), (Permutation_length H).
  f_equal. f_equal. apply Rsum_perm. now apply Permutation_map.
Qed.

Lemma Q2R_fold_sum (g : Q -> Q) (gR : R -> R) :
  (forall x, Q2R (g x) = gR (Q2R x)) ->
  forall (l : list Q) (a : Q),
    Q2R (fold_left (fun sum sim => sum + g sim)%Q l a)
    = (Q2R a + Rsum (map gR (map Q2R l)))%R.
Proof.
  intros Hg l. induction l as [| x l IH]; intro a; cbn [fold_left map].
  - unfold Rsum. cbn [fold_right]. lra.
  - rewrite IH, Q2R_plus, Hg. unfold Rsum. cbn [fold_right]. lra.
Qed.

Lemma Q2R_len {A : Type} (l : list A) : Q2R (inject_Z (Num.len l)) = INR (List.length l).
Proof.
  unfold Num.len, Q2R, inject_Z. cbn [Qnum Qden].
  rewrite INR_IZR_INZ, Rinv_1. lra.
Qed.

Lemma len_nonzero {A : Type} (l : list A) : l <> [] -> ~ (inject_Z (Num.len l) == 0)%Q.
Proof.
  intros Hne H. destruct l as [| x l]; [congruence |].
  unfold Num.len, Qeq, inject_Z in H. cbn [Qnum Qden List.length] in H. lia.
Qed.

Lemma Q2R_square (x m : Q) : Q2R ((x - m) ^ 2) = Rsqr (Q2R x - Q2R m).
Proof.
  rewrite <- Q2R_minus. unfold Rsqr. rewrite <- Q2R_mult.
  apply Qeq_eqR. cbn. ring.
Qed.

(** Mean and standard deviation as the code computes them, on rationals, are
    those of the real numbers. *)
Lemma mean_real (sims : list Q) :
  sims <> [] ->
  Q2R (fold_left (fun sum sim => sum + sim) sims 0 / inject_Z (Num.len sims))%Q
  = Rmean (map Q2R sims).
Proof.
  intro Hne. rewrite Q2R_div by now apply len_nonzero.
  rewrite (Q2R_fold_sum (fun x => x) (fun x => x)) by reflexivity.
  rewrite map_id, Q2R_len. unfold Rmean. rewrite length_map.
  replace (Q2R 0) with 0%R by (unfold Q2R; cbn; lra).
  now rewrite Rplus_0_l.
Qed.

Lemma variance_real (sims : list Q) (mean : Q) :
  sims <> [] ->
  Q2R (fold_left (fun sum sim => sum + (sim - mean) ^ 2) sims 0
       / inject_Z (Num.len sims))%Q
  = (Rsum (map (fun x => Rsqr (x - Q2R mean)) (map Q2R sims))
     / INR (List.length (map Q2R sims)))%R.
Proof.
  intro Hne. rewrite Q2R_div by now apply len_nonzero.
  rewrite (Q2R_fold_sum (fun x => (x - mean) ^ 2)%Q (fun x => Rsqr (x - Q2R mean)))
    by (intro x; apply Q2R_square).
  rewrite Q2R_len, length_map.
  replace (Q2R 0) with 0%R by (unfold Q2R; cbn; lra).
  now rewrite Rplus_0_l.
Qed.

Lemma calculateBatchThreshold_clamp (rs : list PlagiarismResult.t) :
  rs <> [] ->
  calculateBatchThreshold rs
  = clamp (Rmean (map (fun r => Q2R (PlagiarismResult.overallSimilarity r)) rs)
           + 3 / 2
             * Rstddev (map (fun r => Q2R (PlagiarismResult.overallSimilarity r)) rs))
          (1 / 4) (4 / 5).
Proof.
  intro Hne. unfold calculateBatchThreshold.
  destruct (Z.eqb_spec (Num.len rs) 0) as [H0 | _].
  { destruct rs; [congruence | unfold Num.len in H0; cbn in H0; lia]. }
  cbv zeta.
  set (sims := sort_by (fun a b => Qle_bool (b - a) 0)
                 (map PlagiarismResult.overallSimilarity rs)).
  assert (Hperm : Permutation
                    (map (fun r => Q2R (PlagiarismResult.overallSimilarity r)) rs)
                    (map Q2R sims)).
  { rewrite <- (map_map PlagiarismResult.overallSimilarity Q2R).
    apply Permutation_map, sort_by_perm. }
  assert (Hsims : sims <> []).
  { intro E. rewrite E in Hperm. apply Permutation_sym, Permutation_nil in Hperm.
    destruct rs; [congruence | discriminate]. }
  rewrite (variance_real sims _ Hsims), (mean_real sims Hsims).
  rewrite (Rmean_perm _ _ Hperm), (Rstddev_perm _ _ Hperm).
  unfold clamp, Rstddev.
  replace (25 / 100)%R with (1 / 4)%R by lra.
  replace (8 / 10)%R with (4 / 5)%R by lra.
  replace (15 / 10)%R with (3 / 2)%R by lra.
  reflexivity.
Qed.

(** C8: without a caller threshold, the threshold of a batch with at least one
    result is [clamp(mean + 1.5 stddev, 0.25, 0.8)], mean and (population)
    standard deviation being those of the [overallSimilarity] of the results
    reported. *)
Theorem batch_threshold_clamped {exn : Type}
    (tokenizeFile : string -> string -> Result exn TokenizedFile)
    (getPair : Z -> Z -> TokenizedFile -> TokenizedFile -> Pair.t)
    (d : Detector) (files : list FileInput) (br : BatchResult.t)
    (Hrun : detectBatchPlagiarism tokenizeFile getPair d files None = Ok br)
    (Hsome : BatchResult.results br <> []) :
  BatchResult.threshold br
  = clamp (Rmean (map (fun r => Q2R (PlagiarismResult.overallSimilarity r))
                      (BatchResult.results br))
           + 3 / 2
             * Rstddev (map (fun r => Q2R (PlagiarismResult.overallSimilarity r))
                            (BatchResult.results br)))
          (1 / 4) (4 / 5).
Proof.
  rewrite detectBatchPlagiarism_traverse in Hrun.
  destruct (traverse (compare tokenizeFile getPair d None) (allPairs files))
    as [rs | e]; cbn [bind] in Hrun; [| discriminate].
  injection Hrun as <-.
  cbn [BatchResult.results BatchResult.threshold] in *.
  set (sorted := sort_by _ rs) in *.
  assert (Hperm : Permutation rs sorted) by apply sort_by_perm.
  assert (Hrs : rs <> []).
  { intro E. rewrite E in Hperm. apply Permutation_nil in Hperm. contradiction. }
  rewrite (calculateBatchThreshold_clamp rs Hrs).
  pose proof (Permutation_map
                (fun r => Q2R (PlagiarismResult.overallSimilarity r)) Hperm) as Hmap.
  now rewrite (Rmean_perm _ _ Hmap), (Rstddev_perm _ _ Hmap).
Qed.

Lemma batch_threshold_clamped_witness :
  exists br,
    detectBatchPlagiarism sampleTokenize sampleGetPair defaultDetector
      [sampleA; sampleB; sampleC] None = Ok br
    /\ BatchResult.threshold br
       = clamp (Rmean (map (fun r => Q2R (PlagiarismResult.overallSimilarity r))
                           (BatchResult.results br))
                + 3 / 2
                  * Rstddev (map (fun r => Q2R (PlagiarismResult.overallSimilarity r))
                                 (BatchResult.results br)))
               (1 / 4) (4 / 5).
Proof.
  destruct (detectBatchPlagiarism sampleTokenize sampleGetPair defaultDetector
              [sampleA; sampleB; sampleC] None) as [br | e] eqn:Hrun;
    [| exfalso; revert Hrun; rewrite detectBatchPlagiarism_traverse;
       vm_compute; discriminate].
  exists br. split; [reflexivity |].
  apply (batch_threshold_clamped sampleTokenize sampleGetPair defaultDetector
           [sampleA; sampleB; sampleC] br Hrun).
  revert Hrun. rewrite detectBatchPlagiarism_traverse.
  cbn [allPairs map app traverse].
  vm_compute. intro H. injection H as <-. discriminate.
Defined.

(** Three pairs of similarity 0.3, 0.3 and 0.9: the batch threshold is 0.8,
    and the two pairs at 0.3 are flagged all the same, each by its own
    threshold of 0.3. *)
Example batch_flags_below_batch_threshold :
  exists br,
    detectBatchPlagiarism sampleTokenize gradedGetPair defaultDetector
      gradedFiles None = Ok br
    /\ map PlagiarismResult.overallSimilarity (BatchResult.results br)
       = [9 # 10; 3 # 10; 3 # 10]%Q
    /\ map PlagiarismResult.isPlagiarism (BatchResult.results br)
       = [true; true; true]
    /\ BatchResult.suspiciousPairs br = 3
    /\ BatchResult.threshold br = (4 / 5)%R.
Proof.
  rewrite detectBatchPlagiarism_traverse.
  destruct (traverse (compare sampleTokenize gradedGetPair defaultDetector None)
              (allPairs gradedFiles)) as [rs | e] eqn:Hrs;
    vm_compute in Hrs; [| discriminate].
  injection Hrs as <-. cbn [bind]. eexists. split; [reflexivity |].
  cbn [BatchResult.results BatchResult.suspiciousPairs BatchResult.threshold].
  split; [vm_compute; reflexivity |].
  split; [vm_compute; reflexivity |].
  split; [vm_compute; reflexivity |].
  rewrite calculateBatchThreshold_clamp by discriminate.
  unfold clamp, Rstddev, Rmean, Rsum.
  cbn [map fold_right List.length PlagiarismResult.overallSimilarity INR].
  assert (H3 : Q2R (3 # 10) = (3 / 10)%R) by (unfold Q2R; cbn; lra).
  assert (H9 : Q2R (9 # 10) = (9 / 10)%R) by (unfold Q2R; cbn; lra).
  rewrite H3, H9.
  match goal with
  | |- context [sqrt ?v] => assert (Hroot : (1 / 5 <= sqrt v)%R)
  end.
  { rewrite <- (sqrt_Rsqr (1 / 5)) by lra.
    apply sqrt_le_1_alt. unfold Rsqr. lra. }
  apply Rmin_right.
  eapply Rle_trans; [| apply Rmax_r]. lra.
Qed.

(** * Further properties of the detector *)

(** ** Bounds of the fragment scores *)

Lemma len_nonneg {A : Type} (xs : list A) : 0 <= Num.len xs.
Proof. unfold Num.len. lia. Qed.

Lemma len_zero_nil {A : Type} (xs : list A) : Num.len xs = 0 -> xs = [].
Proof. destruct xs; [reflexivity | unfold Num.len; cbn [List.length]; lia]. Qed.

Lemma inject_nonneg (n : Z) : 0 <= n -> (0 <= inject_Z n)%Q.
Proof. intro H. unfold Qle, inject_Z. cbn. lia. Qed.

Lemma Qdiv_nonneg (a b : Q) : (0 <= a)%Q -> (0 <= b)%Q -> (0 <= a / b)%Q.
Proof.
  intros Ha Hb. unfold Qdiv. apply Qmult_le_0_compat; [exact Ha |].
  now apply Qinv_le_0_compat.
Qed.

Lemma cappedConfidence_bounds (T P R : Z) :
  0 <= T -> 0 <= P ->
  (0 <= cappedConfidence T P R)%Q /\ (cappedConfidence T P R <= 1)%Q.
Proof.
  intros HT HP. unfold cappedConfidence. split; [| apply Q.le_min_l].
  assert (Ha : (0 <= Qmin (4 # 10) (inject_Z T / 50))%Q).
  { apply Q.min_glb; [discriminate |].
    apply Qdiv_nonneg; [now apply inject_nonneg | discriminate]. }
  assert (Hb : (0 <= Qmin (3 # 10) ((1 # 10) * inject_Z P))%Q).
  { apply Q.min_glb; [discriminate |].
    apply Qmult_le_0_compat; [discriminate | now apply inject_nonneg]. }
  assert (Hc : (0 <= Qmin (3 # 10)
                         ((3 # 10) * (inject_Z P / inject_Z (Z.max 1 R))))%Q).
  { apply Q.min_glb; [discriminate |].
    apply Qmult_le_0_compat; [discriminate |].
    apply Qdiv_nonneg; apply inject_nonneg; lia. }
  apply Q.min_glb; [discriminate |]. Lqa.lra.
Qed.

(** X1: the confidence of a mapped fragment lies between 0 and 1, in the
    detector and in the fragment mapper, whatever the fragment and the files. *)
Theorem fragment_confidence_in_unit_interval
    (d : Detector) (fragment : Fragment) (id : Z)
    (tf1 tf2 : TokenizedFile) (code1 code2 : string) (lines1 lines2 : list string) :
  ((0 <= MappedFragment.confidence
           (createMappedFragment d fragment id tf1 tf2 code1 code2))%Q
   /\ (MappedFragment.confidence
         (createMappedFragment d fragment id tf1 tf2 code1 code2) <= 1)%Q)
  /\ ((0 <= FragmentMapper.confidence
              (FragmentMapper.enhanceFragment tf1 tf2 lines1 lines2 fragment id))%Q
      /\ (FragmentMapper.confidence
            (FragmentMapper.enhanceFragment tf1 tf2 lines1 lines2 fragment id) <= 1)%Q).
Proof.
  split; cbn -[Num.len slice PascalPlagiarismDetector.calculateFragmentConfidence
               FragmentMapper.calculateFragmentConfidence].
  - rewrite detector_confidence_capped.
    apply cappedConfidence_bounds; apply len_nonneg.
  - rewrite mapper_confidence_capped.
    apply cappedConfidence_bounds; apply len_nonneg.
Qed.

Lemma exact_confidence (confidence : Q) :
  determineFragmentType confidence = EXACT <-> (8 # 10 <= confidence)%Q.
Proof.
  unfold determineFragmentType.
  destruct (Num.geb confidence (8 # 10)) eqn:E.
  - apply geb_le in E. tauto.
  - split; [destruct (Num.geb confidence (6 # 10)); discriminate |].
    intro H. apply geb_le in H. congruence.
Qed.

Lemma cappedConfidence_exact (T P R : Z) :
  (8 # 10 <= cappedConfidence T P R)%Q -> 10 <= T /\ 1 <= P.
Proof.
  unfold cappedConfidence. intro H.
  pose proof (Q.le_min_r 1
                (Qmin (4 # 10) (inject_Z T / 50)
                 + Qmin (3 # 10) ((1 # 10) * inject_Z P)
                 + Qmin (3 # 10) ((3 # 10) * (inject_Z P / inject_Z (Z.max 1 R))))) as Hsum.
  pose proof (Q.le_min_l (4 # 10) (inject_Z T / 50)) as Ha4.
  pose proof (Q.le_min_r (4 # 10) (inject_Z T / 50)) as HaT.
  pose proof (Q.le_min_l (3 # 10) ((1 # 10) * inject_Z P)) as Hb3.
  pose proof (Q.le_min_r (3 # 10) ((1 # 10) * inject_Z P)) as HbP.
  pose proof (Q.le_min_l (3 # 10)
                ((3 # 10) * (inject_Z P / inject_Z (Z.max 1 R)))) as Hc3.
  assert (HT : (2 # 10 <= inject_Z T / 50)%Q) by Lqa.lra.
  assert (HP : (inject_Z 1 <= inject_Z P)%Q) by (change (inject_Z 1) with 1%Q; Lqa.lra).
  split.
  - unfold Qle, Qdiv, Qmult, Qinv, inject_Z in HT. simpl in HT. lia.
  - rewrite Zle_Qle. exact HP.
Qed.

(** X2: a fragment is classified EXACT only on the evidence of at least ten
    shared tokens and at least one shared fingerprint. *)
Theorem exact_fragment_evidence
    (d : Detector) (fragment : Fragment) (id : Z)
    (tf1 tf2 : TokenizedFile) (code1 code2 : string)
    (Hexact : MappedFragment.fragmentType
                (createMappedFragment d fragment id tf1 tf2 code1 code2) = EXACT) :
  10 <= Num.len (MappedFragment.sharedTokens
                   (createMappedFragment d fragment id tf1 tf2 code1 code2))
  /\ 1 <= MappedFragment.sharedFingerprints
            (createMappedFragment d fragment id tf1 tf2 code1 code2).
Proof.
  revert Hexact.
  cbn -[Num.len slice PascalPlagiarismDetector.calculateFragmentConfidence
        determineFragmentType].
  intro Hexact. apply exact_confidence in Hexact.
  rewrite detector_confidence_capped in Hexact.
  now apply cappedConfidence_exact in Hexact.
Qed.

Lemma exact_fragment_evidence_witness :
  10 <= Num.len (MappedFragment.sharedTokens
                   (createMappedFragment defaultDetector (sampleFragment 25) 1
                      longFile longFile longCode longCode))
  /\ 1 <= MappedFragment.sharedFingerprints
            (createMappedFragment defaultDetector (sampleFragment 25) 1
               longFile longFile longCode longCode).
Proof.
  apply (exact_fragment_evidence defaultDetector (sampleFragment 25) 1
           longFile longFile longCode longCode).
  vm_compute. reflexivity.
Defined.

Lemma Qmax_one_pos (x : Q) : (0 < Qmax 1 x)%Q.
Proof. eapply Qlt_le_trans; [| apply Q.le_max_l]. reflexivity. Qed.

Lemma boundedLocalSimilarity_cases (P T k : Z) :
  0 <= P -> 0 <= T ->
  match boundedLocalSimilarity P T k with
  | Some q => (0 <= q)%Q /\ (q <= 1)%Q
  | None => k = 0 /\ T = 0
  end.
Proof.
  intros HP HT. unfold boundedLocalSimilarity.
  destruct (Z.eqb_spec k 0) as [Hk | Hk].
  - destruct (Z.eqb_spec T 0); [tauto | split; discriminate].
  - split; [| apply Q.le_min_l].
    apply Q.min_glb; [discriminate |].
    apply Qdiv_nonneg; [now apply inject_nonneg |].
    apply Qlt_le_weak, Qmax_one_pos.
Qed.

(** X3: the local similarity of a mapped fragment lies between 0 and 1; it is
    no number at all only for a detector of [kgramSize] 0 on a fragment
    without shared token. *)
Theorem local_similarity_in_unit_interval
    (d : Detector) (fragment : Fragment) (id : Z)
    (tf1 tf2 : TokenizedFile) (code1 code2 : string) :
  match MappedFragment.localSimilarity
          (createMappedFragment d fragment id tf1 tf2 code1 code2) with
  | Some q => (0 <= q)%Q /\ (q <= 1)%Q
  | None =>
      kgramSize d = 0
      /\ MappedFragment.sharedTokens
           (createMappedFragment d fragment id tf1 tf2 code1 code2) = []
  end.
Proof.
  cbn -[Num.len slice boundedLocalSimilarity].
  match goal with
  | |- context [boundedLocalSimilarity ?P ?T ?k] =>
      pose proof (boundedLocalSimilarity_cases P T k (len_nonneg _) (len_nonneg _)) as H;
      destruct (boundedLocalSimilarity P T k)
  end; [exact H |].
  destruct H as [Hk HT]. split; [exact Hk |].
  now apply len_zero_nil.
Qed.

(** ** Shared tokens *)

Lemma slice_inside {A : Type} (xs : list A) (s e : Z) :
  0 <= s -> s <= e -> e <= Num.len xs ->
  slice xs s e = firstn (Z.to_nat (e - s)) (skipn (Z.to_nat s) xs)
  /\ Num.len (slice xs s e) = e - s.
Proof.
  intros Hs Hse He. unfold slice, slice_bound.
  destruct (Z.ltb_spec s 0); [lia |]. destruct (Z.ltb_spec e 0); [lia |].
  rewrite !Z.min_l by lia. split; [reflexivity |].
  unfold Num.len in *. rewrite length_firstn, length_skipn. lia.
Qed.

Lemma slice_length_le {A : Type} (xs : list A) (s e : Z) :
  Num.len (slice xs s e) <= Num.len xs.
Proof.
  unfold slice, Num.len. rewrite length_firstn, length_skipn. lia.
Qed.

(** X4: when the token range reported for the first file lies inside the
    file, [sharedTokens] holds exactly the [tokens] of that range, as many as
    the range reports; in any case it holds no more tokens than the file. *)
Theorem shared_tokens_fill_token_range
    (d : Detector) (fragment : Fragment) (id : Z)
    (tf1 tf2 : TokenizedFile) (code1 code2 : string)
    (Hstart : 0 <= tok_start (MappedFragment.file1TokenRange
                                (createMappedFragment d fragment id tf1 tf2 code1 code2)))
    (Horder : tok_start (MappedFragment.file1TokenRange
                           (createMappedFragment d fragment id tf1 tf2 code1 code2))
              <= tok_end (MappedFragment.file1TokenRange
                            (createMappedFragment d fragment id tf1 tf2 code1 code2)) + 1)
    (Hend : tok_end (MappedFragment.file1TokenRange
                       (createMappedFragment d fragment id tf1 tf2 code1 code2))
            < Num.len (tokens tf1)) :
  Num.len (MappedFragment.sharedTokens
             (createMappedFragment d fragment id tf1 tf2 code1 code2))
  = tok_tokens (MappedFragment.file1TokenRange
                  (createMappedFragment d fragment id tf1 tf2 code1 code2))
  /\ MappedFragment.sharedTokens
       (createMappedFragment d fragment id tf1 tf2 code1 code2)
     = firstn (Z.to_nat (tok_tokens
                           (MappedFragment.file1TokenRange
                              (createMappedFragment d fragment id tf1 tf2 code1 code2))))
              (skipn (Z.to_nat (tok_start
                                  (MappedFragment.file1TokenRange
                                     (createMappedFragment d fragment id tf1 tf2
                                        code1 code2))))
                     (tokens tf1)).
Proof.
  revert Hstart Horder Hend.
  cbn -[Num.len slice Num.falsy_or at_index].
  set (s := Num.falsy_or _ (Range.from (leftkgrams fragment))).
  set (e := Num.falsy_or _ (Range.to (leftkgrams fragment) - 1)).
  intros Hstart Horder Hend.
  destruct (slice_inside (tokens tf1) s (e + 1)) as [Heq Hlen]; try lia.
  split; [rewrite Hlen; lia |].
  rewrite Heq. do 2 f_equal. lia.
Qed.

Lemma shared_tokens_fill_token_range_witness :
  Num.len (MappedFragment.sharedTokens
             (createMappedFragment defaultDetector (sampleFragment 25) 1
                longFile longFile longCode longCode)) = 24.
Proof.
  apply (shared_tokens_fill_token_range defaultDetector (sampleFragment 25) 1
           longFile longFile longCode longCode); vm_compute; congruence.
Defined.

Lemma shared_tokens_within_file
    (d : Detector) (fragment : Fragment) (id : Z)
    (tf1 tf2 : TokenizedFile) (code1 code2 : string) :
  Num.len (MappedFragment.sharedTokens
             (createMappedFragment d fragment id tf1 tf2 code1 code2))
  <= Num.len (tokens tf1).
Proof. cbn -[Num.len slice]. apply slice_length_le. Qed.

(** ** The significance filter *)

Lemma mapi_from_length {A B : Type} (f : A -> Z -> B) (i : Z) (xs : list A) :
  List.length (mapi_from f i xs) = List.length xs.
Proof.
  revert i. induction xs as [| x xs IH]; intro i; [reflexivity |].
  cbn [mapi_from List.length]. now rewrite IH.
Qed.

Lemma filter_shorter {A : Type} (p : A -> bool) (xs : list A) :
  (List.length (filter p xs) <= List.length xs)%nat.
Proof.
  induction xs as [| x xs IH]; [reflexivity |].
  cbn [filter]. destruct (p x); cbn [List.length]; lia.
Qed.

Lemma fold_left_total {A : Type} (g : A -> Z) (xs : list A) (a : Z) :
  fold_left (fun sum f => sum + g f) xs a = a + fold_right Z.add 0 (map g xs).
Proof.
  revert a. induction xs as [| x xs IH]; intro a; cbn [fold_left map fold_right].
  - lia.
  - rewrite IH. lia.
Qed.

Lemma total_at_least {A : Type} (g : A -> Z) (k : Z) (xs : list A) :
  Forall (fun x => k <= g x) xs ->
  k * Num.len xs <= fold_right Z.add 0 (map g xs).
Proof.
  unfold Num.len. induction 1 as [| x xs Hx _ IH]; cbn [map fold_right List.length].
  - lia.
  - nia.
Qed.

Lemma mapFragments_kept
    (d : Detector) (pair : Pair.t) (tf1 tf2 : TokenizedFile) (code1 code2 : string) :
  Forall (fun f =>
            (3 # 10 <= MappedFragment.confidence f)%Q
            /\ kgramSize d <= Num.len (MappedFragment.sharedTokens f))
         (Mapping.mappedFragments (mapFragments d pair tf1 tf2 code1 code2))
  /\ Mapping.significantMappedFragments (mapFragments d pair tf1 tf2 code1 code2)
     = Num.len (Mapping.mappedFragments (mapFragments d pair tf1 tf2 code1 code2)).
Proof.
  unfold mapFragments.
  cbn [Mapping.mappedFragments Mapping.significantMappedFragments].
  split; [| reflexivity].
  apply Forall_forall. intros f Hf. apply filter_In in Hf as [_ Hf].
  apply andb_true_iff in Hf as [Hc Hk].
  split; [now apply geb_le | rewrite Z.geb_leb in Hk; now apply Z.leb_le].
Qed.

(** X5: every fragment that [mapFragments] keeps has confidence at least 0.3
    and at least [kgramSize] shared tokens; [significantMappedFragments]
    counts the kept ones, [totalMappedFragments] the fragments of the pair,
    and the first never exceeds the second. *)
Theorem mapped_fragments_significant
    (d : Detector) (pair : Pair.t) (tf1 tf2 : TokenizedFile) (code1 code2 : string) :
  Forall (fun f =>
            (3 # 10 <= MappedFragment.confidence f)%Q
            /\ kgramSize d <= Num.len (MappedFragment.sharedTokens f))
         (Mapping.mappedFragments (mapFragments d pair tf1 tf2 code1 code2))
  /\ Mapping.significantMappedFragments (mapFragments d pair tf1 tf2 code1 code2)
     = Num.len (Mapping.mappedFragments (mapFragments d pair tf1 tf2 code1 code2))
  /\ Mapping.totalMappedFragments (mapFragments d pair tf1 tf2 code1 code2)
     = Num.len (Pair.buildFragments pair 1)
  /\ Mapping.significantMappedFragments (mapFragments d pair tf1 tf2 code1 code2)
     <= Mapping.totalMappedFragments (mapFragments d pair tf1 tf2 code1 code2).
Proof.
  destruct (mapFragments_kept d pair tf1 tf2 code1 code2) as [Hall Hcount].
  split; [exact Hall |]. split; [exact Hcount |].
  unfold mapFragments.
  cbn [Mapping.mappedFragments Mapping.significantMappedFragments
       Mapping.totalMappedFragments].
  split.
  - unfold Num.len, mapi. now rewrite mapi_from_length.
  - unfold Num.len. apply inj_le. apply filter_shorter.
Qed.

(** X6: the totals of [mapFragments] are sums over the kept fragments, so
    [totalSharedTokens] is at least [kgramSize] times their number. *)
Theorem shared_totals
    (d : Detector) (pair : Pair.t) (tf1 tf2 : TokenizedFile) (code1 code2 : string) :
  Mapping.totalSharedTokens (mapFragments d pair tf1 tf2 code1 code2)
  = fold_right Z.add 0
      (map (fun f => Num.len (MappedFragment.sharedTokens f))
           (Mapping.mappedFragments (mapFragments d pair tf1 tf2 code1 code2)))
  /\ Mapping.totalSharedLines (mapFragments d pair tf1 tf2 code1 code2)
     = fold_right Z.add 0
         (map (fun f => line_count (MappedFragment.file1Lines f))
              (Mapping.mappedFragments (mapFragments d pair tf1 tf2 code1 code2)))
  /\ kgramSize d
     * Mapping.significantMappedFragments (mapFragments d pair tf1 tf2 code1 code2)
     <= Mapping.totalSharedTokens (mapFragments d pair tf1 tf2 code1 code2).
Proof.
  destruct (mapFragments_kept d pair tf1 tf2 code1 code2) as [Hall Hcount].
  rewrite Hcount. clear Hcount. revert Hall. unfold mapFragments.
  cbn [Mapping.mappedFragments Mapping.totalSharedTokens Mapping.totalSharedLines].
  intro Hall. rewrite !fold_left_total, !Z.add_0_l.
  repeat split.
  apply total_at_least. eapply Forall_impl; [| exact Hall]. cbn. tauto.
Qed.

(** ** Fragment identifiers *)

Lemma mapi_from_ids (d : Detector) (tf1 tf2 : TokenizedFile) (code1 code2 : string)
    (fragments : list Fragment) (i : Z) :
  map MappedFragment.fragmentId
      (mapi_from (fun fragment index =>
                    createMappedFragment d fragment (index + 1) tf1 tf2 code1 code2)
                 i fragments)
  = map (fun n => i + 1 + Z.of_nat n) (seq 0 (List.length fragments)).
Proof.
  revert i. induction fragments as [| f fs IH]; intro i; [reflexivity |].
  cbn [mapi_from map List.length seq]. rewrite IH, <- seq_shift, map_map.
  f_equal; [cbn; lia |]. apply map_ext. intro n. lia.
Qed.

Lemma filter_sorted {A : Type} (R : A -> A -> Prop) (p : A -> bool) (xs : list A) :
  StronglySorted R xs -> StronglySorted R (filter p xs).
Proof.
  induction 1 as [| x xs _ IH Hx]; cbn [filter]; [constructor |].
  destruct (p x); [| exact IH].
  constructor; [exact IH |].
  apply Forall_forall. intros y Hy. apply filter_In in Hy as [Hy _].
  revert y Hy. now apply Forall_forall.
Qed.

Lemma ids_ascending (i : Z) (n : nat) :
  StronglySorted Z.lt (map (fun k => i + 1 + Z.of_nat k) (seq 0 n)).
Proof.
  generalize 0%nat. induction n as [| n IH]; intro a; cbn [seq map]; constructor.
  - apply IH.
  - apply Forall_forall. intros y Hy. apply in_map_iff in Hy as (k & <- & Hk).
    apply in_seq in Hk. lia.
Qed.

Lemma sorted_by_key {A : Type} (key : A -> Z) (xs : list A) :
  StronglySorted Z.lt (map key xs) ->
  StronglySorted (fun a b => key a < key b) xs.
Proof.
  induction xs as [| x xs IH]; intro H; [constructor |].
  cbn [map] in H. apply StronglySorted_inv in H as [Hs Hx].
  constructor; [now apply IH |].
  apply Forall_forall. intros y Hy.
  rewrite Forall_forall in Hx. apply Hx. now apply in_map.
Qed.

Lemma mapi_from_origin {A B : Type} (f : A -> Z -> B) (i : Z) (xs : list A) (y : B) :
  In y (mapi_from f i xs) ->
  exists (n : nat) (x : A), nth_error xs n = Some x /\ y = f x (i + Z.of_nat n).
Proof.
  revert i. induction xs as [| x xs IH]; intros i Hin; [contradiction |].
  destruct Hin as [<- | Hin].
  - exists 0%nat, x. split; [reflexivity |]. f_equal. lia.
  - destruct (IH (i + 1) Hin) as (n & x' & Hn & ->).
    exists (S n), x'. split; [exact Hn |]. f_equal. lia.
Qed.

(** X7: the [fragmentId] of a fragment [mapFragments] keeps is its 1-based
    position among the fragments of the pair, the dropped ones counted: the
    fragment of identifier [i] is the mapping of the [i]-th fragment built
    from the pair.  So the identifiers increase strictly along the result
    and lie between 1 and [totalMappedFragments]. *)
Theorem fragment_ids_ascend
    (d : Detector) (pair : Pair.t) (tf1 tf2 : TokenizedFile) (code1 code2 : string) :
  Forall (fun f =>
            1 <= MappedFragment.fragmentId f
            /\ exists fragment,
                 nth_error (Pair.buildFragments pair 1)
                           (Z.to_nat (MappedFragment.fragmentId f - 1))
                 = Some fragment
                 /\ f = createMappedFragment d fragment (MappedFragment.fragmentId f)
                          tf1 tf2 code1 code2)
         (Mapping.mappedFragments (mapFragments d pair tf1 tf2 code1 code2))
  /\ StronglySorted
       (fun a b => MappedFragment.fragmentId a < MappedFragment.fragmentId b)
       (Mapping.mappedFragments (mapFragments d pair tf1 tf2 code1 code2))
  /\ Forall (fun f =>
               1 <= MappedFragment.fragmentId f
               <= Mapping.totalMappedFragments (mapFragments d pair tf1 tf2 code1 code2))
            (Mapping.mappedFragments (mapFragments d pair tf1 tf2 code1 code2)).
Proof.
  unfold mapFragments. cbn [Mapping.mappedFragments Mapping.totalMappedFragments].
  set (mapped := mapi _ (Pair.buildFragments pair 1)).
  assert (Hids : map MappedFragment.fragmentId mapped
                 = map (fun n => 0 + 1 + Z.of_nat n)
                       (seq 0 (List.length (Pair.buildFragments pair 1))))
    by apply mapi_from_ids.
  split; [| split].
  - apply Forall_forall. intros f Hf. apply filter_In in Hf as [Hf _].
    apply mapi_from_origin in Hf as (n & fragment & Hn & ->).
    cbn [createMappedFragment MappedFragment.fragmentId].
    split; [lia |]. exists fragment.
    replace (Z.to_nat (0 + Z.of_nat n + 1 - 1)) with n by lia.
    split; [exact Hn | reflexivity].
  - apply filter_sorted, sorted_by_key. rewrite Hids. apply ids_ascending.
  - apply Forall_forall. intros f Hf. apply filter_In in Hf as [Hf _].
    apply (in_map MappedFragment.fragmentId) in Hf. rewrite Hids in Hf.
    apply in_map_iff in Hf as (n & <- & Hn). apply in_seq in Hn.
    unfold Num.len, mapped, mapi. rewrite mapi_from_length. lia.
Qed.

(** ** The adaptive threshold *)

Lemma adaptive_threshold_values (s : Q) (F : Z) :
  calculateAdaptiveThreshold s F = 7 # 10
  \/ calculateAdaptiveThreshold s F = 5 # 10
  \/ calculateAdaptiveThreshold s F = 35 # 100
  \/ calculateAdaptiveThreshold s F = 3 # 10.
Proof.
  unfold calculateAdaptiveThreshold.
  destruct (Num.gtb s (8 # 10) && (F >? 5)); [tauto |].
  destruct (Num.gtb s (6 # 10) && (F >? 3)); [tauto |].
  destruct (Num.gtb s (4 # 10) && (F >? 1)); tauto.
Qed.

Lemma adaptive_threshold_floor (s : Q) (F : Z) :
  (3 # 10 <= calculateAdaptiveThreshold s F)%Q.
Proof.
  destruct (adaptive_threshold_values s F) as [-> | [-> | [-> | ->]]]; discriminate.
Qed.

Lemma tier_spec (s c : Q) (F n : Z) :
  Bool.reflect ((c < s)%Q /\ n < F) (Num.gtb s c && (F >? n)).
Proof.
  apply Bool.iff_reflect. rewrite andb_true_iff, gtb_lt, Z.gtb_lt. tauto.
Qed.

(** X8: the adaptive threshold lies between 0.3 and 0.7, and it never
    decreases when the similarity or the number of fragments grows. *)
Theorem adaptive_threshold_monotone (s s' : Q) (F F' : Z)
    (Hs : (s <= s')%Q) (HF : F <= F') :
  (calculateAdaptiveThreshold s F <= calculateAdaptiveThreshold s' F')%Q
  /\ (3 # 10 <= calculateAdaptiveThreshold s F)%Q
  /\ (calculateAdaptiveThreshold s F <= 7 # 10)%Q.
Proof.
  split.
  - unfold calculateAdaptiveThreshold.
    destruct (tier_spec s (8 # 10) F 5) as [[A1 B1] | N1];
    destruct (tier_spec s' (8 # 10) F' 5) as [[A1' B1'] | N1'];
    destruct (tier_spec s (6 # 10) F 3) as [[A2 B2] | N2];
    destruct (tier_spec s' (6 # 10) F' 3) as [[A2' B2'] | N2'];
    destruct (tier_spec s (4 # 10) F 1) as [[A3 B3] | N3];
    destruct (tier_spec s' (4 # 10) F' 1) as [[A3' B3'] | N3'];
    try discriminate;
    exfalso;
    first [ apply N1'; split; [Lqa.lra | lia]
          | apply N2'; split; [Lqa.lra | lia]
          | apply N3'; split; [Lqa.lra | lia] ].
  - destruct (adaptive_threshold_values s F) as [-> | [-> | [-> | ->]]];
      split; discriminate.
Qed.

Lemma adaptive_threshold_monotone_witness :
  (calculateAdaptiveThreshold (5 # 10) 2 <= calculateAdaptiveThreshold (9 # 10) 6)%Q
  /\ (3 # 10 <= calculateAdaptiveThreshold (5 # 10) 2)%Q
  /\ (calculateAdaptiveThreshold (5 # 10) 2 <= 7 # 10)%Q.
Proof.
  apply (adaptive_threshold_monotone (5 # 10) (9 # 10) 2 6).
  - discriminate.
  - lia.
Defined.

Lemma adaptive_below_similarity (s : Q) (F : Z) :
  (3 # 10 <= s)%Q -> (calculateAdaptiveThreshold s F <= s)%Q.
Proof.
  intro H. unfold calculateAdaptiveThreshold.
  destruct (tier_spec s (8 # 10) F 5) as [[A1 B1] | N1]; [Lqa.lra |].
  destruct (tier_spec s (6 # 10) F 3) as [[A2 B2] | N2]; [Lqa.lra |].
  destruct (tier_spec s (4 # 10) F 1) as [[A3 B3] | N3]; [Lqa.lra |].
  exact H.
Qed.

(** X9: for a detector of [syntacticWeight] 1, as the default one, and no
    caller threshold, the adaptive threshold never lies above a similarity of
    at least 0.3: a pair is flagged exactly when its similarity is at least
    0.3. *)
Theorem default_verdict_at_thirty_percent {exn : Type}
    (tokenizeFile : string -> string -> Result exn TokenizedFile)
    (getPair : Z -> Z -> TokenizedFile -> TokenizedFile -> Pair.t)
    (d : Detector) (file1 file2 : FileInput) (r : PlagiarismResult.t)
    (Hweight : (syntacticWeight d == 1)%Q)
    (Hrun : detectPlagiarism tokenizeFile getPair d file1 file2 None = Ok r) :
  PlagiarismResult.isPlagiarism r = true
  <-> (3 # 10 <= PlagiarismResult.syntacticSimilarity r)%Q.
Proof.
  destruct (detectPlagiarism_ok _ _ _ _ _ _ _ Hrun)
    as (tf1 & tf2 & _ & _ & _ & Hoverall & _ & Hverdict).
  rewrite Hverdict, Hoverall. cbn [Num.nullish_or]. rewrite geb_le, Hweight, Qmult_1_r.
  split.
  - intro H. eapply Qle_trans; [apply adaptive_threshold_floor | exact H].
  - apply adaptive_below_similarity.
Qed.

Lemma default_verdict_at_thirty_percent_witness :
  exists r,
    detectPlagiarism sampleTokenize gradedGetPair defaultDetector
      (mkFileInput "x.pas" "abc") (mkFileInput "z.pas" "z") None = Ok r
    /\ (PlagiarismResult.isPlagiarism r = true
        <-> (3 # 10 <= PlagiarismResult.syntacticSimilarity r)%Q).
Proof.
  eexists. split; [vm_compute; reflexivity |].
  apply (default_verdict_at_thirty_percent sampleTokenize gradedGetPair
           defaultDetector (mkFileInput "x.pas" "abc") (mkFileInput "z.pas" "z")).
  - reflexivity.
  - vm_compute. reflexivity.
Defined.

(** X10: without a caller threshold and whatever the weight, an overall
    similarity of at least 0.7 is always flagged and one below 0.3 never. *)
Theorem adaptive_verdict_bounds {exn : Type}
    (tokenizeFile : string -> string -> Result exn TokenizedFile)
    (getPair : Z -> Z -> TokenizedFile -> TokenizedFile -> Pair.t)
    (d : Detector) (file1 file2 : FileInput) (r : PlagiarismResult.t)
    (Hrun : detectPlagiarism tokenizeFile getPair d file1 file2 None = Ok r) :
  ((7 # 10 <= PlagiarismResult.overallSimilarity r)%Q ->
   PlagiarismResult.isPlagiarism r = true)
  /\ ((PlagiarismResult.overallSimilarity r < 3 # 10)%Q ->
      PlagiarismResult.isPlagiarism r = false).
Proof.
  destruct (detectPlagiarism_ok _ _ _ _ _ _ _ Hrun)
    as (tf1 & tf2 & _ & _ & _ & _ & _ & Hverdict).
  rewrite Hverdict. cbn [Num.nullish_or].
  set (tau := calculateAdaptiveThreshold _ _).
  assert (Hlow : (3 # 10 <= tau)%Q) by apply adaptive_threshold_floor.
  assert (Hhigh : (tau <= 7 # 10)%Q).
  { unfold tau.
    destruct (adaptive_threshold_values (PlagiarismResult.syntacticSimilarity r)
                (Num.len (PlagiarismResult.mappedFragments r)))
      as [-> | [-> | [-> | ->]]]; discriminate. }
  split; intro H.
  - apply geb_le. Lqa.lra.
  - destruct (Num.geb (PlagiarismResult.overallSimilarity r) tau) eqn:E;
      [| reflexivity].
    apply geb_le in E. Lqa.lra.
Qed.

Lemma adaptive_verdict_bounds_witness :
  exists r,
    detectPlagiarism sampleTokenize sampleGetPair defaultDetector
      sampleA sampleB None = Ok r
    /\ PlagiarismResult.isPlagiarism r = true.
Proof.
  eexists. split; [vm_compute; reflexivity |].
  apply (adaptive_verdict_bounds sampleTokenize sampleGetPair defaultDetector
           sampleA sampleB); [vm_compute; reflexivity | vm_compute; discriminate].
Defined.

(** ** Monotony of the confidence label *)

Lemma determineConfidence_by_score
    (overallSimilarity : Q) (syntactic : Syntactic.t) (mapping : Mapping.t) :
  determineConfidence overallSimilarity syntactic mapping
  = Spec.label (overallBucket overallSimilarity + strictFactors syntactic mapping).
Proof.
  unfold determineConfidence, Spec.label, overallBucket, strictFactors.
  rewrite !Z.gtb_ltb.
  destruct (Num.gtb overallSimilarity (8 # 10)), (Num.gtb overallSimilarity (6 # 10)),
    (Num.gtb overallSimilarity (4 # 10)),
    (Num.gtb (Syntactic.similarity syntactic) (7 # 10)),
    (10 <? Syntactic.longestFragment syntactic),
    (Num.gtb (Syntactic.coverage1 syntactic) (5 # 10)
     || Num.gtb (Syntactic.coverage2 syntactic) (5 # 10)),
    (5 <? Mapping.significantMappedFragments mapping),
    (20 <? Mapping.totalSharedLines mapping);
    reflexivity.
Qed.

Lemma gtb_mono (a b c : Q) :
  (a <= b)%Q -> Num.gtb a c = true -> Num.gtb b c = true.
Proof. rewrite !gtb_lt. intros. eapply Qlt_le_trans; eassumption. Qed.

Lemma indicator_mono (b b' : bool) (k : Z) :
  0 <= k -> (b = true -> b' = true) ->
  (if b then k else 0) <= (if b' then k else 0).
Proof. intros Hk H. destruct b, b'; try lia; discriminate (H eq_refl). Qed.

Lemma overallBucket_mono (a b : Q) : (a <= b)%Q -> overallBucket a <= overallBucket b.
Proof.
  intro H. unfold overallBucket.
  pose proof (gtb_mono a b (8 # 10) H). pose proof (gtb_mono a b (6 # 10) H).
  pose proof (gtb_mono a b (4 # 10) H).
  destruct (Num.gtb a (8 # 10)), (Num.gtb a (6 # 10)), (Num.gtb a (4 # 10)),
    (Num.gtb b (8 # 10)), (Num.gtb b (6 # 10)), (Num.gtb b (4 # 10));
    try lia; intuition discriminate.
Qed.

Lemma label_mono (s s' : Z) : s <= s' -> rank (Spec.label s) <= rank (Spec.label s').
Proof.
  intro H. unfold Spec.label.
  destruct (Z.leb_spec 8 s), (Z.leb_spec 8 s'), (Z.leb_spec 6 s), (Z.leb_spec 6 s'),
    (Z.leb_spec 4 s), (Z.leb_spec 4 s'); cbn; lia.
Qed.

(** X11: the confidence label never drops when the evidence grows: with no
    quantity smaller, the label of [determineConfidence] is no lower. *)
Theorem confidence_label_monotone
    (o o' : Q) (syn syn' : Syntactic.t) (map map' : Mapping.t)
    (Ho : (o <= o')%Q)
    (Hsim : (Syntactic.similarity syn <= Syntactic.similarity syn')%Q)
    (Hlongest : Syntactic.longestFragment syn <= Syntactic.longestFragment syn')
    (Hcov1 : (Syntactic.coverage1 syn <= Syntactic.coverage1 syn')%Q)
    (Hcov2 : (Syntactic.coverage2 syn <= Syntactic.coverage2 syn')%Q)
    (Hfrags : Mapping.significantMappedFragments map
              <= Mapping.significantMappedFragments map')
    (Hlines : Mapping.totalSharedLines map <= Mapping.totalSharedLines map') :
  rank (determineConfidence o syn map) <= rank (determineConfidence o' syn' map').
Proof.
  rewrite !determineConfidence_by_score. apply label_mono.
  pose proof (overallBucket_mono o o' Ho) as Hb.
  unfold strictFactors.
  pose proof (indicator_mono _ _ 2 ltac:(lia)
                (gtb_mono _ _ (7 # 10) Hsim)) as H1.
  assert (H2 : (if 10 <? Syntactic.longestFragment syn then 1 else 0)
               <= (if 10 <? Syntactic.longestFragment syn' then 1 else 0)).
  { apply indicator_mono; [lia |]. rewrite !Z.ltb_lt. lia. }
  assert (H3 : (if Num.gtb (Syntactic.coverage1 syn) (5 # 10)
                   || Num.gtb (Syntactic.coverage2 syn) (5 # 10) then 1 else 0)
               <= (if Num.gtb (Syntactic.coverage1 syn') (5 # 10)
                      || Num.gtb (Syntactic.coverage2 syn') (5 # 10) then 1 else 0)).
  { apply indicator_mono; [lia |]. rewrite !orb_true_iff.
    intros [H | H]; [left | right]; eapply gtb_mono; eassumption. }
  assert (H4 : (if 5 <? Mapping.significantMappedFragments map then 2 else 0)
               <= (if 5 <? Mapping.significantMappedFragments map' then 2 else 0)).
  { apply indicator_mono; [lia |]. rewrite !Z.ltb_lt. lia. }
  assert (H5 : (if 20 <? Mapping.totalSharedLines map then 1 else 0)
               <= (if 20 <? Mapping.totalSharedLines map' then 1 else 0)).
  { apply indicator_mono; [lia |]. rewrite !Z.ltb_lt. lia. }
  lia.
Qed.

Lemma confidence_label_monotone_witness :
  rank (determineConfidence (9 # 10) atSeventy noMapping)
  <= rank (determineConfidence (9 # 10) atEighty noMapping).
Proof.
  apply confidence_label_monotone; cbn; try lia; discriminate.
Defined.

(** ** Code snippets *)

Lemma Forall_firstn_keep {A : Type} (P : A -> Prop) (n : nat) (xs : list A) :
  Forall P xs -> Forall P (firstn n xs).
Proof.
  intro H. revert n. induction H as [| x xs Hx _ IH]; intro n.
  - rewrite firstn_nil. constructor.
  - destruct n; cbn [firstn]; constructor; auto.
Qed.

Lemma Forall_skipn_keep {A : Type} (P : A -> Prop) (n : nat) (xs : list A) :
  Forall P xs -> Forall P (skipn n xs).
Proof.
  intro H. revert n. induction H as [| x xs Hx Hxs IH]; intro n.
  - rewrite skipn_nil. constructor.
  - destruct n; cbn [skipn]; [now constructor | apply IH].
Qed.

Lemma string_app_nil_r (s : string) : (s ++ EmptyString)%string = s.
Proof. induction s as [| c s IH]; [reflexivity | cbn [append]; now rewrite IH]. Qed.

(** The lines of a snippet cut inside the file are the lines of the file. *)
Lemma extractCodeSnippet_lines (code : string) (startLine endLine : Z) :
  1 <= startLine -> startLine <= endLine ->
  startLine <= Num.len (split_lines code) ->
  split_lines (extractCodeSnippet (split_lines code) startLine endLine)
  = firstn (Z.to_nat (Z.min endLine (Num.len (split_lines code)) - startLine + 1))
           (skipn (Z.to_nat (startLine - 1)) (split_lines code)).
Proof.
  intros Hs Hse Hlen. unfold extractCodeSnippet. cbv zeta.
  destruct (slice_inside (split_lines code) (Z.max 0 (startLine - 1))
              (Z.min (Num.len (split_lines code)) endLine)) as [Heq Hcount]; try lia.
  rewrite split_lines_join.
  - rewrite Heq. f_equal; [| f_equal]; lia.
  - intro E. rewrite E in Hcount. unfold Num.len in Hcount at 1.
    cbn [List.length] in Hcount. lia.
  - rewrite Heq. apply Forall_firstn_keep, Forall_skipn_keep, split_lines_pieces.
Qed.

(** X12: a snippet cut from line [startLine] to line [endLine] inside the file
    consists of exactly those lines of the file, up to the last line when
    [endLine] lies beyond it. *)
Theorem snippet_is_the_line_range (code : string) (startLine endLine : Z)
    (Hstart : 1 <= startLine) (Horder : startLine <= endLine)
    (Hinside : startLine <= Num.len (split_lines code)) :
  split_lines (extractCodeSnippet (split_lines code) startLine endLine)
  = firstn (Z.to_nat (Z.min endLine (Num.len (split_lines code)) - startLine + 1))
           (skipn (Z.to_nat (startLine - 1)) (split_lines code))
  /\ Num.len (split_lines (extractCodeSnippet (split_lines code) startLine endLine))
     = Z.min endLine (Num.len (split_lines code)) - startLine + 1.
Proof.
  rewrite (extractCodeSnippet_lines code startLine endLine Hstart Horder Hinside).
  split; [reflexivity |].
  unfold Num.len in *. rewrite length_firstn, length_skipn. lia.
Qed.

Lemma snippet_is_the_line_range_witness :
  split_lines (extractCodeSnippet (split_lines longCode) 2 3)
  = ["var x: integer;"; "begin"]%string.
Proof.
  destruct (snippet_is_the_line_range longCode 2 3) as [H _];
    [lia | lia | vm_compute; discriminate |].
  rewrite H. reflexivity.
Defined.

Lemma mapi_from_nth {A B : Type} (f : A -> Z -> B) (i : Z) (xs : list A) (n : nat) :
  nth_error (mapi_from f i xs) n
  = option_map (fun x => f x (i + Z.of_nat n)) (nth_error xs n).
Proof.
  revert i n. induction xs as [| x xs IH]; intros i n.
  - destruct n; reflexivity.
  - destruct n as [| n]; cbn [mapi_from nth_error option_map].
    + do 2 f_equal. lia.
    + rewrite IH. destruct (nth_error xs n); cbn [option_map]; [| reflexivity].
      do 2 f_equal. lia.
Qed.

(** The numbered lines, one by one. *)
Lemma addLineNumbers_nth (code : string) (startLine : Z) (n : nat) :
  nth_error (split_lines (addLineNumbers code startLine)) n
  = option_map (fun line => (numberPrefix (startLine + Z.of_nat n) ++ line)%string)
               (nth_error (split_lines code) n).
Proof.
  unfold addLineNumbers, mapi. cbv zeta.
  rewrite split_lines_join.
  - rewrite mapi_from_nth. destruct (nth_error (split_lines code) n);
      cbn [option_map]; [| reflexivity].
    unfold numberPrefix. rewrite string_app_assoc. do 3 f_equal.
  - apply mapi_from_nonempty, split_lines_nonempty.
  - apply mapi_from_pieces; [| apply split_lines_pieces].
    intros l k Hl.
    change (has_lf (padStart 3 (toString (startLine + k)) ++ (": " ++ l)) = false)%string.
    rewrite <- string_app_assoc. fold (numberPrefix (startLine + k)).
    rewrite has_lf_app, has_lf_numberPrefix, Hl. reflexivity.
Qed.

(** X13: in the numbered view of a snippet cut at [startLine], the number in
    front of a line is the number of that line in the file: line
    [startLine + n] of the file appears at position [n] behind its own
    number. *)
Theorem numbered_snippet_shows_file_lines
    (code : string) (startLine endLine : Z) (n : nat) (line : string)
    (Hstart : 1 <= startLine)
    (Hend : startLine + Z.of_nat n <= endLine)
    (Hline : nth_error (split_lines code) (Z.to_nat (startLine - 1) + n) = Some line) :
  nth_error
    (split_lines
       (addLineNumbers (extractCodeSnippet (split_lines code) startLine endLine)
                       startLine)) n
  = Some (numberPrefix (startLine + Z.of_nat n) ++ line)%string.
Proof.
  assert (Hlen : (Z.to_nat (startLine - 1) + n < List.length (split_lines code))%nat)
    by (apply nth_error_Some; congruence).
  rewrite addLineNumbers_nth, extractCodeSnippet_lines;
    [| lia | lia | unfold Num.len; lia].
  rewrite nth_error_firstn, nth_error_skipn, Hline.
  destruct (Nat.ltb_spec n
              (Z.to_nat (Z.min endLine (Num.len (split_lines code)) - startLine + 1)))
    as [_ | Hge]; [reflexivity |].
  unfold Num.len in Hge. lia.
Qed.

Lemma numbered_snippet_shows_file_lines_witness :
  nth_error (split_lines
               (addLineNumbers (extractCodeSnippet (split_lines longCode) 2 4) 2)) 1
  = Some "  3: begin"%string.
Proof.
  apply (numbered_snippet_shows_file_lines longCode 2 4 1 "begin"%string).
  - lia.
  - cbn. lia.
  - reflexivity.
Defined.

(** X14: when the end line lies before the start line, or the start line
    beyond the file, the snippet is empty; its numbered view is then one
    empty line carrying the number of the start line. *)
Theorem empty_snippet_numbered (lines : list string) (startLine endLine : Z)
    (Hstart : 1 <= startLine) (Hend : 0 <= endLine)
    (Hempty : endLine < startLine \/ Num.len lines < startLine) :
  extractCodeSnippet lines startLine endLine = EmptyString
  /\ addLineNumbers (extractCodeSnippet lines startLine endLine) startLine
     = numberPrefix startLine.
Proof.
  assert (E : extractCodeSnippet lines startLine endLine = EmptyString).
  { unfold extractCodeSnippet, slice, slice_bound. cbv zeta.
    pose proof (len_nonneg lines) as Hn.
    destruct (Z.ltb_spec (Z.max 0 (startLine - 1)) 0); [lia |].
    destruct (Z.ltb_spec (Z.min (Num.len lines) endLine) 0); [lia |].
    replace (Z.to_nat (Z.min (Z.min (Num.len lines) endLine) (Num.len lines)
                       - Z.min (Z.max 0 (startLine - 1)) (Num.len lines)))
      with 0%nat by lia.
    reflexivity. }
  rewrite E. split; [reflexivity |].
  unfold addLineNumbers, mapi, numberPrefix. cbn [split_lines mapi_from join].
  rewrite Z.add_0_r. reflexivity.
Qed.

Lemma empty_snippet_numbered_witness :
  extractCodeSnippet (split_lines longCode) 4 1 = EmptyString
  /\ addLineNumbers (extractCodeSnippet (split_lines longCode) 4 1) 4
     = "  4: "%string.
Proof.
  apply (empty_snippet_numbered (split_lines longCode) 4 1); [lia | lia | left; lia].
Defined.

(** ** Token patterns *)

Lemma slice_prefix {A : Type} (xs : list A) (n : Z) :
  0 <= n <= Num.len xs -> slice xs 0 n = firstn (Z.to_nat n) xs.
Proof.
  intro H. destruct (slice_inside xs 0 n) as [Heq _]; try lia.
  rewrite Heq, Z.sub_0_r. reflexivity.
Qed.

Lemma slice_suffix {A : Type} (xs : list A) (n : Z) :
  0 < n <= Num.len xs ->
  slice_from xs (- n) = skipn (List.length xs - Z.to_nat n) xs.
Proof.
  intro H. unfold slice_from, slice, slice_bound.
  destruct (Z.ltb_spec (- n) 0) as [Hneg | Hzero]; [| lia].
  destruct (Z.ltb_spec (Num.len xs) 0); [lia |].
  unfold Num.len in *.
  replace (Z.to_nat (Z.max (Z.of_nat (List.length xs) + - n) 0))
    with (List.length xs - Z.to_nat n)%nat by lia.
  apply firstn_all2. rewrite length_skipn. lia.
Qed.

(** X15: of more than twenty shared tokens the pattern shows the first ten
    and the last ten, with [" ... "] in between; both classes agree. *)
Theorem long_token_pattern (tokens : list string)
    (Hlong : 20 < Num.len tokens) :
  createTokenPattern tokens
  = (join " " (firstn 10 tokens) ++ " ... "
     ++ join " " (skipn (List.length tokens - 10) tokens))%string
  /\ FragmentMapper.createTokenPattern tokens = createTokenPattern tokens.
Proof.
  split; [| reflexivity].
  unfold createTokenPattern.
  destruct (Z.eqb_spec (Num.len tokens) 0); [lia |].
  destruct (Z.gtb_spec (Num.len tokens) 20); [| lia].
  rewrite (slice_prefix tokens 10) by lia.
  change (slice_from tokens (-10)) with (slice_from tokens (Z.opp 10)).
  rewrite (slice_suffix tokens 10) by lia.
  reflexivity.
Qed.

Lemma long_token_pattern_witness :
  createTokenPattern (repeat "x"%string 21)
  = "x x x x x x x x x x ... x x x x x x x x x x"%string.
Proof.
  destruct (long_token_pattern (repeat "x"%string 21)) as [H _];
    [vm_compute; reflexivity |].
  rewrite H. reflexivity.
Defined.

(** ** Line ranges *)

Lemma rowOf_region (tf : TokenizedFile) (i row : Z) :
  rowOf tf i = Some row ->
  exists region,
    at_index (mapping tf) i = Some (Some region) /\ startRow region = Some row.
Proof.
  unfold rowOf. destruct (at_index (mapping tf) i) as [[region |] |];
    try discriminate.
  intro H. now exists region.
Qed.

Lemma getLineNumber_row (tf : TokenizedFile) (i : Z) :
  rowsAscend tf -> 0 <= i < Num.len (mapping tf) ->
  exists row,
    rowOf tf i = Some row /\ 0 < row
    /\ PascalPlagiarismDetector.getLineNumber i tf = row.
Proof.
  intros [Hrows _] Hi. destruct (Hrows i Hi) as (row & Hrow & Hpos).
  exists row. split; [exact Hrow |]. split; [exact Hpos |].
  destruct (rowOf_region tf i row Hrow) as (region & Hentry & Hstart).
  apply (getLineNumber_in_range i row tf region Hentry Hstart). lia.
Qed.

(** X16: for a file whose tokens all carry a positive row and whose rows
    never decrease, a token range inside the file gets a line range that
    starts no later than it ends, so the fragment counts at least one line. *)
Theorem line_range_ordered
    (d : Detector) (fragment : Fragment) (id : Z)
    (tf1 tf2 : TokenizedFile) (code1 code2 : string)
    (Hrows : rowsAscend tf1)
    (Hstart : 0 <= tok_start (MappedFragment.file1TokenRange
                                (createMappedFragment d fragment id tf1 tf2 code1 code2)))
    (Horder : tok_start (MappedFragment.file1TokenRange
                           (createMappedFragment d fragment id tf1 tf2 code1 code2))
              <= tok_end (MappedFragment.file1TokenRange
                            (createMappedFragment d fragment id tf1 tf2 code1 code2)))
    (Hend : tok_end (MappedFragment.file1TokenRange
                       (createMappedFragment d fragment id tf1 tf2 code1 code2))
            < Num.len (mapping tf1)) :
  1 <= line_start (MappedFragment.file1Lines
                     (createMappedFragment d fragment id tf1 tf2 code1 code2))
  /\ line_start (MappedFragment.file1Lines
                   (createMappedFragment d fragment id tf1 tf2 code1 code2))
     <= line_end (MappedFragment.file1Lines
                    (createMappedFragment d fragment id tf1 tf2 code1 code2))
  /\ 1 <= line_count (MappedFragment.file1Lines
                        (createMappedFragment d fragment id tf1 tf2 code1 code2)).
Proof.
  revert Hstart Horder Hend.
  cbn -[Num.len slice Num.falsy_or at_index PascalPlagiarismDetector.getLineNumber].
  set (s := Num.falsy_or _ (Range.from (leftkgrams fragment))).
  set (e := Num.falsy_or _ (Range.to (leftkgrams fragment) - 1)).
  intros Hstart Horder Hend.
  destruct (getLineNumber_row tf1 s Hrows) as (rs & Hrs & Hpos & ->); [lia |].
  destruct (getLineNumber_row tf1 e Hrows) as (re & Hre & _ & ->); [lia |].
  destruct Hrows as [_ Hmono].
  pose proof (Hmono s e rs re Horder Hrs Hre). lia.
Qed.

Lemma rowOf_longFile (i : Z) :
  0 <= i < 25 -> rowOf longFile i = Some (1 + i / 5).
Proof.
  intro H. unfold rowOf, at_index, longFile. cbn [mapping].
  destruct (Z.ltb_spec i 0); [lia |].
  rewrite nth_error_map, nth_error_seq.
  destruct (Nat.ltb_spec (Z.to_nat i) 25); [| lia].
  cbn [option_map startRow Nat.add]. rewrite Z2Nat.id by lia. reflexivity.
Qed.

Lemma rowsAscend_longFile : rowsAscend longFile.
Proof.
  assert (Hlen : Num.len (mapping longFile) = 25) by reflexivity.
  assert (Hout : forall i row, rowOf longFile i = Some row -> 0 <= i < 25).
  { intros i row H. unfold rowOf, at_index in H.
    destruct (Z.ltb_spec i 0); [discriminate |].
    destruct (nth_error (mapping longFile) (Z.to_nat i)) eqn:E; [| discriminate].
    assert (Hlt : (Z.to_nat i < List.length (mapping longFile))%nat)
      by (apply nth_error_Some; congruence).
    change (List.length (mapping longFile)) with 25%nat in Hlt. lia. }
  split.
  - intros i Hi. rewrite Hlen in Hi. exists (1 + i / 5).
    split; [now apply rowOf_longFile |].
    assert (0 <= i / 5) by (apply Z.div_pos; lia). lia.
  - intros i j ri rj Hij Hi Hj.
    pose proof (Hout i ri Hi). pose proof (Hout j rj Hj).
    assert (Ei : ri = 1 + i / 5)
      by (rewrite rowOf_longFile in Hi by lia; congruence).
    assert (Ej : rj = 1 + j / 5)
      by (rewrite rowOf_longFile in Hj by lia; congruence).
    assert (i / 5 <= j / 5) by (apply Z.div_le_mono; lia). lia.
Qed.

Lemma line_range_ordered_witness :
  1 <= line_start (MappedFragment.file1Lines
                     (createMappedFragment defaultDetector (sampleFragment 25) 1
                        longFile longFile longCode longCode))
  /\ line_start (MappedFragment.file1Lines
                   (createMappedFragment defaultDetector (sampleFragment 25) 1
                      longFile longFile longCode longCode))
     <= line_end (MappedFragment.file1Lines
                    (createMappedFragment defaultDetector (sampleFragment 25) 1
                       longFile longFile longCode longCode))
  /\ 1 <= line_count (MappedFragment.file1Lines
                        (createMappedFragment defaultDetector (sampleFragment 25) 1
                           longFile longFile longCode longCode)).
Proof.
  apply (line_range_ordered defaultDetector (sampleFragment 25) 1
           longFile longFile longCode longCode rowsAscend_longFile);
    vm_compute; congruence.
Defined.

(** ** Failure of a comparison *)

(** X17: a file that fails to tokenize makes the comparison fail with that
    very error, whatever the index and the threshold are; when both files
    would fail, the error raised is the one of the first file, the second
    file being tokenized only after the first. *)
Theorem detect_fails_with_first_error {exn : Type}
    (tokenizeFile : string -> string -> Result exn TokenizedFile)
    (getPair : Z -> Z -> TokenizedFile -> TokenizedFile -> Pair.t)
    (d : Detector) (file1 file2 : FileInput) (customThreshold : option Q) (e : exn)
    (Hfail : tokenizeFile (name file1) (content file1) = Err e
             \/ (exists tf1,
                   tokenizeFile (name file1) (content file1) = Ok tf1
                   /\ tokenizeFile (name file2) (content file2) = Err e)) :
  detectPlagiarism tokenizeFile getPair d file1 file2 customThreshold = Err e.
Proof.
  unfold detectPlagiarism.
  destruct Hfail as [H1 | (tf1 & H1 & H2)].
  - rewrite H1. reflexivity.
  - rewrite H1. cbn [bind]. rewrite H2. reflexivity.
Qed.

Lemma detect_fails_with_first_error_witness :
  detectPlagiarism sampleTokenize sampleGetPair defaultDetector
    sampleBad sampleA None = Err "LexError"%string
  /\ detectPlagiarism sampleTokenize sampleGetPair defaultDetector
       sampleA sampleBad None = Err "LexError"%string.
Proof.
  split.
  - apply (detect_fails_with_first_error sampleTokenize sampleGetPair defaultDetector
             sampleBad sampleA None "LexError"%string).
    left. vm_compute. reflexivity.
  - apply (detect_fails_with_first_error sampleTokenize sampleGetPair defaultDetector
             sampleA sampleBad None "LexError"%string).
    right. eexists. split; vm_compute; reflexivity.
Defined.

(** ** Order and counts of a batch *)

Lemma before_le (a b : Q) : Qle_bool (b - a) 0 = true <-> (b <= a)%Q.
Proof. rewrite Qle_bool_iff. split; intro H; Lqa.lra. Qed.

Lemma sort_insert_descending {A : Type} (key : A -> Q) (x : A) (ys : list A) :
  descending key ys ->
  descending key (sort_insert (fun a b => Qle_bool (key b - key a) 0) x ys).
Proof.
  unfold descending. induction 1 as [| y ys Hys IH Hy]; cbn [sort_insert].
  - repeat constructor.
  - destruct (Qle_bool (key y - key x) 0) eqn:E.
    + apply before_le in E. constructor; [now constructor |].
      constructor; [exact E |].
      eapply Forall_impl; [| exact Hy]. cbn. intros b Hb.
      eapply Qle_trans; eassumption.
    + assert (Hlt : (key x <= key y)%Q).
      { apply Qlt_le_weak, Qnot_le_lt. intro H. apply before_le in H. congruence. }
      constructor; [exact IH |].
      eapply Permutation_Forall; [apply sort_insert_perm |].
      constructor; assumption.
Qed.

Lemma sort_by_descending {A : Type} (key : A -> Q) (xs : list A) :
  descending key (sort_by (fun a b => Qle_bool (key b - key a) 0) xs).
Proof.
  induction xs as [| x xs IH]; cbn [sort_by fold_right]; [constructor |].
  now apply sort_insert_descending.
Qed.

(** What a successful batch returns, in terms of the comparisons made. *)
Lemma detectBatchPlagiarism_ok {exn : Type}
    (tokenizeFile : string -> string -> Result exn TokenizedFile)
    (getPair : Z -> Z -> TokenizedFile -> TokenizedFile -> Pair.t)
    (d : Detector) (files : list FileInput) (customThreshold : option Q)
    (br : BatchResult.t) :
  detectBatchPlagiarism tokenizeFile getPair d files customThreshold = Ok br ->
  exists rs,
    traverse (compare tokenizeFile getPair d customThreshold) (allPairs files) = Ok rs
    /\ br = BatchResult.mk
              (sort_by (fun a b =>
                          Qle_bool (PlagiarismResult.overallSimilarity b
                                    - PlagiarismResult.overallSimilarity a) 0) rs)
              (match customThreshold with
               | Some t => Q2R t
               | None => calculateBatchThreshold rs
               end)
              (Num.len rs) (flagged rs).
Proof.
  rewrite detectBatchPlagiarism_traverse.
  destruct (traverse (compare tokenizeFile getPair d customThreshold) (allPairs files))
    as [rs | e]; cbn [bind]; [| discriminate].
  intro H. injection H as <-. now exists rs.
Qed.

(** X18: the results of a batch come in non-increasing order of
    [overallSimilarity]. *)
Theorem batch_results_descending {exn : Type}
    (tokenizeFile : string -> string -> Result exn TokenizedFile)
    (getPair : Z -> Z -> TokenizedFile -> TokenizedFile -> Pair.t)
    (d : Detector) (files : list FileInput) (customThreshold : option Q)
    (br : BatchResult.t)
    (Hrun : detectBatchPlagiarism tokenizeFile getPair d files customThreshold = Ok br) :
  descending PlagiarismResult.overallSimilarity (BatchResult.results br).
Proof.
  destruct (detectBatchPlagiarism_ok _ _ _ _ _ _ Hrun) as (rs & _ & ->).
  cbn [BatchResult.results]. apply sort_by_descending.
Qed.

Lemma batch_results_descending_witness :
  exists br,
    detectBatchPlagiarism sampleTokenize gradedGetPair defaultDetector
      gradedFiles None = Ok br
    /\ descending PlagiarismResult.overallSimilarity (BatchResult.results br).
Proof.
  destruct (detectBatchPlagiarism sampleTokenize gradedGetPair defaultDetector
              gradedFiles None) as [br | e] eqn:Hrun;
    [| exfalso; revert Hrun; rewrite detectBatchPlagiarism_traverse;
       vm_compute; discriminate].
  exists br. split; [reflexivity |].
  exact (batch_results_descending sampleTokenize gradedGetPair defaultDetector
           gradedFiles None br Hrun).
Defined.

Lemma flagged_bounds (rs : list PlagiarismResult.t) : 0 <= flagged rs <= Num.len rs.
Proof.
  unfold flagged, Num.len. split; [lia |]. apply inj_le, filter_shorter.
Qed.

(** X19: a batch of [n] files that succeeds has made [n (n - 1) / 2]
    comparisons, returns as many results, and flags between none and all of
    them. *)
Theorem batch_counts {exn : Type}
    (tokenizeFile : string -> string -> Result exn TokenizedFile)
    (getPair : Z -> Z -> TokenizedFile -> TokenizedFile -> Pair.t)
    (d : Detector) (files : list FileInput) (customThreshold : option Q)
    (br : BatchResult.t)
    (Hrun : detectBatchPlagiarism tokenizeFile getPair d files customThreshold = Ok br) :
  2 * BatchResult.totalComparisons br = Num.len files * (Num.len files - 1)
  /\ Num.len (BatchResult.results br) = BatchResult.totalComparisons br
  /\ 0 <= BatchResult.suspiciousPairs br <= BatchResult.totalComparisons br.
Proof.
  destruct (detectBatchPlagiarism_ok _ _ _ _ _ _ Hrun) as (rs & Hrs & ->).
  cbn [BatchResult.results BatchResult.totalComparisons BatchResult.suspiciousPairs].
  pose proof (Forall2_length (traverse_each _ _ _ Hrs)) as Hlen.
  split; [| split].
  - rewrite <- allPairs_count. unfold Num.len. rewrite Hlen. reflexivity.
  - unfold Num.len. now rewrite <- (Permutation_length (sort_by_perm _ rs)).
  - apply flagged_bounds.
Qed.

Lemma batch_counts_witness :
  exists br,
    detectBatchPlagiarism sampleTokenize gradedGetPair defaultDetector
      gradedFiles None = Ok br
    /\ 2 * BatchResult.totalComparisons br = 3 * (3 - 1)
    /\ Num.len (BatchResult.results br) = BatchResult.totalComparisons br
    /\ 0 <= BatchResult.suspiciousPairs br <= BatchResult.totalComparisons br.
Proof.
  destruct (detectBatchPlagiarism sampleTokenize gradedGetPair defaultDetector
              gradedFiles None) as [br | e] eqn:Hrun;
    [| exfalso; revert Hrun; rewrite detectBatchPlagiarism_traverse;
       vm_compute; discriminate].
  exists br. split; [reflexivity |].
  exact (batch_counts sampleTokenize gradedGetPair defaultDetector
           gradedFiles None br Hrun).
Defined.

Lemma calculateBatchThreshold_range (rs : list PlagiarismResult.t) :
  (1 / 4 <= calculateBatchThreshold rs <= 4 / 5)%R.
Proof.
  unfold calculateBatchThreshold.
  destruct (Num.len rs =? 0); [lra |]. cbv zeta.
  match goal with
  | |- (_ <= Rmin (Rmax ?lo ?x) ?hi <= _)%R =>
      pose proof (Rmin_r (Rmax lo x) hi) as Hhi;
      pose proof (Rmax_l lo x) as Hlo;
      pose proof (Rmin_glb (Rmax lo x) hi lo Hlo ltac:(lra)) as Hglb
  end.
  lra.
Qed.

(** X20: the threshold a batch computes for itself lies between 0.25 and 0.8,
    and is 0.3 when no pair was compared. *)
Theorem batch_threshold_range {exn : Type}
    (tokenizeFile : string -> string -> Result exn TokenizedFile)
    (getPair : Z -> Z -> TokenizedFile -> TokenizedFile -> Pair.t)
    (d : Detector) (files : list FileInput) (br : BatchResult.t)
    (Hrun : detectBatchPlagiarism tokenizeFile getPair d files None = Ok br) :
  (1 / 4 <= BatchResult.threshold br <= 4 / 5)%R
  /\ (BatchResult.results br = [] -> BatchResult.threshold br = (3 / 10)%R).
Proof.
  destruct (detectBatchPlagiarism_ok _ _ _ _ _ _ Hrun) as (rs & _ & ->).
  cbn [BatchResult.results BatchResult.threshold].
  split; [apply calculateBatchThreshold_range |].
  intro Hnil.
  assert (rs = []).
  { apply Permutation_nil. rewrite <- Hnil. apply Permutation_sym, sort_by_perm. }
  subst rs. reflexivity.
Qed.

Lemma batch_threshold_range_witness :
  exists br,
    detectBatchPlagiarism sampleTokenize gradedGetPair defaultDetector
      gradedFiles None = Ok br
    /\ (1 / 4 <= BatchResult.threshold br <= 4 / 5)%R.
Proof.
  destruct (detectBatchPlagiarism sampleTokenize gradedGetPair defaultDetector
              gradedFiles None) as [br | e] eqn:Hrun;
    [| exfalso; revert Hrun; rewrite detectBatchPlagiarism_traverse;
       vm_compute; discriminate].
  exists br. split; [reflexivity |].
  exact (proj1 (batch_threshold_range sampleTokenize gradedGetPair defaultDetector
                  gradedFiles br Hrun)).
Defined.

(** X21: with a caller threshold [t], a batch reports [t] as its threshold,
    flags exactly the results of [overallSimilarity >= t], and counts them in
    [suspiciousPairs]. *)
Theorem batch_with_caller_threshold {exn : Type}
    (tokenizeFile : string -> string -> Result exn TokenizedFile)
    (getPair : Z -> Z -> TokenizedFile -> TokenizedFile -> Pair.t)
    (d : Detector) (files : list FileInput) (t : Q) (br : BatchResult.t)
    (Hrun : detectBatchPlagiarism tokenizeFile getPair d files (Some t) = Ok br) :
  BatchResult.threshold br = Q2R t
  /\ Forall (fun r =>
               PlagiarismResult.isPlagiarism r = true
               <-> (t <= PlagiarismResult.overallSimilarity r)%Q)
            (BatchResult.results br)
  /\ BatchResult.suspiciousPairs br
     = Num.len (filter (fun r => Qle_bool t (PlagiarismResult.overallSimilarity r))
                       (BatchResult.results br)).
Proof.
  destruct (detectBatchPlagiarism_ok _ _ _ _ _ _ Hrun) as (rs & Hrs & ->).
  cbn [BatchResult.results BatchResult.threshold BatchResult.suspiciousPairs].
  split; [reflexivity |].
  set (sorted := sort_by _ rs).
  assert (Hall : Forall (fun r =>
                           PlagiarismResult.isPlagiarism r
                           = Qle_bool t (PlagiarismResult.overallSimilarity r)) sorted).
  { eapply Permutation_Forall; [apply sort_by_perm |].
    pose proof (traverse_each _ _ _ Hrs) as Heach. clear Hrs Hrun.
    induction Heach as [| p r ps rs' Hp _ IH]; [constructor |].
    constructor; [| exact IH].
    destruct (detectPlagiarism_ok _ _ _ _ _ _ _ Hp)
      as (tf1 & tf2 & _ & _ & _ & _ & _ & Hverdict).
    exact Hverdict. }
  split.
  - eapply Forall_impl; [| exact Hall]. cbn. intros r ->. apply Qle_bool_iff.
  - rewrite (flagged_perm rs sorted) by apply sort_by_perm.
    unfold flagged.
    assert (E : filter PlagiarismResult.isPlagiarism sorted
                = filter (fun r => Qle_bool t (PlagiarismResult.overallSimilarity r))
                         sorted).
    { clear -Hall. induction Hall as [| r rs' Hr _ IH]; [reflexivity |].
      cbn [filter]. now rewrite Hr, IH. }
    now rewrite E.
Qed.

Lemma batch_with_caller_threshold_witness :
  exists br,
    detectBatchPlagiarism sampleTokenize gradedGetPair defaultDetector
      gradedFiles (Some (1 # 2)) = Ok br
    /\ BatchResult.threshold br = Q2R (1 # 2)
    /\ BatchResult.suspiciousPairs br
       = Num.len (filter (fun r => Qle_bool (1 # 2) (PlagiarismResult.overallSimilarity r))
                         (BatchResult.results br)).
Proof.
  destruct (detectBatchPlagiarism sampleTokenize gradedGetPair defaultDetector
              gradedFiles (Some (1 # 2))) as [br | e] eqn:Hrun;
    [| exfalso; revert Hrun; rewrite detectBatchPlagiarism_traverse;
       vm_compute; discriminate].
  exists br. split; [reflexivity |].
  destruct (batch_with_caller_threshold sampleTokenize gradedGetPair defaultDetector
              gradedFiles (1 # 2) br Hrun) as (H1 & _ & H3).
  split; [exact H1 | exact H3].
Defined.

(** X22: a batch of fewer than two files compares nothing: it succeeds
    whatever the tokenizer would make of the file, with no result, no
    comparison and no suspicious pair. *)
Theorem batch_of_one_is_empty {exn : Type}
    (tokenizeFile : string -> string -> Result exn TokenizedFile)
    (getPair : Z -> Z -> TokenizedFile -> TokenizedFile -> Pair.t)
    (d : Detector) (files : list FileInput) (customThreshold : option Q)
    (Hfew : (List.length files < 2)%nat) :
  exists br,
    detectBatchPlagiarism tokenizeFile getPair d files customThreshold = Ok br
    /\ BatchResult.results br = []
    /\ BatchResult.totalComparisons br = 0
    /\ BatchResult.suspiciousPairs br = 0.
Proof.
  destruct files as [| f [| g rest]]; [| | cbn in Hfew; lia];
    eexists; (split; [reflexivity |]); repeat split.
Qed.

Lemma batch_of_one_is_empty_witness :
  exists br,
    detectBatchPlagiarism sampleTokenize sampleGetPair defaultDetector
      [sampleBad] None = Ok br
    /\ BatchResult.results br = []
    /\ BatchResult.totalComparisons br = 0
    /\ BatchResult.suspiciousPairs br = 0.
Proof.
  apply (batch_of_one_is_empty sampleTokenize sampleGetPair defaultDetector
           [sampleBad] None).
  cbn. lia.
Defined.

(** * Properties of the fragment mapper *)

(** What a successful [mapSharedFragments] has computed. *)
Lemma mapSharedFragments_ok {exn : Type}
    (tokenizeFile : string -> string -> Result exn TokenizedFile)
    (getPair : Z -> Z -> TokenizedFile -> TokenizedFile -> Pair.t)
    (filePath : TokenizedFile -> string)
    (name1 code1 name2 code2 : string) (k w : option Z) (t : option Q)
    (r : FragmentMapper.FragmentMappingResult) :
  FragmentMapper.mapSharedFragments tokenizeFile getPair filePath
    name1 code1 name2 code2 k w t = Ok r ->
  exists tf1 tf2 significant,
    tokenizeFile name1 code1 = Ok tf1
    /\ tokenizeFile name2 code2 = Ok tf2
    /\ significant
       = filter (fun f => Num.geb (FragmentMapper.confidence f) (3 # 10)
                          && (Num.len (FragmentMapper.sharedTokens f)
                              >=? Num.nullish_or k 8))
                (FragmentMapper.enhanceFragments
                   (Pair.buildFragments
                      (getPair (Num.nullish_or k 8) (Num.nullish_or w 15) tf1 tf2) 1)
                   tf1 tf2 code1 code2)
    /\ r = FragmentMapper.sortFragments
             (FragmentMapper.calculateDetailedMetrics filePath
                (getPair (Num.nullish_or k 8) (Num.nullish_or w 15) tf1 tf2)
                (FragmentMapper.enhanceFragments
                   (Pair.buildFragments
                      (getPair (Num.nullish_or k 8) (Num.nullish_or w 15) tf1 tf2) 1)
                   tf1 tf2 code1 code2)
                significant tf1 tf2 code1 code2
                (Num.nullish_or k 8) (Num.nullish_or w 15)
                (Num.nullish_or t (3 # 10)%Q)).
Proof.
  unfold FragmentMapper.mapSharedFragments. intro H.
  destruct (tokenizeFile name1 code1) as [tf1 | e1]; [| discriminate].
  destruct (tokenizeFile name2 code2) as [tf2 | e2]; [| discriminate].
  cbn [bind] in H. injection H as <-.
  exists tf1, tf2. eexists. repeat split; reflexivity.
Qed.



(** X24: the fragment mapper decides by the similarity of the pair alone:
    plagiarism is reported exactly when that similarity reaches the caller's
    threshold, 0.3 when none is given; no adaptive threshold is involved. *)
Theorem mapper_verdict_fixed_threshold {exn : Type}
    (tokenizeFile : string -> string -> Result exn TokenizedFile)
    (getPair : Z -> Z -> TokenizedFile -> TokenizedFile -> Pair.t)
    (filePath : TokenizedFile -> string)
    (name1 code1 name2 code2 : string) (k w : option Z) (t : option Q)
    (r : FragmentMapper.FragmentMappingResult)
    (Hrun : FragmentMapper.mapSharedFragments tokenizeFile getPair filePath
              name1 code1 name2 code2 k w t = Ok r) :
  FragmentMapper.threshold r = Num.nullish_or t (3 # 10)%Q
  /\ (FragmentMapper.isPlagiarism r = true
      <-> (FragmentMapper.threshold r <= FragmentMapper.overallSimilarity r)%Q)
  /\ exists tf1 tf2,
       tokenizeFile name1 code1 = Ok tf1
       /\ tokenizeFile name2 code2 = Ok tf2
       /\ FragmentMapper.overallSimilarity r
          = Pair.similarity (getPair (Num.nullish_or k 8) (Num.nullish_or w 15) tf1 tf2).
Proof.
  destruct (mapSharedFragments_ok _ _ _ _ _ _ _ _ _ _ _ Hrun)
    as (tf1 & tf2 & significant & H1 & H2 & _ & ->).
  cbn [FragmentMapper.sortFragments FragmentMapper.calculateDetailedMetrics
       FragmentMapper.threshold FragmentMapper.isPlagiarism
       FragmentMapper.overallSimilarity].
  split; [reflexivity |]. split; [apply geb_le |].
  exists tf1, tf2. repeat split; assumption.
Qed.

Lemma mapper_verdict_fixed_threshold_witness :
  exists r,
    FragmentMapper.mapSharedFragments longTokenize fixedGetPair (fun _ => "f.pas"%string)
      "a.pas" longCode "b.pas" longCode None None None = Ok r
    /\ FragmentMapper.threshold r = (3 # 10)%Q
    /\ FragmentMapper.isPlagiarism r = true.
Proof.
  eexists. split; [vm_compute; reflexivity |].
  destruct (mapper_verdict_fixed_threshold longTokenize fixedGetPair
              (fun _ => "f.pas"%string) "a.pas" longCode "b.pas" longCode
              None None None _ eq_refl) as (Ht & Hv & _).
  split; [exact Ht |]. apply Hv. vm_compute. discriminate.
Defined.

(** ** Token coverage *)

Lemma addIndices_spec (i : Z) (n : nat) (covered : FragmentMapper.IndexSet) (x : Z) :
  In x (FragmentMapper.addIndices i n covered)
  <-> In x covered \/ i <= x < i + Z.of_nat n.
Proof.
  revert i covered. induction n as [| n IH]; intros i covered;
    cbn [FragmentMapper.addIndices].
  - split; [tauto | intros [H | H]; [exact H | lia]].
  - rewrite IH, set_add_iff. split.
    + intros [[-> | H] | H]; [right; lia | now left | right; lia].
    + intros [H | H]; [left; now right |].
      destruct (Z.eq_dec x i) as [-> | Hne]; [left; now left | right; lia].
Qed.

Lemma addIndices_nodup (i : Z) (n : nat) (covered : FragmentMapper.IndexSet) :
  NoDup covered -> NoDup (FragmentMapper.addIndices i n covered).
Proof.
  revert i covered. induction n as [| n IH]; intros i covered H;
    cbn [FragmentMapper.addIndices]; [exact H |].
  apply IH. now apply set_add_nodup.
Qed.

Lemma addRange_inside (n : Z) (range : TokenRange) (covered : FragmentMapper.IndexSet) :
  0 <= tok_start range -> tok_end range < n ->
  insideFile n covered -> insideFile n (FragmentMapper.addRange range covered).
Proof.
  intros Hs He [Hnd Hin]. unfold FragmentMapper.addRange. split.
  - now apply addIndices_nodup.
  - intros x Hx. apply addIndices_spec in Hx as [Hx | Hx]; [now apply Hin | lia].
Qed.

Lemma insideFile_size (n : Z) (covered : FragmentMapper.IndexSet) :
  0 <= n -> insideFile n covered -> Num.len covered <= n.
Proof.
  intros Hn [Hnd Hin].
  assert (Hincl : incl covered (map Z.of_nat (seq 0 (Z.to_nat n)))).
  { intros x Hx. apply Hin in Hx. apply in_map_iff.
    exists (Z.to_nat x). split; [lia |]. apply in_seq. lia. }
  pose proof (NoDup_incl_length Hnd Hincl) as Hlen.
  rewrite length_map, length_seq in Hlen. unfold Num.len. lia.
Qed.

Lemma coveredTokens_inside (n1 n2 : Z) (fs : list FragmentMapper.DetailedFragment) :
  Forall (fun f =>
            (0 <= tok_start (FragmentMapper.file1Range f)
             /\ tok_end (FragmentMapper.file1Range f) < n1)
            /\ (0 <= tok_start (FragmentMapper.file2Range f)
                /\ tok_end (FragmentMapper.file2Range f) < n2)) fs ->
  insideFile n1 (fst (FragmentMapper.coveredTokens fs))
  /\ insideFile n2 (snd (FragmentMapper.coveredTokens fs)).
Proof.
  unfold FragmentMapper.coveredTokens.
  assert (Hgen : forall sets,
             insideFile n1 (fst sets) -> insideFile n2 (snd sets) ->
             Forall (fun f =>
                       (0 <= tok_start (FragmentMapper.file1Range f)
                        /\ tok_end (FragmentMapper.file1Range f) < n1)
                       /\ (0 <= tok_start (FragmentMapper.file2Range f)
                           /\ tok_end (FragmentMapper.file2Range f) < n2)) fs ->
             insideFile n1
               (fst (fold_left
                       (fun sets0 fragment =>
                          (FragmentMapper.addRange (FragmentMapper.file1Range fragment)
                             (fst sets0),
                           FragmentMapper.addRange (FragmentMapper.file2Range fragment)
                             (snd sets0))) fs sets))
             /\ insideFile n2
                  (snd (fold_left
                          (fun sets0 fragment =>
                             (FragmentMapper.addRange (FragmentMapper.file1Range fragment)
                                (fst sets0),
                              FragmentMapper.addRange (FragmentMapper.file2Range fragment)
                                (snd sets0))) fs sets))).
  { induction fs as [| f fs IH]; intros sets H1 H2 Hall; cbn [fold_left]; [tauto |].
    inversion Hall as [| ? ? [[Ha Hb] [Hc Hd]] Hrest]; subst.
    apply IH; cbn [fst snd]; [now apply addRange_inside .. | exact Hrest]. }
  apply Hgen; cbn [fst snd]; split; try constructor; contradiction.
Qed.

Lemma tokenCoverage_bounds (covered total : Z) (q : Q) :
  0 <= covered <= total ->
  FragmentMapper.tokenCoverage covered total = Some q ->
  (0 <= q)%Q /\ (q <= 1)%Q.
Proof.
  intros H. unfold FragmentMapper.tokenCoverage.
  destruct (Z.eqb_spec total 0) as [| Hnz]; [discriminate |].
  intro E. injection E as <-.
  assert (Hpos : (0 < inject_Z total)%Q).
  { change 0%Q with (inject_Z 0). rewrite <- Zlt_Qlt. lia. }
  split.
  - apply Qle_shift_div_l; [exact Hpos |]. rewrite Qmult_0_l.
    change 0%Q with (inject_Z 0). rewrite <- Zle_Qle. lia.
  - apply Qle_shift_div_r; [exact Hpos |]. rewrite Qmult_1_l.
    rewrite <- Zle_Qle. lia.
Qed.

Lemma tokenCoverage_fraction (covered total : Z) :
  0 <= covered <= total -> 0 < total ->
  exists q,
    FragmentMapper.tokenCoverage covered total = Some q
    /\ (0 <= q)%Q /\ (q <= 1)%Q.
Proof.
  intros H Hpos. unfold FragmentMapper.tokenCoverage.
  destruct (Z.eqb_spec total 0) as [| Hnz]; [lia |].
  eexists. split; [reflexivity |].
  apply (tokenCoverage_bounds covered total); [exact H |].
  unfold FragmentMapper.tokenCoverage.
  destruct (Z.eqb_spec total 0); [lia | reflexivity].
Qed.

(** X25: when the significant fragments lie inside the two files, the token
    coverage [mapSharedFragments] reports for a file that has tokens is a
    fraction between 0 and 1, overlapping fragments not being counted twice;
    for a file without any token the coverage is no number, the quotient
    being [0 / 0]. *)
Theorem mapper_coverage_is_a_fraction {exn : Type}
    (tokenizeFile : string -> string -> Result exn TokenizedFile)
    (getPair : Z -> Z -> TokenizedFile -> TokenizedFile -> Pair.t)
    (filePath : TokenizedFile -> string)
    (name1 code1 name2 code2 : string) (k w : option Z) (t : option Q)
    (r : FragmentMapper.FragmentMappingResult)
    (Hrun : FragmentMapper.mapSharedFragments tokenizeFile getPair filePath
              name1 code1 name2 code2 k w t = Ok r)
    (Hinside : Forall (fun f =>
                         (0 <= tok_start (FragmentMapper.file1Range f)
                          /\ tok_end (FragmentMapper.file1Range f)
                             < FragmentMapper.file1TotalTokens r)
                         /\ (0 <= tok_start (FragmentMapper.file2Range f)
                             /\ tok_end (FragmentMapper.file2Range f)
                                < FragmentMapper.file2TotalTokens r))
                      (FragmentMapper.fragments r)) :
  ((0 < FragmentMapper.file1TotalTokens r ->
    exists q, FragmentMapper.file1Coverage r = Some q /\ (0 <= q)%Q /\ (q <= 1)%Q)
   /\ (FragmentMapper.file1TotalTokens r = 0 -> FragmentMapper.file1Coverage r = None))
  /\ ((0 < FragmentMapper.file2TotalTokens r ->
       exists q, FragmentMapper.file2Coverage r = Some q /\ (0 <= q)%Q /\ (q <= 1)%Q)
      /\ (FragmentMapper.file2TotalTokens r = 0 -> FragmentMapper.file2Coverage r = None)).
Proof.
  destruct (mapSharedFragments_ok _ _ _ _ _ _ _ _ _ _ _ Hrun)
    as (tf1 & tf2 & significant & _ & _ & _ & ->).
  revert Hinside.
  cbn [FragmentMapper.sortFragments FragmentMapper.calculateDetailedMetrics
       FragmentMapper.fragments FragmentMapper.file1TotalTokens
       FragmentMapper.file2TotalTokens FragmentMapper.file1Coverage
       FragmentMapper.file2Coverage].
  intro Hinside.
  apply (Permutation_Forall (Permutation_sym (sort_by_perm _ significant))) in Hinside.
  destruct (coveredTokens_inside _ _ _ Hinside) as [H1 H2].
  pose proof (insideFile_size _ _ (len_nonneg _) H1) as S1.
  pose proof (insideFile_size _ _ (len_nonneg _) H2) as S2.
  split; split.
  - intro Hpos. apply tokenCoverage_fraction; [| exact Hpos].
    split; [apply len_nonneg | exact S1].
  - intro Hzero. unfold FragmentMapper.tokenCoverage. rewrite Hzero. reflexivity.
  - intro Hpos. apply tokenCoverage_fraction; [| exact Hpos].
    split; [apply len_nonneg | exact S2].
  - intro Hzero. unfold FragmentMapper.tokenCoverage. rewrite Hzero. reflexivity.
Qed.

Lemma mapper_coverage_is_a_fraction_witness :
  exists r q,
    FragmentMapper.mapSharedFragments longTokenize fixedGetPair (fun _ => "f.pas"%string)
      "a.pas" longCode "b.pas" longCode None None None = Ok r
    /\ FragmentMapper.file1Coverage r = Some q
    /\ (0 <= q)%Q /\ (q <= 1)%Q.
Proof.
  destruct (mapper_coverage_is_a_fraction longTokenize fixedGetPair
              (fun _ => "f.pas"%string) "a.pas" longCode "b.pas" longCode
              None None None _ eq_refl) as [[H1 _] _].
  - vm_compute. repeat constructor; discriminate.
  - destruct H1 as (q & Hq & Hbounds); [reflexivity |].
    eexists. exists q. split; [reflexivity |]. split; [exact Hq | exact Hbounds].
Defined.

(** * Properties of the HTTP endpoints *)

Lemma batch_fails_on_failing_file {exn : Type}
    (tokenizeFile : string -> string -> Result exn TokenizedFile)
    (getPair : Z -> Z -> TokenizedFile -> TokenizedFile -> Pair.t)
    (d : Detector) (files : list FileInput) (customThreshold : option Q)
    (f : FileInput) (e : exn) :
  In f files -> (2 <= List.length files)%nat ->
  tokenizeFile (name f) (content f) = Err e ->
  exists e', detectBatchPlagiarism tokenizeFile getPair d files customThreshold = Err e'.
Proof.
  intros Hin Hlen Hfail. rewrite detectBatchPlagiarism_traverse.
  destruct (allPairs_mem f files Hin Hlen) as (p & Hp & Hside).
  assert (Hcmp : exists e1, compare tokenizeFile getPair d customThreshold p = Err e1).
  { unfold compare, detectPlagiarism. destruct Hside as [-> | ->].
    - rewrite Hfail. eexists. reflexivity.
    - destruct (tokenizeFile (name (fst p)) (content (fst p)));
        cbn [bind]; [rewrite Hfail |]; eexists; reflexivity. }
  destruct Hcmp as [e1 Hcmp].
  destruct (traverse_fails _ _ _ _ Hp Hcmp) as [e' ->].
  exists e'. reflexivity.
Qed.

Lemma batch_success_tokenizes {exn : Type}
    (tokenizeFile : string -> string -> Result exn TokenizedFile)
    (getPair : Z -> Z -> TokenizedFile -> TokenizedFile -> Pair.t)
    (d : Detector) (files : list FileInput) (customThreshold : option Q)
    (br : BatchResult.t) (f : FileInput) :
  detectBatchPlagiarism tokenizeFile getPair d files customThreshold = Ok br ->
  In f files -> (2 <= List.length files)%nat ->
  exists tf, tokenizeFile (name f) (content f) = Ok tf.
Proof.
  intros Hrun Hin Hlen.
  destruct (tokenizeFile (name f) (content f)) as [tf | e] eqn:E; [now exists tf |].
  destruct (batch_fails_on_failing_file tokenizeFile getPair d files customThreshold
              f e Hin Hlen E) as [e' He'].
  congruence.
Qed.

Lemma validated (files : list Server.JsonFile) :
  (Num.len files <? 2) = false -> existsb Server.incomplete files = false ->
  (2 <= List.length (map Server.asFileInput files))%nat
  /\ Forall (fun file =>
               exists n c,
                 Server.json_name file = Some n /\ n <> EmptyString
                 /\ Server.json_content file = Some c /\ c <> EmptyString)
            files.
Proof.
  intros Hlen Hall. split.
  - rewrite length_map. apply Z.ltb_ge in Hlen. unfold Num.len in Hlen. lia.
  - apply Forall_forall. intros file Hin.
    assert (Hfile : Server.incomplete file = false).
    { destruct (Server.incomplete file) eqn:E; [| reflexivity].
      assert (existsb Server.incomplete files = true)
        by (apply existsb_exists; now exists file).
      congruence. }
    unfold Server.incomplete, Server.truthy in Hfile.
    apply orb_false_iff in Hfile as [Hn Hc].
    destruct (Server.json_name file) as [n |]; [| discriminate].
    destruct (Server.json_content file) as [c |]; [| discriminate].
    exists n, c.
    destruct (String.eqb_spec n EmptyString); [discriminate |].
    destruct (String.eqb_spec c EmptyString); [discriminate |].
    tauto.
Qed.

(** X26: [/api/detect-batch] answers a well-formed request, at least two
    files all with name and content, with status 500 as soon as one of the
    files fails to tokenize: no partial result is sent. *)
Theorem batch_endpoint_fails_as_a_whole {exn : Type}
    (tokenizeFile : string -> string -> Result exn TokenizedFile)
    (getPair : Z -> Z -> TokenizedFile -> TokenizedFile -> Pair.t)
    (errorMessage : exn -> option string)
    (files : list Server.JsonFile) (threshold : option Q)
    (file : Server.JsonFile) (e : exn)
    (Hcount : 2 <= Num.len files)
    (Hcomplete : existsb Server.incomplete files = false)
    (Hin : In file files)
    (Hfail : tokenizeFile (name (Server.asFileInput file))
               (content (Server.asFileInput file)) = Err e) :
  exists e',
    Server.postDetectBatch tokenizeFile getPair errorMessage (Some files) threshold
    = Server.Failure 500 (Server.errorText errorMessage e').
Proof.
  unfold Server.postDetectBatch.
  destruct (Z.ltb_spec (Num.len files) 2); [lia |]. rewrite Hcomplete.
  destruct (batch_fails_on_failing_file tokenizeFile getPair defaultDetector
              (map Server.asFileInput files) threshold (Server.asFileInput file) e)
    as [e' ->]; [now apply in_map | | exact Hfail | now exists e'].
  rewrite length_map. unfold Num.len in *. lia.
Qed.

Lemma batch_endpoint_fails_as_a_whole_witness :
  exists e',
    Server.postDetectBatch sampleTokenize sampleGetPair noMessage
      (Some [jsonA; jsonB; jsonBad]) None
    = Server.Failure 500 (Server.errorText noMessage e').
Proof.
  apply (batch_endpoint_fails_as_a_whole sampleTokenize sampleGetPair noMessage
           [jsonA; jsonB; jsonBad] None jsonBad "LexError"%string).
  - vm_compute. discriminate.
  - reflexivity.
  - right. right. left. reflexivity.
  - vm_compute. reflexivity.
Defined.

(** X27: a success of [/api/detect-batch] means that the request held at
    least two files, each with a non-empty name and content, that every one
    of them tokenized, and that the payload is the detector's batch result
    for them. *)
Theorem batch_endpoint_success {exn : Type}
    (tokenizeFile : string -> string -> Result exn TokenizedFile)
    (getPair : Z -> Z -> TokenizedFile -> TokenizedFile -> Pair.t)
    (errorMessage : exn -> option string)
    (body : option (list Server.JsonFile)) (threshold : option Q)
    (br : BatchResult.t)
    (Hok : Server.postDetectBatch tokenizeFile getPair errorMessage body threshold
           = Server.Success br) :
  exists files,
    body = Some files
    /\ 2 <= Num.len files
    /\ Forall (fun file =>
                 exists n c tf,
                   Server.json_name file = Some n /\ n <> EmptyString
                   /\ Server.json_content file = Some c /\ c <> EmptyString
                   /\ tokenizeFile n c = Ok tf)
              files
    /\ detectBatchPlagiarism tokenizeFile getPair defaultDetector
         (map Server.asFileInput files) threshold = Ok br.
Proof.
  unfold Server.postDetectBatch in Hok.
  destruct body as [files |]; [| discriminate].
  destruct (Num.len files <? 2) eqn:Hlen; [discriminate |].
  destruct (existsb Server.incomplete files) eqn:Hall; [discriminate |].
  destruct (detectBatchPlagiarism tokenizeFile getPair defaultDetector
              (map Server.asFileInput files) threshold) as [br' | e] eqn:Hrun;
    [| discriminate].
  injection Hok as <-.
  destruct (validated files Hlen Hall) as [Hcount Hfiles].
  exists files. split; [reflexivity |].
  split; [apply Z.ltb_ge in Hlen; exact Hlen |].
  split; [| exact Hrun].
  apply Forall_forall. intros file Hin.
  rewrite Forall_forall in Hfiles.
  destruct (Hfiles file Hin) as (n & c & Hn & Hnz & Hc & Hcz).
  destruct (batch_success_tokenizes tokenizeFile getPair defaultDetector
              (map Server.asFileInput files) threshold br' (Server.asFileInput file)
              Hrun (in_map _ _ _ Hin) Hcount) as [tf Htf].
  unfold Server.asFileInput in Htf. rewrite Hn, Hc in Htf. cbn in Htf.
  exists n, c, tf. tauto.
Qed.

Lemma batch_endpoint_success_witness :
  exists br files,
    Some [jsonA; jsonB] = Some files
    /\ 2 <= Num.len files
    /\ detectBatchPlagiarism sampleTokenize sampleGetPair defaultDetector
         (map Server.asFileInput files) None = Ok br.
Proof.
  destruct (Server.postDetectBatch sampleTokenize sampleGetPair noMessage
              (Some [jsonA; jsonB]) None) as [br | status error] eqn:Hok.
  - destruct (batch_endpoint_success sampleTokenize sampleGetPair noMessage
                (Some [jsonA; jsonB]) None br Hok) as (files & H1 & H2 & _ & H4).
    exists br, files. tauto.
  - exfalso. revert Hok. unfold Server.postDetectBatch.
    cbn [Num.len List.length Z.of_nat Z.ltb Z.compare existsb].
    rewrite detectBatchPlagiarism_traverse. vm_compute. discriminate.
Defined.

(** * Consistency of a comparison result *)

Lemma mapFragments_counts
    (d : Detector) (pair : Pair.t) (tf1 tf2 : TokenizedFile) (code1 code2 : string) :
  Mapping.significantMappedFragments (mapFragments d pair tf1 tf2 code1 code2)
  <= Mapping.totalMappedFragments (mapFragments d pair tf1 tf2 code1 code2)
  /\ kgramSize d
     * Mapping.significantMappedFragments (mapFragments d pair tf1 tf2 code1 code2)
     <= Mapping.totalSharedTokens (mapFragments d pair tf1 tf2 code1 code2).
Proof.
  destruct (mapFragments_kept d pair tf1 tf2 code1 code2) as [Hall Hcount].
  rewrite Hcount. clear Hcount. revert Hall. unfold mapFragments.
  cbn [Mapping.mappedFragments Mapping.totalMappedFragments Mapping.totalSharedTokens].
  intro Hall. split.
  - unfold Num.len. apply inj_le.
    etransitivity; [apply filter_shorter |].
    unfold mapi. now rewrite mapi_from_length.
  - rewrite fold_left_total, Z.add_0_l.
    apply total_at_least. eapply Forall_impl; [| exact Hall]. cbn. tauto.
Qed.

(** X28: the counts of a comparison result agree with its fragments:
    [significantMappedFragments] is the number of [mappedFragments] and at
    most [totalMappedFragments], every fragment listed is significant for the
    detector's [kgramSize], [totalSharedTokens] is at least [kgramSize] times
    their number, and the overall similarity is the weighted syntactic one. *)
Theorem detect_result_consistent {exn : Type}
    (tokenizeFile : string -> string -> Result exn TokenizedFile)
    (getPair : Z -> Z -> TokenizedFile -> TokenizedFile -> Pair.t)
    (d : Detector) (file1 file2 : FileInput) (customThreshold : option Q)
    (r : PlagiarismResult.t)
    (Hrun : detectPlagiarism tokenizeFile getPair d file1 file2 customThreshold = Ok r) :
  PlagiarismResult.significantMappedFragments r
  = Num.len (PlagiarismResult.mappedFragments r)
  /\ PlagiarismResult.significantMappedFragments r
     <= PlagiarismResult.totalMappedFragments r
  /\ Forall (fun f =>
               (3 # 10 <= MappedFragment.confidence f)%Q
               /\ kgramSize d <= Num.len (MappedFragment.sharedTokens f))
            (PlagiarismResult.mappedFragments r)
  /\ kgramSize d * PlagiarismResult.significantMappedFragments r
     <= PlagiarismResult.totalSharedTokens r
  /\ PlagiarismResult.overallSimilarity r
     = (PlagiarismResult.syntacticSimilarity r * syntacticWeight d)%Q
  /\ PlagiarismResult.file1 r = name file1
  /\ PlagiarismResult.file2 r = name file2.
Proof.
  unfold detectPlagiarism in Hrun.
  destruct (tokenizeFile (name file1) (content file1)) as [tf1 | e1]; [| discriminate].
  destruct (tokenizeFile (name file2) (content file2)) as [tf2 | e2]; [| discriminate].
  cbn [bind] in Hrun. injection Hrun as <-.
  cbn [PlagiarismResult.significantMappedFragments PlagiarismResult.mappedFragments
       PlagiarismResult.totalMappedFragments PlagiarismResult.totalSharedTokens
       PlagiarismResult.overallSimilarity PlagiarismResult.syntacticSimilarity
       PlagiarismResult.file1 PlagiarismResult.file2
       performSyntacticAnalysis Syntactic.pair Syntactic.similarity].
  set (pair := getPair (kgramSize d) (windowSize d) tf1 tf2).
  destruct (mapFragments_kept d pair tf1 tf2 (content file1) (content file2))
    as [Hall Hcount].
  destruct (mapFragments_counts d pair tf1 tf2 (content file1) (content file2))
    as [Htotal Htokens].
  split; [exact Hcount |].
  split; [exact Htotal |].
  split; [exact Hall |].
  split; [exact Htokens |].
  repeat split.
Qed.

Lemma detect_result_consistent_witness :
  exists r,
    detectPlagiarism sampleTokenize sampleGetPair defaultDetector
      sampleA sampleB None = Ok r
    /\ PlagiarismResult.significantMappedFragments r
       = Num.len (PlagiarismResult.mappedFragments r)
    /\ 8 * PlagiarismResult.significantMappedFragments r
       <= PlagiarismResult.totalSharedTokens r.
Proof.
  eexists. split; [vm_compute; reflexivity |].
  destruct (detect_result_consistent sampleTokenize sampleGetPair defaultDetector
              sampleA sampleB None _ eq_refl) as (H1 & _ & _ & H4 & _).
  split; [exact H1 | exact H4].
Defined.
